(** * Wind-turbine audio telemetry: packet layout, feature math, extractor
      and sender state machines.

    Shallow embedding of

    - [audio_features.h] / [audio_features.c]: the packed wire record and the
      integer feature computations (zero crossings, peak amplitude);
    - [feature_extraction.c]: the accumulation loop and packet assembly;
    - [NetXDuo/App/app_telemetry.c]: the UDP sender with its one-slot cache;
    - [STM32CubeIDE/Application/User/Core/app_telemetry.c]: the sender with
      the overwriting ring buffer;
    - [Core/Src/app_telemetry.c] with [Core/Inc/app_telemetry.h]: the sender
      with the rejecting ring buffer and the unpacked record.

    C integers are [Z] with the wrap-around of each width written out.
    Arrays are lists: an [int16_t] or [uint32_t] array is read with [nth],
    an array of records with [!!!], and both are updated with
    [<[ i := x ]>]. *)

From Stdlib Require Import ZArith Lia.
From stdpp Require Import base list.

Open Scope Z_scope.

(** ** Fixed-width integers *)

Definition uint8_t (x : Z) : Z := x mod 2 ^ 8.
Definition uint16_t (x : Z) : Z := x mod 2 ^ 16.
Definition uint32_t (x : Z) : Z := x mod 2 ^ 32.

(** Conversion to [int16_t] as arm-none-eabi-gcc does it: reduction modulo
    2^16 into [-32768, 32767]. *)
Definition int16_t (x : Z) : Z := (x + 2 ^ 15) mod 2 ^ 16 - 2 ^ 15.

Definition is_int16 (x : Z) : Prop := -32768 <= x <= 32767.

(** ** Structure layout (C rules for [sizeof] and member offsets) *)

Inductive ctype : Type :=
  | c_uint8
  | c_uint16
  | c_uint32
  | c_float
  | c_array (elt : ctype) (n : Z).

Fixpoint sizeof (t : ctype) : Z :=
  match t with
  | c_uint8 => 1
  | c_uint16 => 2
  | c_uint32 => 4
  | c_float => 4
  | c_array elt n => n * sizeof elt
  end.

Fixpoint alignof (t : ctype) : Z :=
  match t with
  | c_uint8 => 1
  | c_uint16 => 2
  | c_uint32 => 4
  | c_float => 4
  | c_array elt _ => alignof elt
  end.

Definition align_up (off a : Z) : Z := (off + a - 1) / a * a.

(** [packed = true] is [__attribute__((packed))]: every member has
    alignment 1. *)
Definition member_align (packed : bool) (t : ctype) : Z :=
  if packed then 1 else alignof t.

(** Offsets of the members laid out from [off], and the offset after the
    last one. *)
Fixpoint member_offsets (packed : bool) (off : Z) (ms : list ctype)
  : list Z * Z :=
  match ms with
  | [] => ([], off)
  | t :: ms' =>
      let o := align_up off (member_align packed t) in
      let '(os, e) := member_offsets packed (o + sizeof t) ms' in
      (o :: os, e)
  end.

Definition struct_align (packed : bool) (ms : list ctype) : Z :=
  foldr (fun t a => Z.max (member_align packed t) a) 1 ms.

Definition sizeof_struct (packed : bool) (ms : list ctype) : Z :=
  align_up (snd (member_offsets packed 0 ms)) (struct_align packed ms).

(** Little-endian image of the low [n] bytes of [v] (Cortex-M33 is
    little-endian; the payload is a [memcpy] of the object). *)
Fixpoint le_bytes (n : nat) (v : Z) : list Z :=
  match n with
  | O => []
  | S n' => Z.land v 255 :: le_bytes n' (Z.shiftr v 8)
  end.

(** Image of a C array of [n] elements of [w] bytes each. *)
Definition le_array (n : nat) (w : nat) (a : list Z) : list Z :=
  mjoin ((fun i => le_bytes w (nth i a 0)) <$> seq 0 n).

(** ** audio_features.h *)

Module AudioFeatures.

Definition AUDIO_TELEMETRY_VERSION : Z := 1.
Definition AUDIO_SAMPLE_RATE : Z := 16000.
Definition AUDIO_FRAME_SIZE : Z := 512.
Definition AUDIO_FRAMES_PER_PACKET : Z := 4.
Definition AUDIO_SAMPLES_PER_PACKET : Z :=
  AUDIO_FRAME_SIZE * AUDIO_FRAMES_PER_PACKET.
Definition FFT_SIZE : Z := 512.
Definition FFT_BANDS : Z := 8.

Definition Q15_MAX : Z := 32767.

(** [AudioTelemetryPacket_t], declared [__attribute__((packed))]. *)
Record AudioTelemetryPacket_t : Type := {
  version : Z;          (* uint8_t  *)
  reserved1 : Z;        (* uint8_t  *)
  seq_number : Z;       (* uint16_t *)
  timestamp_ms : Z;     (* uint32_t *)
  rms_raw : Z;          (* uint16_t *)
  rms_reserved : Z;     (* uint16_t *)
  zcr_count : Z;        (* uint16_t *)
  zcr_rate : Z;         (* uint16_t *)
  spl_db : Z;           (* uint16_t *)
  peak_amplitude : Z;   (* uint16_t *)
  fft_band : list Z;    (* uint32_t [FFT_BANDS] *)
  node_id : Z;          (* uint8_t  *)
  status_flags : Z;     (* uint8_t  *)
  error_count : Z;      (* uint16_t *)
  uptime_sec : Z;       (* uint32_t *)
  reserved3 : Z         (* uint32_t *)
}.

(** The member types, in declaration order. *)
Definition members : list ctype :=
  [ c_uint8; c_uint8; c_uint16; c_uint32;
    c_uint16; c_uint16; c_uint16; c_uint16; c_uint16; c_uint16;
    c_array c_uint32 FFT_BANDS;
    c_uint8; c_uint8; c_uint16; c_uint32; c_uint32 ].

(** The bytes that [memcpy (payload, pkt, sizeof *pkt)] puts on the
    wire. *)
Definition serialize (p : AudioTelemetryPacket_t) : list Z :=
  le_bytes 1 (version p) ++ le_bytes 1 (reserved1 p)
  ++ le_bytes 2 (seq_number p) ++ le_bytes 4 (timestamp_ms p)
  ++ le_bytes 2 (rms_raw p) ++ le_bytes 2 (rms_reserved p)
  ++ le_bytes 2 (zcr_count p) ++ le_bytes 2 (zcr_rate p)
  ++ le_bytes 2 (spl_db p) ++ le_bytes 2 (peak_amplitude p)
  ++ le_array (Z.to_nat FFT_BANDS) 4 (fft_band p)
  ++ le_bytes 1 (node_id p) ++ le_bytes 1 (status_flags p)
  ++ le_bytes 2 (error_count p) ++ le_bytes 4 (uptime_sec p)
  ++ le_bytes 4 (reserved3 p).

(** [memset (pkt, 0, sizeof *pkt)]. *)
Definition zero_packet : AudioTelemetryPacket_t :=
  {| version := 0; reserved1 := 0; seq_number := 0; timestamp_ms := 0;
     rms_raw := 0; rms_reserved := 0; zcr_count := 0; zcr_rate := 0;
     spl_db := 0; peak_amplitude := 0; fft_band := replicate 8 0;
     node_id := 0; status_flags := 0; error_count := 0; uptime_sec := 0;
     reserved3 := 0 |}.

End AudioFeatures.

(** ** Core/Inc/app_telemetry.h *)

Module CoreInc.

(** The unpacked [AudioTelemetryPacket_t] of [Core/Inc/app_telemetry.h].
    A [float] member is kept as its 32-bit binary32 pattern. *)
Record AudioTelemetryPacket_t : Type := {
  seq_number : Z;       (* uint32_t *)
  timestamp_ms : Z;     (* uint32_t *)
  uptime_sec : Z;       (* uint32_t *)
  rms_raw : Z;          (* float    *)
  spl_db : Z;           (* float    *)
  peak_amplitude : Z;   (* uint32_t *)
  zcr_rate : Z;         (* float    *)
  status_flags : Z;     (* uint32_t *)
  error_count : Z;      (* uint32_t *)
  fft_band : list Z     (* uint32_t [8] *)
}.

Definition members : list ctype :=
  [ c_uint32; c_uint32; c_uint32; c_float; c_float; c_uint32; c_float;
    c_uint32; c_uint32; c_array c_uint32 8 ].

(** The bytes that [nx_packet_data_append (nx_packet, &pkt,
    sizeof (AudioTelemetryPacket_t), ...)] appends. *)
Definition serialize (p : AudioTelemetryPacket_t) : list Z :=
  le_bytes 4 (seq_number p) ++ le_bytes 4 (timestamp_ms p)
  ++ le_bytes 4 (uptime_sec p) ++ le_bytes 4 (rms_raw p)
  ++ le_bytes 4 (spl_db p) ++ le_bytes 4 (peak_amplitude p)
  ++ le_bytes 4 (zcr_rate p) ++ le_bytes 4 (status_flags p)
  ++ le_bytes 4 (error_count p) ++ le_array 8 4 (fft_band p).

Definition zero_packet : AudioTelemetryPacket_t :=
  {| seq_number := 0; timestamp_ms := 0; uptime_sec := 0; rms_raw := 0;
     spl_db := 0; peak_amplitude := 0; zcr_rate := 0; status_flags := 0;
     error_count := 0; fft_band := replicate 8 0 |}.

End CoreInc.

(** ** audio_features.c *)

(** [sqrt], [log10f], [cos] and [sin] of the C library on [double] and
    [float] operands are outside the integer fragment embedded here.  The
    floating-point stretches of the three functions built on them are
    taken as an interface, on the samples they read; every theorem below
    holds for any implementation of it. *)
Class FloatDSP : Type := {
  (** The value [AudioFeatures_CalculateRMS] returns for the [count > 0]
      samples it reads: [Q15_MAX], or [normalized_rms * Q15_MAX] converted
      to [uint16_t]. *)
  rms_q15 : list Z -> Z;
  (** [AudioFeatures_CalculateSPL (rms_q15, 20e-6f)]. *)
  AudioFeatures_CalculateSPL : Z -> Z;
  (** [sqrt (band_energy) / 1000.0] converted to [uint32_t], for the
      [FFT_SIZE] samples the resonator loop reads and a band 0..7. *)
  band_magnitude : list Z -> Z -> Z
}.

Module AudioFeaturesC.

(** [AudioFeatures_CalculateRMS (samples, count)] with a non-null
    [samples]. *)
Definition AudioFeatures_CalculateRMS `{dsp : FloatDSP}
    (samples : list Z) (count : Z) : Z :=
  if count =? 0 then 0
  else uint16_t (rms_q15 (take (Z.to_nat count) samples)).

(** [AudioFeatures_ComputeFFTBands (samples, bands)] with non-null
    pointers: the returned [int] and the eight values left in [bands].
    The loop over [n] reads [samples[0 .. FFT_SIZE - 1]] whatever the
    length of the array; each magnitude is clamped to 1000000. *)
Definition AudioFeatures_ComputeFFTBands `{dsp : FloatDSP}
    (samples : list Z) : Z * list Z :=
  (0,
   (fun band =>
      let magnitude :=
        uint32_t (band_magnitude
                    (take (Z.to_nat AudioFeatures.FFT_SIZE) samples)
                    (Z.of_nat band)) in
      if 1000000 <? magnitude then 1000000 else magnitude)
   <$> seq 0 (Z.to_nat AudioFeatures.FFT_BANDS)).

(** The condition of the [if] in the loop of
    [AudioFeatures_CalculateZCR], on [samples[i-1]] and [samples[i]]. *)
Definition sign_change (a b : Z) : bool :=
  (0 <=? a) && (b <? 0) || (a <? 0) && (0 <=? b).

(** The loop [for (i = 1; i < count; i++)] with its [uint32_t]
    counter. *)
Definition zero_crossings (samples : list Z) (count : Z) : Z :=
  foldl (fun zc i =>
           if sign_change (nth (i - 1) samples 0) (nth i samples 0)
           then uint32_t (zc + 1) else zc)
        0 (seq 1 (Z.to_nat count - 1)).

Definition AudioFeatures_CalculateZCR (samples : list Z) (count : Z) : Z :=
  if count <? 2 then 0
  else
    let zcr_percent :=
      uint16_t (uint32_t (zero_crossings samples count * 100) / count) in
    if 100 <? zcr_percent then 100 else zcr_percent.

(** One turn of the loop of [AudioFeatures_FindPeakAmplitude]:
    [abs_val] is an [int16_t], so [-abs_val] is converted back to
    16 bits before the [uint16_t] cast. *)
Definition peak_step (peak : Z) (sample : Z) : Z :=
  let abs_val := sample in
  let abs_val := if abs_val <? 0 then int16_t (- abs_val) else abs_val in
  if peak <? uint16_t abs_val then uint16_t abs_val else peak.

Definition AudioFeatures_FindPeakAmplitude (samples : list Z) (count : Z)
  : Z :=
  if count =? 0 then 0
  else foldl (fun peak i => peak_step peak (nth i samples 0))
             0 (seq 0 (Z.to_nat count)).

End AudioFeaturesC.

(** The number of places where consecutive samples differ in sign: one of
    the pair is negative and the other is not. *)
Fixpoint sign_transitions (l : list Z) : nat :=
  match l with
  | a :: (b :: _) as l' =>
      Nat.add
        (if bool_decide ((a < 0 /\ 0 <= b) \/ (0 <= a /\ b < 0))
         then 1%nat else 0%nat)
        (sign_transitions l')
  | _ => 0%nat
  end.

(** ** ThreadX and NetX services used by the threads *)

Module ThreadX.

Definition TX_SUCCESS : Z := 0.
Definition TX_PTR_ERROR : Z := 3.
Definition TX_QUEUE_EMPTY : Z := 10.
Definition TX_QUEUE_FULL : Z := 11.
Definition TX_NO_WAIT : Z := 0.
Definition TX_WAIT_FOREVER : Z := 4294967295.

Definition NX_SUCCESS : Z := 0.
Definition NX_PTR_ERROR : Z := 7.
Definition NX_NOT_ENABLED : Z := 20.

(** A message queue: its capacity in messages and the messages waiting,
    oldest first. *)
Record TX_QUEUE (M : Type) : Type := {
  tx_queue_capacity : nat;
  tx_queue_messages : list M
}.
Arguments tx_queue_capacity {M} _.
Arguments tx_queue_messages {M} _.

(** Modelled from the spec: [tx_queue_send] of the ThreadX kernel, whose
    source is not part of the repository.  "send - non-blocking, fails
    immediately if the queue is full": with room the message is appended
    and the call returns [TX_SUCCESS]; on a full queue a call with
    [TX_NO_WAIT] returns [TX_QUEUE_FULL] at once and leaves the queue as
    it is.  With any other wait option the caller is suspended on a full
    queue: [None]. *)
Definition tx_queue_send {M} (q : TX_QUEUE M) (msg : M) (wait_option : Z)
  : option (Z * TX_QUEUE M) :=
  if bool_decide (length (tx_queue_messages q) < tx_queue_capacity q)%nat
  then Some (TX_SUCCESS,
             {| tx_queue_capacity := tx_queue_capacity q;
                tx_queue_messages := tx_queue_messages q ++ [msg] |})
  else if wait_option =? TX_NO_WAIT then Some (TX_QUEUE_FULL, q)
  else None.

(** The consumer side: the oldest message leaves the queue. *)
Definition tx_queue_take {M} (q : TX_QUEUE M) : TX_QUEUE M :=
  {| tx_queue_capacity := tx_queue_capacity q;
     tx_queue_messages := tail (tx_queue_messages q) |}.

End ThreadX.

(** ** audio_acquisition.h *)

Module AudioAcquisition.

Record AudioFrame_t : Type := {
  samples : list Z;     (* int16_t [AUDIO_FRAME_SIZE] *)
  timestamp_ms : Z;     (* uint32_t *)
  frame_number : Z;     (* uint32_t *)
  error_flags : Z       (* uint8_t  *)
}.

(** A value of the C type: 512 samples, each an [int16_t]. *)
Definition wf_frame (f : AudioFrame_t) : Prop :=
  length (samples f) = Z.to_nat AudioFeatures.AUDIO_FRAME_SIZE
  /\ Forall is_int16 (samples f).

End AudioAcquisition.

(** ** feature_extraction.h and feature_extraction.c *)

Module FeatureExtraction.

Import ThreadX.
Export AudioAcquisition.
Abbreviation AUDIO_FRAME_SIZE := AudioFeatures.AUDIO_FRAME_SIZE.
Abbreviation AUDIO_SAMPLES_PER_PACKET := AudioFeatures.AUDIO_SAMPLES_PER_PACKET.
Abbreviation AudioTelemetryPacket_t := AudioFeatures.AudioTelemetryPacket_t.

Definition FEATURE_EXTRACT_QUEUE_DEPTH : nat := 2.

Record FeatureBuffer_t : Type := {
  accumulated_samples : list Z;   (* int16_t [AUDIO_SAMPLES_PER_PACKET] *)
  sample_count : Z;               (* uint32_t *)
  start_timestamp_ms : Z;         (* uint32_t *)
  frame_count : Z                 (* uint32_t *)
}.

(** [FeatureExtraction_Context_t]; the thread control block, the input
    queue pointer and the two allocation pointers carry no data of the
    loop. *)
Record FeatureExtraction_Context_t : Type := {
  output_queue : TX_QUEUE AudioTelemetryPacket_t;
  is_running : Z;
  packet_count : Z;               (* uint32_t *)
  error_count : Z;                (* uint32_t *)
  seq_number : Z;                 (* uint32_t *)
  feature_buffer : FeatureBuffer_t
}.

(** The file-scope variables of [feature_extraction.c]. *)
Record globals : Type := {
  feature_ctx : FeatureExtraction_Context_t;
  node_id : Z;                    (* uint32_t *)
  boot_time_ms : Z;               (* uint32_t *)
  last_error_flags : Z            (* uint32_t *)
}.

Definition set_ctx (g : globals) (c : FeatureExtraction_Context_t)
  : globals :=
  {| feature_ctx := c; node_id := node_id g;
     boot_time_ms := boot_time_ms g;
     last_error_flags := last_error_flags g |}.

Definition set_last_error_flags (g : globals) (v : Z) : globals :=
  {| feature_ctx := feature_ctx g; node_id := node_id g;
     boot_time_ms := boot_time_ms g; last_error_flags := v |}.

Definition set_output_queue (c : FeatureExtraction_Context_t)
    (q : TX_QUEUE AudioTelemetryPacket_t) : FeatureExtraction_Context_t :=
  {| output_queue := q; is_running := is_running c;
     packet_count := packet_count c; error_count := error_count c;
     seq_number := seq_number c; feature_buffer := feature_buffer c |}.

Definition set_packet_count (c : FeatureExtraction_Context_t) (v : Z)
  : FeatureExtraction_Context_t :=
  {| output_queue := output_queue c; is_running := is_running c;
     packet_count := v; error_count := error_count c;
     seq_number := seq_number c; feature_buffer := feature_buffer c |}.

Definition set_error_count (c : FeatureExtraction_Context_t) (v : Z)
  : FeatureExtraction_Context_t :=
  {| output_queue := output_queue c; is_running := is_running c;
     packet_count := packet_count c; error_count := v;
     seq_number := seq_number c; feature_buffer := feature_buffer c |}.

Definition set_seq_number (c : FeatureExtraction_Context_t) (v : Z)
  : FeatureExtraction_Context_t :=
  {| output_queue := output_queue c; is_running := is_running c;
     packet_count := packet_count c; error_count := error_count c;
     seq_number := v; feature_buffer := feature_buffer c |}.

Definition set_feature_buffer (c : FeatureExtraction_Context_t)
    (b : FeatureBuffer_t) : FeatureExtraction_Context_t :=
  {| output_queue := output_queue c; is_running := is_running c;
     packet_count := packet_count c; error_count := error_count c;
     seq_number := seq_number c; feature_buffer := b |}.

(** [memset (&feature_ctx.feature_buffer, 0, sizeof ...)]. *)
Definition zero_buffer : FeatureBuffer_t :=
  {| accumulated_samples :=
       replicate (Z.to_nat AUDIO_SAMPLES_PER_PACKET) 0;
     sample_count := 0; start_timestamp_ms := 0; frame_count := 0 |}.

(** The state [FeatureExtraction_Init] leaves on success, with the
    initialisers of the file-scope variables. *)
Definition FeatureExtraction_Init : globals :=
  {| feature_ctx :=
       {| output_queue :=
            {| tx_queue_capacity := FEATURE_EXTRACT_QUEUE_DEPTH;
               tx_queue_messages := [] |};
          is_running := 0; packet_count := 0; error_count := 0;
          seq_number := 0; feature_buffer := zero_buffer |};
     node_id := 1; boot_time_ms := 0; last_error_flags := 0 |}.

(** [FeatureExtraction_Start]; [now] is what [tx_time_get ()] returns. *)
Definition FeatureExtraction_Start (now : Z) (g : globals) : globals :=
  let c := feature_ctx g in
  {| feature_ctx :=
       {| output_queue := output_queue c; is_running := 1;
          packet_count := packet_count c; error_count := error_count c;
          seq_number := seq_number c;
          feature_buffer := feature_buffer c |};
     node_id := node_id g; boot_time_ms := now;
     last_error_flags := last_error_flags g |}.

(** [memcpy (&dst[off], src, n * sizeof (int16_t))].  A copy that would
    run past the end of [dst] is undefined behaviour: [None]. *)
Definition memcpy_samples (dst : list Z) (off : Z) (src : list Z) (n : Z)
  : option (list Z) :=
  if bool_decide (0 <= off /\ off + n <= Z.of_nat (length dst)) then
    Some (foldl (fun d i => <[(Z.to_nat off + i)%nat := nth i src 0]> d)
                dst (seq 0 (Z.to_nat n)))
  else None.

(** Outcome of one turn of a thread loop. *)
Inductive outcome (S : Type) : Type :=
  | Continue (s : S)     (* back at the top of [while (1)] *)
  | Suspended            (* blocked inside a kernel call *)
  | Overrun.             (* a write past the end of an array *)
Arguments Continue {S} _.
Arguments Suspended {S}.
Arguments Overrun {S}.

(** What one turn of the loop takes from outside: the status and frame
    of [tx_queue_receive], and the tick count [tx_time_get ()] returns
    if it is called. *)
Record input : Type := {
  rx_status : Z;
  rx_frame : AudioFrame_t;
  now : Z
}.

Section Thread.

Context `{dsp : FloatDSP}.

(** [FeatureExtraction_ProcessBuffer (buf, pkt)].  [None] is the
    return value -1, where [*pkt] is not written; [Some pkt] is the
    return value 0 with the packet built.  The pointers are never
    null in the one call of the file. *)
Definition FeatureExtraction_ProcessBuffer (g : globals) (now : Z)
    (buf : FeatureBuffer_t) : option AudioTelemetryPacket_t * globals :=
  if sample_count buf =? 0 then (None, g)
  else
    let c := feature_ctx g in
    (* pkt->seq_number = feature_ctx.seq_number++; *)
    let pkt_seq_number := uint16_t (seq_number c) in
    let seq1 := uint32_t (seq_number c + 1) in
    let seq2 := if 65535 <? seq1 then 0 else seq1 in
    let g' := set_ctx g (set_seq_number c seq2) in
    let ticks_elapsed := uint32_t (now - boot_time_ms g) in
    let rms := AudioFeaturesC.AudioFeatures_CalculateRMS
                 (accumulated_samples buf) (sample_count buf) in
    let fft := AudioFeaturesC.AudioFeatures_ComputeFFTBands
                 (accumulated_samples buf) in
    let fft_result := fst fft in
    let fft_bands_tmp :=
      if fft_result =? 0 then snd fft else replicate 8 0 in
    (Some
       {| AudioFeatures.version := AudioFeatures.AUDIO_TELEMETRY_VERSION;
          AudioFeatures.reserved1 := 0;
          AudioFeatures.seq_number := pkt_seq_number;
          AudioFeatures.timestamp_ms := start_timestamp_ms buf;
          AudioFeatures.rms_raw := rms;
          AudioFeatures.rms_reserved := 0;
          AudioFeatures.zcr_count := uint16_t (sample_count buf / 2);
          AudioFeatures.zcr_rate :=
            AudioFeaturesC.AudioFeatures_CalculateZCR
              (accumulated_samples buf) (sample_count buf);
          AudioFeatures.spl_db :=
            uint16_t (AudioFeatures_CalculateSPL rms);
          AudioFeatures.peak_amplitude :=
            AudioFeaturesC.AudioFeatures_FindPeakAmplitude
              (accumulated_samples buf) (sample_count buf);
          AudioFeatures.fft_band := fft_bands_tmp;
          AudioFeatures.node_id := uint8_t (node_id g);
          AudioFeatures.status_flags :=
            uint8_t (Z.land (last_error_flags g) 255);
          AudioFeatures.error_count :=
            uint16_t (Z.land (error_count c) 65535);
          AudioFeatures.uptime_sec := ticks_elapsed / 1000;
          AudioFeatures.reserved3 := 0 |},
     g').

(** The block "Copy frame samples to accumulator" of
    [FeatureExtraction_ThreadEntry]. *)
Definition accumulate (g : globals) (frame : AudioFrame_t)
  : outcome globals :=
  let c := feature_ctx g in
  let buf := feature_buffer c in
  let sample_offset := sample_count buf in
  if uint32_t (sample_offset + AUDIO_FRAME_SIZE)
       <=? AUDIO_SAMPLES_PER_PACKET
  then
    match memcpy_samples (accumulated_samples buf) sample_offset
            (samples frame) AUDIO_FRAME_SIZE with
    | None => Overrun
    | Some acc =>
        let count := uint32_t (sample_count buf + AUDIO_FRAME_SIZE) in
        let start :=
          if count =? 0 then timestamp_ms frame
          else start_timestamp_ms buf in
        let buf' :=
          {| accumulated_samples := acc; sample_count := count;
             start_timestamp_ms := start;
             frame_count := frame_count buf |} in
        let flags :=
          if error_flags frame =? 0 then last_error_flags g
          else Z.lor (last_error_flags g) (error_flags frame) in
        Continue
          (set_last_error_flags (set_ctx g (set_feature_buffer c buf'))
             flags)
    end
  else Continue g.

(** "Reset accumulator for next batch". *)
Definition reset_accumulator (g : globals) : globals :=
  set_last_error_flags
    (set_ctx g (set_feature_buffer (feature_ctx g) zero_buffer)) 0.

(** The block "Check if we have accumulated enough frames". *)
Definition emit (g : globals) (now : Z) : outcome globals :=
  if AUDIO_SAMPLES_PER_PACKET <=? sample_count (feature_buffer (feature_ctx g))
  then
    match FeatureExtraction_ProcessBuffer g now
            (feature_buffer (feature_ctx g)) with
    | (Some telemetry_pkt, g1) =>
        let c := feature_ctx g1 in
        match tx_queue_send (output_queue c) telemetry_pkt TX_NO_WAIT with
        | None => Suspended
        | Some (status, q) =>
            let c := set_output_queue c q in
            let c :=
              if status =? TX_SUCCESS
              then set_packet_count c (uint32_t (packet_count c + 1))
              else set_error_count c (uint32_t (error_count c + 1)) in
            Continue (reset_accumulator (set_ctx g1 c))
        end
    | (None, g1) =>
        let c := feature_ctx g1 in
        let c := set_error_count c (uint32_t (error_count c + 1)) in
        Continue (reset_accumulator (set_ctx g1 c))
    end
  else Continue g.

(** One turn of the [while (1)] of [FeatureExtraction_ThreadEntry]. *)
Definition FeatureExtraction_ThreadEntry (g : globals) (i : input)
  : outcome globals :=
  let c := feature_ctx g in
  if is_running c =? 0 then Continue g
  else if rx_status i =? TX_QUEUE_EMPTY then Continue g
  else if negb (rx_status i =? TX_SUCCESS) then
    Continue (set_ctx g (set_error_count c (uint32_t (error_count c + 1))))
  else
    match accumulate g (rx_frame i) with
    | Continue g1 => emit g1 (now i)
    | o => o
    end.

(** What happens to the extractor's variables between two looks at
    them: a turn of its own loop, or the telemetry thread taking the
    oldest packet from the output queue. *)
Inductive event : Type :=
  | Turn (i : input)
  | Drain.

Definition step (g : globals) (e : event) : outcome globals :=
  match e with
  | Turn i => FeatureExtraction_ThreadEntry g i
  | Drain =>
      Continue
        (set_ctx g (set_output_queue (feature_ctx g)
                      (tx_queue_take (output_queue (feature_ctx g)))))
  end.

Fixpoint run (g : globals) (es : list event) : outcome globals :=
  match es with
  | [] => Continue g
  | e :: es' =>
      match step g e with
      | Continue g' => run g' es'
      | o => o
      end
  end.

(** The packet, if any, that a turn of the loop builds. *)
Definition built (g : globals) (e : event)
  : option AudioTelemetryPacket_t :=
  match e with
  | Turn i =>
      let c := feature_ctx g in
      if (is_running c =? 0) || negb (rx_status i =? TX_SUCCESS) then None
      else
        match accumulate g (rx_frame i) with
        | Continue g1 =>
            if AUDIO_SAMPLES_PER_PACKET
                 <=? sample_count (feature_buffer (feature_ctx g1))
            then fst (FeatureExtraction_ProcessBuffer g1 (now i)
                        (feature_buffer (feature_ctx g1)))
            else None
        | _ => None
        end
  | Drain => None
  end.

(** The packets built along a run, oldest first. *)
Fixpoint packets_built (g : globals) (es : list event)
  : list AudioTelemetryPacket_t :=
  match es with
  | [] => []
  | e :: es' =>
      match step g e with
      | Continue g' =>
          match built g e with
          | Some p => p :: packets_built g' es'
          | None => packets_built g' es'
          end
      | _ => []
      end
  end.

(** The packets waiting in the output queue after a run, oldest
    first. *)
Definition queued_after (g : globals) (es : list event)
  : list AudioTelemetryPacket_t :=
  match run g es with
  | Continue g' => tx_queue_messages (output_queue (feature_ctx g'))
  | _ => []
  end.

End Thread.

End FeatureExtraction.

(** ** NetXDuo/App/app_telemetry.c *)

Module NetXTelemetry.

Import ThreadX.
Abbreviation AudioTelemetryPacket_t := AudioFeatures.AudioTelemetryPacket_t.

Definition TELEMETRY_UDP_PORT_TX : Z := 5001.
Definition TELEMETRY_UDP_PORT_RX : Z := 5000.
Definition TELEMETRY_DEFAULT_IP_ADDR : Z := 4294967295.

(** [Telemetry_Context_t]; [ip_instance] records whether the pointer is
    non-null. *)
Record Telemetry_Context_t : Type := {
  ip_instance : bool;
  is_ready : Z;
  is_running : Z;
  receiver_ip : Z;
  receiver_port : Z;
  use_broadcast : Z;              (* uint8_t  *)
  tx_count : Z;                   (* uint32_t *)
  error_count : Z                 (* uint32_t *)
}.

(** The file-scope variables. *)
Record globals : Type := {
  telemetry_ctx : Telemetry_Context_t;
  telemetry_last_pkt : AudioTelemetryPacket_t;
  telemetry_last_pkt_valid : Z    (* volatile uint8_t *)
}.

Definition set_counts (c : Telemetry_Context_t) (tx err : Z)
  : Telemetry_Context_t :=
  {| ip_instance := ip_instance c; is_ready := is_ready c;
     is_running := is_running c; receiver_ip := receiver_ip c;
     receiver_port := receiver_port c; use_broadcast := use_broadcast c;
     tx_count := tx; error_count := err |}.

Definition set_ctx (g : globals) (c : Telemetry_Context_t) : globals :=
  {| telemetry_ctx := c; telemetry_last_pkt := telemetry_last_pkt g;
     telemetry_last_pkt_valid := telemetry_last_pkt_valid g |}.

(** What the NetX calls of one transmission return:
    [nx_packet_allocate] and [nx_udp_socket_send]. *)
Record transport : Type := {
  allocate_status : Z;
  send_status : Z
}.

(** A datagram handed to [nx_udp_socket_send]. *)
Record datagram : Type := {
  dest_ip : Z;
  dest_port : Z;
  payload : list Z
}.

(** [Telemetry_TransmitPacket (pkt)], where [pkt] is the address of the
    thread's local packet: the returned status, the datagram passed to
    [nx_udp_socket_send] if the call is reached, and the variables
    afterwards. *)
Definition Telemetry_TransmitPacket (g : globals)
    (pkt : AudioTelemetryPacket_t) (t : transport)
  : Z * option datagram * globals :=
  let c := telemetry_ctx g in
  if negb (ip_instance c) then (NX_PTR_ERROR, None, g)
  else if negb (allocate_status t =? NX_SUCCESS) then
    (allocate_status t, None,
     set_ctx g (set_counts c (tx_count c) (uint32_t (error_count c + 1))))
  else
    let d :=
      {| dest_ip := if use_broadcast c =? 0 then receiver_ip c
                    else 4294967295;
         dest_port := receiver_port c;
         payload := AudioFeatures.serialize pkt |} in
    if negb (send_status t =? NX_SUCCESS) then (send_status t, Some d, g)
    else (NX_SUCCESS, Some d, g).

(** What one turn of the loop takes from outside. *)
Record input : Type := {
  rx_status : Z;
  rx_pkt : AudioTelemetryPacket_t;
  net : transport
}.

(** One turn of the [while (1)] of [Telemetry_ThreadEntry]. *)
Definition Telemetry_ThreadEntry (g : globals) (i : input) : globals :=
  let c := telemetry_ctx g in
  if is_running c =? 0 then g
  else if is_ready c =? 0 then g
  else if rx_status i =? TX_QUEUE_EMPTY then g
  else if negb (rx_status i =? TX_SUCCESS) then
    set_ctx g (set_counts c (tx_count c) (uint32_t (error_count c + 1)))
  else
    let '(status, _, g1) := Telemetry_TransmitPacket g (rx_pkt i) (net i) in
    let c1 := telemetry_ctx g1 in
    let c2 :=
      if status =? NX_SUCCESS
      then set_counts c1 (uint32_t (tx_count c1 + 1)) (error_count c1)
      else set_counts c1 (tx_count c1) (uint32_t (error_count c1 + 1)) in
    {| telemetry_ctx := c2; telemetry_last_pkt := rx_pkt i;
       telemetry_last_pkt_valid := 1 |}.

(** [Telemetry_GetLastPacket (out)] with a non-null [out]: [Some] is the
    return value 1 with the record copied to [*out], [None] is 0. *)
Definition Telemetry_GetLastPacket (g : globals)
  : option AudioTelemetryPacket_t :=
  if telemetry_last_pkt_valid g =? 0 then None
  else Some (telemetry_last_pkt g).

(** The variables once [Telemetry_Init] and [Telemetry_Start] have
    succeeded. *)
Definition started : globals :=
  {| telemetry_ctx :=
       {| ip_instance := true; is_ready := 1; is_running := 1;
          receiver_ip := TELEMETRY_DEFAULT_IP_ADDR;
          receiver_port := TELEMETRY_UDP_PORT_RX;
          use_broadcast := 1; tx_count := 0; error_count := 0 |};
     telemetry_last_pkt := AudioFeatures.zero_packet;
     telemetry_last_pkt_valid := 0 |}.

(** By how much a failed transmission raises the error counter: an
    allocation failure is counted in [Telemetry_TransmitPacket] and again
    in [Telemetry_ThreadEntry]. *)
Definition errors_counted (g : globals) (t : transport) : Z :=
  if ip_instance (telemetry_ctx g) && negb (allocate_status t =? NX_SUCCESS)
  then 2 else 1.

End NetXTelemetry.

(** ** The ring buffer type of both [app_telemetry.c] under [Core] *)

Definition TELEMETRY_MAX_PACKETS : Z := 10.

(** [TelemetryBuffer_t]; the mutex is taken and released inside each
    access function, which is therefore one atomic step here. *)
Record TelemetryBuffer_t (P : Type) : Type := {
  packets : list P;                 (* P [TELEMETRY_MAX_PACKETS] *)
  write_index : Z;                  (* uint32_t *)
  read_index : Z;                   (* uint32_t *)
  packet_count : Z                  (* uint32_t *)
}.
Arguments packets {P} _.
Arguments write_index {P} _.
Arguments read_index {P} _.
Arguments packet_count {P} _.

(** The retained packets, oldest first: [packet_count] slots from
    [read_index] on, around the end of the array. *)
Definition retained {P} `{Inhabited P} (b : TelemetryBuffer_t P) : list P :=
  (fun k => packets b
              !!! Z.to_nat ((read_index b + Z.of_nat k)
                            mod TELEMETRY_MAX_PACKETS))
  <$> seq 0 (Z.to_nat (packet_count b)).

#[global] Instance packet_inhabited :
  Inhabited AudioFeatures.AudioTelemetryPacket_t :=
  populate AudioFeatures.zero_packet.

#[global] Instance core_packet_inhabited :
  Inhabited CoreInc.AudioTelemetryPacket_t :=
  populate CoreInc.zero_packet.

(** ** STM32CubeIDE/Application/User/Core/app_telemetry.c *)

Module CubeTelemetry.

Import ThreadX.
Abbreviation AudioTelemetryPacket_t := AudioFeatures.AudioTelemetryPacket_t.

Definition TELEMETRY_UDP_PORT : Z := 5001.

(** The file-scope variables. *)
Record globals : Type := {
  telemetry_buffer : TelemetryBuffer_t AudioTelemetryPacket_t;
  sequence_number : Z;            (* uint32_t *)
  tx_count : Z;                   (* uint32_t *)
  error_count : Z;                (* uint32_t *)
  telemetry_initialized : bool;
  telemetry_started : bool
}.

(** [Telemetry_BufferInit] on the zero-initialised static object. *)
Definition Telemetry_BufferInit : TelemetryBuffer_t AudioTelemetryPacket_t :=
  {| packets := replicate (Z.to_nat TELEMETRY_MAX_PACKETS)
                  AudioFeatures.zero_packet;
     write_index := 0; read_index := 0; packet_count := 0 |}.

(** [Telemetry_BufferPut (packet)]: the returned value and the buffer
    afterwards. *)
Definition Telemetry_BufferPut (b : TelemetryBuffer_t AudioTelemetryPacket_t)
    (packet : AudioTelemetryPacket_t)
  : Z * TelemetryBuffer_t AudioTelemetryPacket_t :=
  let pkts := <[Z.to_nat (write_index b) := packet]> (packets b) in
  let w := uint32_t (write_index b + 1) mod TELEMETRY_MAX_PACKETS in
  if packet_count b <? TELEMETRY_MAX_PACKETS then
    (1, {| packets := pkts; write_index := w;
           read_index := read_index b;
           packet_count := uint32_t (packet_count b + 1) |})
  else
    (1, {| packets := pkts; write_index := w;
           read_index :=
             uint32_t (read_index b + 1) mod TELEMETRY_MAX_PACKETS;
           packet_count := packet_count b |}).

(** [Telemetry_BufferGet (packet)]: [Some] is the return value 1 with
    the record copied out. *)
Definition Telemetry_BufferGet (b : TelemetryBuffer_t AudioTelemetryPacket_t)
  : option AudioTelemetryPacket_t * TelemetryBuffer_t AudioTelemetryPacket_t :=
  if 0 <? packet_count b then
    (Some (packets b !!! Z.to_nat (read_index b)),
     {| packets := packets b; write_index := write_index b;
        read_index := uint32_t (read_index b + 1) mod TELEMETRY_MAX_PACKETS;
        packet_count := uint32_t (packet_count b - 1) |})
  else (None, b).

(** [Telemetry_GetLastPacket (packet)] with a non-null [packet]: [Some]
    is the return value 1 with the record copied out, [None] is 0.  The
    variables are read only. *)
Definition Telemetry_GetLastPacket (g : globals)
  : option AudioTelemetryPacket_t :=
  if negb (telemetry_initialized g) then None
  else
    let b := telemetry_buffer g in
    if 0 <? packet_count b then
      let last_index :=
        uint32_t (write_index b + TELEMETRY_MAX_PACKETS - 1)
          mod TELEMETRY_MAX_PACKETS in
      Some (packets b !!! Z.to_nat last_index)
    else None.

(** What the NetX calls of [Telemetry_SendUDP] return. *)
Record transport : Type := {
  allocate_status : Z;
  append_status : Z;
  send_status : Z
}.

Definition Telemetry_SendUDP (g : globals) (t : transport) : Z :=
  if negb (telemetry_started g) then NX_NOT_ENABLED
  else if negb (allocate_status t =? NX_SUCCESS) then allocate_status t
  else if negb (append_status t =? NX_SUCCESS) then append_status t
  else send_status t.

Record input : Type := {
  rx_status : Z;
  rx_pkt : AudioTelemetryPacket_t;
  net : transport
}.

Definition set_seq_number (p : AudioTelemetryPacket_t) (v : Z)
  : AudioTelemetryPacket_t :=
  {| AudioFeatures.version := AudioFeatures.version p;
     AudioFeatures.reserved1 := AudioFeatures.reserved1 p;
     AudioFeatures.seq_number := v;
     AudioFeatures.timestamp_ms := AudioFeatures.timestamp_ms p;
     AudioFeatures.rms_raw := AudioFeatures.rms_raw p;
     AudioFeatures.rms_reserved := AudioFeatures.rms_reserved p;
     AudioFeatures.zcr_count := AudioFeatures.zcr_count p;
     AudioFeatures.zcr_rate := AudioFeatures.zcr_rate p;
     AudioFeatures.spl_db := AudioFeatures.spl_db p;
     AudioFeatures.peak_amplitude := AudioFeatures.peak_amplitude p;
     AudioFeatures.fft_band := AudioFeatures.fft_band p;
     AudioFeatures.node_id := AudioFeatures.node_id p;
     AudioFeatures.status_flags := AudioFeatures.status_flags p;
     AudioFeatures.error_count := AudioFeatures.error_count p;
     AudioFeatures.uptime_sec := AudioFeatures.uptime_sec p;
     AudioFeatures.reserved3 := AudioFeatures.reserved3 p |}.

(** One turn of the [while (1)] of [Telemetry_ThreadEntry]: the packet
    handed to [Telemetry_SendUDP] and [Telemetry_BufferPut], if the turn
    gets there, and the variables afterwards. *)
Definition Telemetry_ThreadEntry (g : globals) (i : input)
  : option AudioTelemetryPacket_t * globals :=
  if rx_status i =? TX_SUCCESS then
    (* packet.seq_number = sequence_number++; *)
    let packet := set_seq_number (rx_pkt i) (uint16_t (sequence_number g)) in
    let seq' := uint32_t (sequence_number g + 1) in
    let ok := Telemetry_SendUDP g (net i) =? NX_SUCCESS in
    (Some packet,
    {| telemetry_buffer :=
         snd (Telemetry_BufferPut (telemetry_buffer g) packet);
       sequence_number := seq';
       tx_count := if ok then uint32_t (tx_count g + 1) else tx_count g;
       error_count :=
         if ok then error_count g else uint32_t (error_count g + 1);
       telemetry_initialized := telemetry_initialized g;
       telemetry_started := telemetry_started g |})
  else if negb (rx_status i =? TX_QUEUE_EMPTY) then
    (None,
    {| telemetry_buffer := telemetry_buffer g;
       sequence_number := sequence_number g;
       tx_count := tx_count g;
       error_count := uint32_t (error_count g + 1);
       telemetry_initialized := telemetry_initialized g;
       telemetry_started := telemetry_started g |})
  else (None, g).

(** The packets handed to [Telemetry_SendUDP] along successive turns of
    the loop, oldest first. *)
Fixpoint packets_sent (g : globals) (ins : list input)
  : list AudioTelemetryPacket_t :=
  match ins with
  | [] => []
  | i :: ins' =>
      let '(o, g') := Telemetry_ThreadEntry g i in
      match o with
      | Some p => p :: packets_sent g' ins'
      | None => packets_sent g' ins'
      end
  end.

(** The variables once [Telemetry_Init] and [Telemetry_Start] have
    succeeded and the thread is created. *)
Definition started : globals :=
  {| telemetry_buffer := Telemetry_BufferInit; sequence_number := 0;
     tx_count := 0; error_count := 0;
     telemetry_initialized := true; telemetry_started := true |}.

End CubeTelemetry.

(** ** Core/Src/app_telemetry.c *)

Module CoreTelemetry.

Import ThreadX.
Abbreviation AudioTelemetryPacket_t := CoreInc.AudioTelemetryPacket_t.

Definition TELEMETRY_UDP_PORT : Z := 12345.

(** The file-scope variables. *)
Record globals : Type := {
  telemetry_buffer : TelemetryBuffer_t AudioTelemetryPacket_t;
  sequence_number : Z;            (* uint32_t *)
  telemetry_initialized : bool
}.

Definition Telemetry_BufferInit : TelemetryBuffer_t AudioTelemetryPacket_t :=
  {| packets := replicate (Z.to_nat TELEMETRY_MAX_PACKETS)
                  CoreInc.zero_packet;
     write_index := 0; read_index := 0; packet_count := 0 |}.

(** The variables after [Telemetry_Init]. *)
Definition Telemetry_Init : globals :=
  {| telemetry_buffer := Telemetry_BufferInit; sequence_number := 0;
     telemetry_initialized := true |}.

(** [Telemetry_BufferPut (packet)]: the returned [bool] and the buffer
    afterwards. *)
Definition Telemetry_BufferPut (b : TelemetryBuffer_t AudioTelemetryPacket_t)
    (packet : AudioTelemetryPacket_t)
  : bool * TelemetryBuffer_t AudioTelemetryPacket_t :=
  if packet_count b <? TELEMETRY_MAX_PACKETS then
    (true,
     {| packets := <[Z.to_nat (write_index b) := packet]> (packets b);
        write_index := uint32_t (write_index b + 1) mod TELEMETRY_MAX_PACKETS;
        read_index := read_index b;
        packet_count := uint32_t (packet_count b + 1) |})
  else (false, b).

(** [Telemetry_BufferGet (packet)]: [Some] is the return value [true]
    with the record copied out. *)
Definition Telemetry_BufferGet (b : TelemetryBuffer_t AudioTelemetryPacket_t)
  : option AudioTelemetryPacket_t * TelemetryBuffer_t AudioTelemetryPacket_t :=
  if 0 <? packet_count b then
    (Some (packets b !!! Z.to_nat (read_index b)),
     {| packets := packets b; write_index := write_index b;
        read_index := uint32_t (read_index b + 1) mod TELEMETRY_MAX_PACKETS;
        packet_count := uint32_t (packet_count b - 1) |})
  else (None, b).

(** [Telemetry_GetLastPacket (packet)] with a non-null [packet]. *)
Definition Telemetry_GetLastPacket (g : globals)
  : option AudioTelemetryPacket_t * globals :=
  if negb (telemetry_initialized g) then (None, g)
  else
    let '(r, b) := Telemetry_BufferGet (telemetry_buffer g) in
    (r, {| telemetry_buffer := b; sequence_number := sequence_number g;
           telemetry_initialized := telemetry_initialized g |}).

Definition set_seq_number (p : AudioTelemetryPacket_t) (v : Z)
  : AudioTelemetryPacket_t :=
  {| CoreInc.seq_number := v;
     CoreInc.timestamp_ms := CoreInc.timestamp_ms p;
     CoreInc.uptime_sec := CoreInc.uptime_sec p;
     CoreInc.rms_raw := CoreInc.rms_raw p;
     CoreInc.spl_db := CoreInc.spl_db p;
     CoreInc.peak_amplitude := CoreInc.peak_amplitude p;
     CoreInc.zcr_rate := CoreInc.zcr_rate p;
     CoreInc.status_flags := CoreInc.status_flags p;
     CoreInc.error_count := CoreInc.error_count p;
     CoreInc.fft_band := CoreInc.fft_band p |}.

(** What the NetX calls of [Telemetry_AddPacket] return. *)
Record transport : Type := {
  allocate_status : Z;
  append_status : Z
}.

(** What a call of [Telemetry_AddPacket] does: the returned [bool], the
    local copy [pkt] once it has its sequence number (if the call gets
    there), the payload of the datagram given to [nx_udp_socket_send]
    (if the two NetX calls before it succeed), and the variables
    afterwards. *)
Record added : Type := {
  ret : bool;
  pkt : option AudioTelemetryPacket_t;
  sent : option (list Z);
  vars : globals
}.

(** [Telemetry_AddPacket (packet)] with a non-null [packet]. *)
Definition Telemetry_AddPacket (g : globals)
    (packet : AudioTelemetryPacket_t) (t : transport) : added :=
  if negb (telemetry_initialized g) then
    {| ret := false; pkt := None; sent := None; vars := g |}
  else
    (* pkt.seq_number = sequence_number++; *)
    let pkt' := set_seq_number packet (uint32_t (sequence_number g)) in
    let seq' := uint32_t (sequence_number g + 1) in
    let put := Telemetry_BufferPut (telemetry_buffer g) pkt' in
    {| ret := fst put;
       pkt := Some pkt';
       sent :=
         if (allocate_status t =? NX_SUCCESS)
            && (append_status t =? NX_SUCCESS)
         then Some (CoreInc.serialize pkt') else None;
       vars :=
         {| telemetry_buffer := snd put; sequence_number := seq';
            telemetry_initialized := telemetry_initialized g |} |}.

(** The sequence numbers given along successive calls of
    [Telemetry_AddPacket], oldest first. *)
Fixpoint seqs_added (g : globals)
    (calls : list (AudioTelemetryPacket_t * transport)) : list Z :=
  match calls with
  | [] => []
  | (p, t) :: calls' =>
      let a := Telemetry_AddPacket g p t in
      match pkt a with
      | Some q => CoreInc.seq_number q :: seqs_added (vars a) calls'
      | None => seqs_added (vars a) calls'
      end
  end.

End CoreTelemetry.

(** ** Running the model on silence *)

(** What the three floating-point functions return on an all-zero batch:
    RMS 0; SPL 37, the floor pressure 1e-7 giving
    20 log10 (1e-7 / 20e-6) + 84 = 37.98; every band 0. *)
Definition dsp_on_silence : FloatDSP :=
  {| rms_q15 := fun _ => 0;
     AudioFeatures_CalculateSPL := fun _ => 37;
     band_magnitude := fun _ _ => 0 |}.

(** A frame of silence captured at [t]. *)
Definition silent_frame (t : Z) : AudioAcquisition.AudioFrame_t :=
  {| AudioAcquisition.samples := replicate 512 0;
     AudioAcquisition.timestamp_ms := t;
     AudioAcquisition.frame_number := 0;
     AudioAcquisition.error_flags := 0 |}.

(** A turn of the extractor loop that receives [f] at tick [t]. *)
Definition received (f : AudioAcquisition.AudioFrame_t) (t : Z)
  : FeatureExtraction.event :=
  FeatureExtraction.Turn
    {| FeatureExtraction.rx_status := ThreadX.TX_SUCCESS;
       FeatureExtraction.rx_frame := f;
       FeatureExtraction.now := t |}.

(** The extractor started at tick 0. *)
Definition extractor_started : FeatureExtraction.globals :=
  FeatureExtraction.FeatureExtraction_Start 0
    FeatureExtraction.FeatureExtraction_Init.

(** A batch alternating +32767 / -32767. *)
Definition alternating (n : nat) : list Z :=
  (fun k => if Nat.even k then 32767 else -32767) <$> seq 0 n.

(** Four frames of silence captured at 1000, 1032, 1064 and 1096 ms. *)
Definition silent_batch : list FeatureExtraction.event :=
  [ received (silent_frame 1000) 1000; received (silent_frame 1032) 1032;
    received (silent_frame 1064) 1064; received (silent_frame 1096) 1096 ].

(** Eleven frames of silence, 32 ms apart, with nothing taken from the
    output queue: the packets of the first two batches wait in it when the
    third batch is one frame short of complete. *)
Definition eleven_frames : list FeatureExtraction.event :=
  (fun k => received (silent_frame (32 * Z.of_nat k)) (32 * Z.of_nat k))
    <$> seq 0 11.


Definition twelfth_input : FeatureExtraction.input :=
  {| FeatureExtraction.rx_status := ThreadX.TX_SUCCESS;
     FeatureExtraction.rx_frame := silent_frame 352;
     FeatureExtraction.now := 352 |}.

(** The packet pool is exhausted when the first packet arrives. *)
Definition allocation_fails : NetXTelemetry.input :=
  {| NetXTelemetry.rx_status := ThreadX.TX_SUCCESS;
     NetXTelemetry.rx_pkt := AudioFeatures.zero_packet;
     NetXTelemetry.net :=
       {| NetXTelemetry.allocate_status := 1;
          NetXTelemetry.send_status := ThreadX.NX_SUCCESS |} |}.

Definition core_ok : CoreTelemetry.transport :=
  {| CoreTelemetry.allocate_status := ThreadX.NX_SUCCESS;
     CoreTelemetry.append_status := ThreadX.NX_SUCCESS |}.

(** The variables of [Core/Src/app_telemetry.c] after [n] calls of
    [Telemetry_AddPacket] on the all-zero packet. *)
Definition core_after (n : nat) : CoreTelemetry.globals :=
  foldl (fun g _ =>
           CoreTelemetry.vars
             (CoreTelemetry.Telemetry_AddPacket g CoreInc.zero_packet core_ok))
        CoreTelemetry.Telemetry_Init (seq 0 n).

Definition cube_ok : CubeTelemetry.input :=
  {| CubeTelemetry.rx_status := ThreadX.TX_SUCCESS;
     CubeTelemetry.rx_pkt := AudioFeatures.zero_packet;
     CubeTelemetry.net :=
       {| CubeTelemetry.allocate_status := ThreadX.NX_SUCCESS;
          CubeTelemetry.append_status := ThreadX.NX_SUCCESS;
          CubeTelemetry.send_status := ThreadX.NX_SUCCESS |} |}.

(** The variables of the STM32CubeIDE sender after [n] packets received
    and sent. *)
Definition cube_after (n : nat) : CubeTelemetry.globals :=
  foldl (fun g _ => snd (CubeTelemetry.Telemetry_ThreadEntry g cube_ok))
        CubeTelemetry.started (seq 0 n).

(** ** Invariants *)

(** What holds of the extractor's variables at the top of its loop: the
    accumulator holds 0, 512, 1024 or 1536 samples in an array of 2048,
    its start timestamp is still the zero of the last [memset], and the
    sequence counter is a 16-bit value. *)
Definition accumulator_inv (g : FeatureExtraction.globals) : Prop :=
  let c := FeatureExtraction.feature_ctx g in
  let b := FeatureExtraction.feature_buffer c in
  0 <= FeatureExtraction.sample_count b < 2048
  /\ FeatureExtraction.sample_count b mod 512 = 0
  /\ length (FeatureExtraction.accumulated_samples b) = 2048%nat
  /\ FeatureExtraction.start_timestamp_ms b = 0
  /\ 0 <= FeatureExtraction.seq_number c <= 65535.

(** The cursors of a ring buffer: ten slots, the read index in range, at
    most ten packets retained, and the write index [packet_count] slots
    after the read index. *)
Definition ring_wf {P} (b : TelemetryBuffer_t P) : Prop :=
  length (packets b) = Z.to_nat TELEMETRY_MAX_PACKETS
  /\ 0 <= read_index b < TELEMETRY_MAX_PACKETS
  /\ 0 <= packet_count b <= TELEMETRY_MAX_PACKETS
  /\ write_index b = (read_index b + packet_count b) mod TELEMETRY_MAX_PACKETS.

(** ** Reference notions for the feature functions *)

(** The largest absolute value in a list of samples, 0 for none. *)
Definition max_abs (l : list Z) : Z :=
  foldr (fun x m => Z.max (Z.abs x) m) 0 l.

(** A record whose members all hold values of their C types. *)
Definition packet_in_range (p : AudioFeatures.AudioTelemetryPacket_t)
  : Prop :=
  0 <= AudioFeatures.version p < 2 ^ 8
  /\ 0 <= AudioFeatures.reserved1 p < 2 ^ 8
  /\ 0 <= AudioFeatures.seq_number p < 2 ^ 16
  /\ 0 <= AudioFeatures.timestamp_ms p < 2 ^ 32
  /\ 0 <= AudioFeatures.rms_raw p < 2 ^ 16
  /\ 0 <= AudioFeatures.rms_reserved p < 2 ^ 16
  /\ 0 <= AudioFeatures.zcr_count p < 2 ^ 16
  /\ 0 <= AudioFeatures.zcr_rate p < 2 ^ 16
  /\ 0 <= AudioFeatures.spl_db p < 2 ^ 16
  /\ 0 <= AudioFeatures.peak_amplitude p < 2 ^ 16
  /\ length (AudioFeatures.fft_band p) = Z.to_nat AudioFeatures.FFT_BANDS
  /\ Forall (fun m => 0 <= m < 2 ^ 32) (AudioFeatures.fft_band p)
  /\ 0 <= AudioFeatures.node_id p < 2 ^ 8
  /\ 0 <= AudioFeatures.status_flags p < 2 ^ 8
  /\ 0 <= AudioFeatures.error_count p < 2 ^ 16
  /\ 0 <= AudioFeatures.uptime_sec p < 2 ^ 32
  /\ 0 <= AudioFeatures.reserved3 p < 2 ^ 32.

(** The last [n] elements of a list. *)
Definition last_n {A} (n : nat) (l : list A) : list A :=
  drop (length l - n) l.

(** The unsigned value a little-endian byte string stands for. *)
Fixpoint le_value (bs : list Z) : Z :=
  match bs with
  | [] => 0
  | b :: bs' => b + 256 * le_value bs'
  end.

(** ** feature_extraction.c: initialisation and start *)

Module FeatureControl.

Import ThreadX FeatureExtraction.

(** The file-scope variables together with the two allocation pointers
    of [feature_ctx], each recorded as non-null or null. *)
Record owned : Type := {
  vars : globals;
  thread_stack : bool;
  queue_memory : bool
}.

(** [feature_ctx] after [memset (&feature_ctx, 0, sizeof (feature_ctx))]:
    the queue control block is all zero, no queue has been created. *)
Definition zero_ctx : FeatureExtraction_Context_t :=
  {| output_queue := {| tx_queue_capacity := 0; tx_queue_messages := [] |};
     is_running := 0; packet_count := 0; error_count := 0; seq_number := 0;
     feature_buffer := zero_buffer |}.

(** The variables as the C initialisers leave them. *)
Definition at_reset : owned :=
  {| vars := {| feature_ctx := zero_ctx; node_id := 1; boot_time_ms := 0;
                last_error_flags := 0 |};
     thread_stack := false; queue_memory := false |}.

(** What the four ThreadX calls of [FeatureExtraction_Init] return. *)
Record init_calls : Type := {
  stack_allocate : Z;
  queue_allocate : Z;
  queue_create : Z;
  thread_create : Z
}.

(** [FeatureExtraction_Init (byte_pool)]; [byte_pool] says whether the
    pointer is non-null.  A [tx_byte_allocate] that fails leaves its
    pointer null, as the [memset] made it. *)
Definition FeatureExtraction_Init (byte_pool : bool) (k : init_calls)
    (s : owned) : Z * owned :=
  if negb byte_pool then (TX_PTR_ERROR, s)
  else
    let g := set_ctx (vars s) zero_ctx in
    if negb (stack_allocate k =? TX_SUCCESS) then
      (stack_allocate k,
       {| vars := g; thread_stack := false; queue_memory := false |})
    else if negb (queue_allocate k =? TX_SUCCESS) then
      (queue_allocate k,
       {| vars := g; thread_stack := true; queue_memory := false |})
    else if negb (queue_create k =? TX_SUCCESS) then
      (queue_create k,
       {| vars := g; thread_stack := true; queue_memory := true |})
    else
      let c :=
        set_output_queue zero_ctx
          {| tx_queue_capacity := FEATURE_EXTRACT_QUEUE_DEPTH;
             tx_queue_messages := [] |} in
      if negb (thread_create k =? TX_SUCCESS) then
        (thread_create k,
         {| vars := set_ctx g c; thread_stack := true;
            queue_memory := true |})
      else
        (TX_SUCCESS,
         {| vars :=
              set_ctx g
                {| output_queue := output_queue c; is_running := 0;
                   packet_count := 0; error_count := 0; seq_number := 0;
                   feature_buffer := zero_buffer |};
            thread_stack := true; queue_memory := true |}).

(** [FeatureExtraction_Start (input_queue)]; [now] is what
    [tx_time_get ()] returns and [resume] what [tx_thread_resume]
    returns. *)
Definition FeatureExtraction_Start (input_queue : bool) (now resume : Z)
    (s : owned) : Z * owned :=
  if negb input_queue || negb (thread_stack s) then (TX_PTR_ERROR, s)
  else
    (resume,
     {| vars := FeatureExtraction.FeatureExtraction_Start now (vars s);
        thread_stack := thread_stack s; queue_memory := queue_memory s |}).

(** [FeatureExtraction_GetOutputQueue ()]: [None] is the null pointer. *)
Definition FeatureExtraction_GetOutputQueue (s : owned)
  : option (TX_QUEUE AudioTelemetryPacket_t) :=
  if thread_stack s then Some (output_queue (feature_ctx (vars s)))
  else None.

Definition FeatureExtraction_GetPacketCount (s : owned) : Z :=
  packet_count (feature_ctx (vars s)).

Definition FeatureExtraction_GetErrorCount (s : owned) : Z :=
  error_count (feature_ctx (vars s)).

End FeatureControl.

(** ** feature_extraction.c: runs of the thread *)

(** A turn of the extractor loop whose [tx_queue_receive] reports an
    error (neither a frame nor an empty queue). *)
Definition receive_failed (e : FeatureExtraction.event) : bool :=
  match e with
  | FeatureExtraction.Turn i =>
      negb (FeatureExtraction.rx_status i =? ThreadX.TX_QUEUE_EMPTY)
      && negb (FeatureExtraction.rx_status i =? ThreadX.TX_SUCCESS)
  | FeatureExtraction.Drain => false
  end.

(** The number of turns of a run whose receive failed. *)
Definition receive_errors (es : list FeatureExtraction.event) : nat :=
  length (List.filter receive_failed es).

(** What holds of the started extractor at the top of its loop, besides
    [accumulator_inv]: the thread is running, the statics keep their
    values, and no error flag is pending at a batch boundary. *)
Definition extractor_inv (boot : Z) (g : FeatureExtraction.globals) : Prop :=
  accumulator_inv g
  /\ FeatureExtraction.is_running (FeatureExtraction.feature_ctx g) = 1
  /\ FeatureExtraction.boot_time_ms g = boot
  /\ FeatureExtraction.node_id g = 1
  /\ (FeatureExtraction.sample_count
        (FeatureExtraction.feature_buffer (FeatureExtraction.feature_ctx g))
      = 0
      -> FeatureExtraction.last_error_flags g = 0).

(** A frame of silence with the error flags [flags]. *)
Definition flagged_frame (flags : Z) : AudioAcquisition.AudioFrame_t :=
  {| AudioAcquisition.samples := replicate 512 0;
     AudioAcquisition.timestamp_ms := 0;
     AudioAcquisition.frame_number := 0;
     AudioAcquisition.error_flags := flags |}.

Definition flagged_input (flags : Z) : FeatureExtraction.input :=
  {| FeatureExtraction.rx_status := ThreadX.TX_SUCCESS;
     FeatureExtraction.rx_frame := flagged_frame flags;
     FeatureExtraction.now := 5000 |}.

(** The started extractor with three frames of silence accumulated. *)
Definition three_frames_in : FeatureExtraction.globals :=
  match FeatureExtraction.run (dsp := dsp_on_silence)
          extractor_started (take 3 silent_batch) with
  | FeatureExtraction.Continue g => g
  | _ => extractor_started
  end.

Definition fourth_input : FeatureExtraction.input :=
  {| FeatureExtraction.rx_status := ThreadX.TX_SUCCESS;
     FeatureExtraction.rx_frame := silent_frame 1096;
     FeatureExtraction.now := 1096 |}.

(** The packet built from four frames of silence, the last one received
    at tick 1096. *)
Definition first_silent_packet : AudioFeatures.AudioTelemetryPacket_t :=
  match FeatureExtraction.built (dsp := dsp_on_silence) three_frames_in
          (FeatureExtraction.Turn fourth_input) with
  | Some p => p
  | None => AudioFeatures.zero_packet
  end.

(** ** app_threadx.c *)

Module AppThreadX.

(** The loop of [App_Startup_Thread_Entry] that waits for an address:
    [IpAddress n] is the value the loop condition reads when
    [wait_count] is [n]; the result is [wait_count] when the loop is
    left, each turn having slept 100 ticks.  [turns] bounds the number
    of turns unfolded. *)
Fixpoint wait_for_ip (IpAddress : Z -> Z) (turns : nat) (wait_count : Z)
  : Z :=
  match turns with
  | O => wait_count
  | S turns' =>
      if (IpAddress wait_count =? 0) && (wait_count <? 600)
      then wait_for_ip IpAddress turns' (uint32_t (wait_count + 1))
      else wait_count
  end.

End AppThreadX.

(** The address arrives while the loop sleeps for the third time. *)
Definition address_at_third_poll (n : Z) : Z :=
  if n <? 3 then 0 else 3232235777.

(** ** NetXDuo/App/app_telemetry.c: configuration and start-up *)

Module NetXControl.

Import ThreadX NetXTelemetry.

(** The file-scope variables as the C initialisers leave them. *)
Definition at_reset : globals :=
  {| telemetry_ctx :=
       {| ip_instance := false; is_ready := 0; is_running := 0;
          receiver_ip := 0; receiver_port := 0; use_broadcast := 0;
          tx_count := 0; error_count := 0 |};
     telemetry_last_pkt := AudioFeatures.zero_packet;
     telemetry_last_pkt_valid := 0 |}.

(** [Telemetry_Init (byte_pool, ip_instance)]; the two booleans say
    whether the pointers are non-null, the two statuses are what
    [tx_byte_allocate] and [tx_thread_create] return. *)
Definition Telemetry_Init (byte_pool ip : bool)
    (stack_allocate thread_create : Z) (g : globals) : Z * globals :=
  if negb byte_pool || negb ip then (TX_PTR_ERROR, g)
  else
    (* memset, then the four defaults *)
    let c :=
      {| ip_instance := true; is_ready := 0; is_running := 0;
         receiver_ip := TELEMETRY_DEFAULT_IP_ADDR;
         receiver_port := TELEMETRY_UDP_PORT_RX;
         use_broadcast := 1; tx_count := 0; error_count := 0 |} in
    if negb (stack_allocate =? TX_SUCCESS) then (stack_allocate, set_ctx g c)
    else if negb (thread_create =? TX_SUCCESS)
    then (thread_create, set_ctx g c)
    else (TX_SUCCESS, set_ctx g c).

(** What the NetX and ThreadX calls of [Telemetry_Start] return. *)
Record start_calls : Type := {
  socket_create : Z;
  socket_bind : Z;
  thread_resume : Z
}.

(** [Telemetry_CreateSocket ()]. *)
Definition Telemetry_CreateSocket (g : globals) (k : start_calls) : Z :=
  if negb (ip_instance (telemetry_ctx g)) then NX_PTR_ERROR
  else if negb (socket_create k =? NX_SUCCESS) then socket_create k
  else if negb (socket_bind k =? NX_SUCCESS) then socket_bind k
  else NX_SUCCESS.

Definition set_receiver (c : Telemetry_Context_t) (ip port : Z)
  : Telemetry_Context_t :=
  {| ip_instance := ip_instance c; is_ready := is_ready c;
     is_running := is_running c; receiver_ip := ip;
     receiver_port := port; use_broadcast := use_broadcast c;
     tx_count := tx_count c; error_count := error_count c |}.

(** [Telemetry_Start (input_queue, receiver_ip)]. *)
Definition Telemetry_Start (input_queue : bool) (ip : Z) (k : start_calls)
    (g : globals) : Z * globals :=
  if negb input_queue then (TX_PTR_ERROR, g)
  else
    let c := telemetry_ctx g in
    let c1 := if negb (ip =? 0) then set_receiver c ip (receiver_port c)
              else c in
    let g1 := set_ctx g c1 in
    let status := Telemetry_CreateSocket g1 k in
    if negb (status =? NX_SUCCESS) then (status, g1)
    else
      (thread_resume k,
       set_ctx g1
         {| ip_instance := ip_instance c1; is_ready := 1; is_running := 1;
            receiver_ip := receiver_ip c1;
            receiver_port := receiver_port c1;
            use_broadcast := use_broadcast c1;
            tx_count := tx_count c1; error_count := error_count c1 |}).

(** [Telemetry_SetReceiver (ip_addr, port)]. *)
Definition Telemetry_SetReceiver (g : globals) (ip_addr port : Z)
  : Z * globals :=
  if ip_addr =? 0 then (TX_PTR_ERROR, g)
  else (TX_SUCCESS, set_ctx g (set_receiver (telemetry_ctx g) ip_addr port)).

(** [Telemetry_SetBroadcast (enable)]; the argument is converted to
    [uint8_t]. *)
Definition Telemetry_SetBroadcast (g : globals) (enable : Z)
  : Z * globals :=
  let c := telemetry_ctx g in
  (TX_SUCCESS,
   set_ctx g
     {| ip_instance := ip_instance c; is_ready := is_ready c;
        is_running := is_running c; receiver_ip := receiver_ip c;
        receiver_port := receiver_port c; use_broadcast := uint8_t enable;
        tx_count := tx_count c; error_count := error_count c |}).

(** The packets taken from the queue along successive turns of the
    loop, oldest first. *)
Definition packets_received (ins : list input)
  : list AudioTelemetryPacket_t :=
  rx_pkt <$> List.filter (fun i => rx_status i =? TX_SUCCESS) ins.

(** The number of turns in which [Telemetry_TransmitPacket] returns
    [NX_SUCCESS], for a sender with an IP instance. *)
Definition sends_accepted (ins : list input) : nat :=
  length (List.filter
            (fun i => (rx_status i =? TX_SUCCESS)
                      && (allocate_status (net i) =? NX_SUCCESS)
                      && (send_status (net i) =? NX_SUCCESS)) ins).

(** The number of turns that end in [error_count++] in the loop: a
    failed receive or a failed transmission. *)
Definition turns_failed (ins : list input) : nat :=
  length (List.filter
            (fun i => negb (rx_status i =? TX_QUEUE_EMPTY)
                      && negb ((rx_status i =? TX_SUCCESS)
                               && (allocate_status (net i) =? NX_SUCCESS)
                               && (send_status (net i) =? NX_SUCCESS)))
            ins).

(** The number of turns in which [nx_packet_allocate] fails. *)
Definition allocations_failed (ins : list input) : nat :=
  length (List.filter
            (fun i => (rx_status i =? TX_SUCCESS)
                      && negb (allocate_status (net i) =? NX_SUCCESS)) ins).

End NetXControl.

Definition netx_ok : NetXTelemetry.transport :=
  {| NetXTelemetry.allocate_status := ThreadX.NX_SUCCESS;
     NetXTelemetry.send_status := ThreadX.NX_SUCCESS |}.

Definition netx_calls_ok : NetXControl.start_calls :=
  {| NetXControl.socket_create := ThreadX.NX_SUCCESS;
     NetXControl.socket_bind := ThreadX.NX_SUCCESS;
     NetXControl.thread_resume := ThreadX.TX_SUCCESS |}.

(** A turn of the sender loop with receive status [status], the all-zero
    packet numbered [seq] and the transport [t]. *)
Definition netx_turn (status : Z) (seq : Z) (t : NetXTelemetry.transport)
  : NetXTelemetry.input :=
  {| NetXTelemetry.rx_status := status;
     NetXTelemetry.rx_pkt :=
       CubeTelemetry.set_seq_number AudioFeatures.zero_packet seq;
     NetXTelemetry.net := t |}.

(** Three packets arrive: the first is sent, the pool is exhausted for
    the second, the send fails for the third; then the queue reports an
    error and a time-out. *)
Definition netx_five_turns : list NetXTelemetry.input :=
  [ netx_turn ThreadX.TX_SUCCESS 0 netx_ok;
    netx_turn ThreadX.TX_SUCCESS 1
      {| NetXTelemetry.allocate_status := 1;
         NetXTelemetry.send_status := ThreadX.NX_SUCCESS |};
    netx_turn ThreadX.TX_SUCCESS 2
      {| NetXTelemetry.allocate_status := ThreadX.NX_SUCCESS;
         NetXTelemetry.send_status := 1 |};
    netx_turn 1 3 netx_ok;
    netx_turn ThreadX.TX_QUEUE_EMPTY 4 netx_ok ].

(** ** STM32CubeIDE/Application/User/Core/app_telemetry.c: runs of the
    thread *)

(** The variables of the STM32CubeIDE sender after the turns [ins] of
    its loop. *)
Definition cube_run (g : CubeTelemetry.globals)
    (ins : list CubeTelemetry.input) : CubeTelemetry.globals :=
  foldl (fun g i => snd (CubeTelemetry.Telemetry_ThreadEntry g i)) g ins.





(** A packet arrives and [nx_udp_socket_send] refuses it. *)
Definition cube_send_refused : CubeTelemetry.input :=
  {| CubeTelemetry.rx_status := ThreadX.TX_SUCCESS;
     CubeTelemetry.rx_pkt := AudioFeatures.zero_packet;
     CubeTelemetry.net :=
       {| CubeTelemetry.allocate_status := ThreadX.NX_SUCCESS;
          CubeTelemetry.append_status := ThreadX.NX_SUCCESS;
          CubeTelemetry.send_status := 1 |} |}.

(** ** Core/Src/app_telemetry.c: sequences of calls *)

Module CoreCalls.

Import ThreadX CoreTelemetry.

(** A call of one of the two entry points that touch the cache. *)
Inductive call : Type :=
  | AddPacket (packet : AudioTelemetryPacket_t) (t : transport)
  | GetLastPacket.

(** What the caller and the network see of a call. *)
Inductive result : Type :=
  | Added (ret : bool) (sent : option (list Z))
  | Got (packet : option AudioTelemetryPacket_t).

Definition perform (g : globals) (c : call) : result * globals :=
  match c with
  | AddPacket packet t =>
      let a := Telemetry_AddPacket g packet t in
      (Added (ret a) (sent a), vars a)
  | GetLastPacket =>
      let '(r, g') := Telemetry_GetLastPacket g in (Got r, g')
  end.

(** The results of successive calls, oldest first. *)
Fixpoint results (g : globals) (cs : list call) : list result :=
  match cs with
  | [] => []
  | c :: cs' => let '(r, g') := perform g c in r :: results g' cs'
  end.

(** A first-in first-out queue of at most [TELEMETRY_MAX_PACKETS]
    numbered packets that refuses a packet when full: what the same calls
    give on the list [q] of waiting packets and the count [n] of packets
    numbered so far. *)
Fixpoint bounded_fifo (q : list AudioTelemetryPacket_t) (n : Z)
    (cs : list call) : list result :=
  match cs with
  | [] => []
  | AddPacket packet t :: cs' =>
      let numbered := set_seq_number packet (uint32_t n) in
      let datagram :=
        if (allocate_status t =? NX_SUCCESS) && (append_status t =? NX_SUCCESS)
        then Some (CoreInc.serialize numbered) else None in
      if bool_decide (length q < Z.to_nat TELEMETRY_MAX_PACKETS)%nat
      then Added true datagram :: bounded_fifo (q ++ [numbered]) (n + 1) cs'
      else Added false datagram :: bounded_fifo q (n + 1) cs'
  | GetLastPacket :: cs' => Got (head q) :: bounded_fifo (tail q) n cs'
  end.

End CoreCalls.

(** ** feature_extraction.c: the batches of a run *)

(** The frames a run receives, oldest first. *)
Definition frames_received (es : list FeatureExtraction.event)
  : list AudioAcquisition.AudioFrame_t :=
  omap (fun e =>
          match e with
          | FeatureExtraction.Turn i =>
              if FeatureExtraction.rx_status i =? ThreadX.TX_SUCCESS
              then Some (FeatureExtraction.rx_frame i) else None
          | FeatureExtraction.Drain => None
          end) es.

(** The frames [fs] cut into batches of four, after the frames [pend]
    already waiting for their batch to fill; a last incomplete batch is
    left out. *)
Fixpoint batches_from (pend : list AudioAcquisition.AudioFrame_t)
    (fs : list AudioAcquisition.AudioFrame_t)
  : list (list AudioAcquisition.AudioFrame_t) :=
  match fs with
  | [] => []
  | f :: fs' =>
      if bool_decide (length pend = 3%nat)
      then (pend ++ [f]) :: batches_from [] fs'
      else batches_from (pend ++ [f]) fs'
  end.

(** The samples of a batch, in arrival order, and the error flags of its
    frames, OR-ed. *)
Definition batch_samples (b : list AudioAcquisition.AudioFrame_t) : list Z :=
  mjoin (AudioAcquisition.samples <$> b).

Definition batch_flags (b : list AudioAcquisition.AudioFrame_t) : Z :=
  foldl Z.lor 0 (AudioAcquisition.error_flags <$> b).

(** The members of a packet that are computed from the samples and flags
    of its batch. *)
Record features : Type := {
  f_rms_raw : Z;
  f_zcr_rate : Z;
  f_peak_amplitude : Z;
  f_fft_band : list Z;
  f_status_flags : Z
}.

Definition packet_features (p : AudioFeatures.AudioTelemetryPacket_t)
  : features :=
  {| f_rms_raw := AudioFeatures.rms_raw p;
     f_zcr_rate := AudioFeatures.zcr_rate p;
     f_peak_amplitude := AudioFeatures.peak_amplitude p;
     f_fft_band := AudioFeatures.fft_band p;
     f_status_flags := AudioFeatures.status_flags p |}.

(** The features of a batch of four frames: the feature functions on its
    2048 samples. *)
Definition batch_features `{dsp : FloatDSP}
    (b : list AudioAcquisition.AudioFrame_t) : features :=
  {| f_rms_raw :=
       AudioFeaturesC.AudioFeatures_CalculateRMS (batch_samples b) 2048;
     f_zcr_rate :=
       AudioFeaturesC.AudioFeatures_CalculateZCR (batch_samples b) 2048;
     f_peak_amplitude :=
       AudioFeaturesC.AudioFeatures_FindPeakAmplitude (batch_samples b) 2048;
     f_fft_band :=
       snd (AudioFeaturesC.AudioFeatures_ComputeFFTBands (batch_samples b));
     f_status_flags := Z.land (batch_flags b) 255 |}.

(** The frames [pend] wait in the accumulator of [g] for their batch to
    fill. *)
Definition pending (boot : Z) (g : FeatureExtraction.globals)
    (pend : list AudioAcquisition.AudioFrame_t) : Prop :=
  extractor_inv boot g
  /\ (length pend < 4)%nat
  /\ length (batch_samples pend) = (512 * length pend)%nat
  /\ (exists rest,
        FeatureExtraction.accumulated_samples
          (FeatureExtraction.feature_buffer (FeatureExtraction.feature_ctx g))
        = batch_samples pend ++ rest)
  /\ FeatureExtraction.sample_count
       (FeatureExtraction.feature_buffer (FeatureExtraction.feature_ctx g))
     = Z.of_nat (length (batch_samples pend))
  /\ FeatureExtraction.last_error_flags g = batch_flags pend.

(** Five frames of silence arrive, flagged 1, 0, 4, 0 and 2, with a
    time-out, a queue drain and a receive error in between. *)
Definition interleaved_run : list FeatureExtraction.event :=
  [ FeatureExtraction.Turn (flagged_input 1);
    FeatureExtraction.Turn
      {| FeatureExtraction.rx_status := ThreadX.TX_QUEUE_EMPTY;
         FeatureExtraction.rx_frame := flagged_frame 8;
         FeatureExtraction.now := 5000 |};
    FeatureExtraction.Turn (flagged_input 0);
    FeatureExtraction.Drain;
    FeatureExtraction.Turn
      {| FeatureExtraction.rx_status := 1;
         FeatureExtraction.rx_frame := flagged_frame 16;
         FeatureExtraction.now := 5000 |};
    FeatureExtraction.Turn (flagged_input 4);
    FeatureExtraction.Turn (flagged_input 0);
    FeatureExtraction.Turn (flagged_input 2) ].

(** ** feature_extraction.c: what becomes of the packets built *)

(** What becomes of the packet, if any, that a turn builds: [Some true]
    when [tx_queue_send] returns [TX_SUCCESS] and the packet is in the
    output queue, [Some false] when it returns another status and the
    packet is dropped. *)
Definition packet_fate `{dsp : FloatDSP} (g : FeatureExtraction.globals)
    (e : FeatureExtraction.event) : option bool :=
  match FeatureExtraction.built g e with
  | Some p =>
      match ThreadX.tx_queue_send
              (FeatureExtraction.output_queue
                 (FeatureExtraction.feature_ctx g)) p ThreadX.TX_NO_WAIT with
      | Some (status, _) => Some (status =? ThreadX.TX_SUCCESS)
      | None => None
      end
  | None => None
  end.

(** The fates of the packets built along a run, oldest first. *)
Fixpoint packet_fates `{dsp : FloatDSP} (g : FeatureExtraction.globals)
    (es : list FeatureExtraction.event) : list bool :=
  match es with
  | [] => []
  | e :: es' =>
      match FeatureExtraction.step g e with
      | FeatureExtraction.Continue g' =>
          match packet_fate g e with
          | Some b => b :: packet_fates g' es'
          | None => packet_fates g' es'
          end
      | _ => []
      end
  end.

(** How many packets of a run entered the output queue, and how many
    were dropped. *)
Definition packets_enqueued `{dsp : FloatDSP}
    (g : FeatureExtraction.globals) (es : list FeatureExtraction.event)
  : nat :=
  length (List.filter (fun b : bool => b) (packet_fates g es)).

Definition packets_dropped `{dsp : FloatDSP}
    (g : FeatureExtraction.globals) (es : list FeatureExtraction.event)
  : nat :=
  length (List.filter negb (packet_fates g es)).

(** Twelve frames of silence with nothing taken from the output queue,
    then a receive error: the third packet finds the queue full. *)
Definition twelve_frames_and_an_error : list FeatureExtraction.event :=
  eleven_frames
  ++ [ FeatureExtraction.Turn twelfth_input;
       FeatureExtraction.Turn
         {| FeatureExtraction.rx_status := 1;
            FeatureExtraction.rx_frame := silent_frame 384;
            FeatureExtraction.now := 384 |} ].

(** ** feature_extraction.c: a batch that starts in silence *)

(** A frame of a full-scale square wave captured at [t]. *)
Definition loud_frame (t : Z) : AudioAcquisition.AudioFrame_t :=
  {| AudioAcquisition.samples := alternating 512;
     AudioAcquisition.timestamp_ms := t;
     AudioAcquisition.frame_number := 0;
     AudioAcquisition.error_flags := 0 |}.

(** A frame of silence followed by three frames of the square wave. *)
Definition quiet_then_loud : list FeatureExtraction.event :=
  [ received (silent_frame 1000) 1000; received (loud_frame 1032) 1032;
    received (loud_frame 1064) 1064; received (loud_frame 1096) 1096 ].

(** * Theorems *)

(** ** Packet size *)

Lemma length_le_bytes n v : length (le_bytes n v) = n.
Proof.
  revert v; induction n as [|n IH]; intros v; simpl; [done|by rewrite IH].
Qed.

Lemma length_le_array n w a : length (le_array n w a) = (n * w)%nat.
Proof.
  unfold le_array. generalize 0%nat.
  induction n as [|n IH]; intros k; simpl; [done|].
  rewrite length_app, length_le_bytes, IH. lia.
Qed.

Lemma serialize_matches_layout p :
  Z.of_nat (length (AudioFeatures.serialize p))
  = sizeof_struct true AudioFeatures.members.
Proof.
  unfold AudioFeatures.serialize.
  rewrite !length_app, !length_le_bytes, length_le_array. reflexivity.
Qed.

Lemma core_serialize_matches_layout q :
  Z.of_nat (length (CoreInc.serialize q)) = sizeof_struct false CoreInc.members.
Proof.
  unfold CoreInc.serialize.
  rewrite !length_app, !length_le_bytes, length_le_array. reflexivity.
Qed.

(** The member offsets of the packed record are those of the wire table,
    and they are the same without the [packed] attribute. *)
Lemma wire_offsets :
  fst (member_offsets true 0 AudioFeatures.members)
  = [0; 1; 2; 4; 8; 10; 12; 14; 16; 18; 20; 52; 53; 54; 56; 60]
  /\ member_offsets false 0 AudioFeatures.members
     = member_offsets true 0 AudioFeatures.members.
Proof. split; reflexivity. Qed.

(** C1, as amended: every value of the packed [AudioTelemetryPacket_t] of
    [audio_features.h] serializes to exactly 64 bytes, whatever its field
    values, and the record is 64 bytes with or without the [packed]
    attribute; every value of the [AudioTelemetryPacket_t] of
    [Core/Inc/app_telemetry.h], which [Telemetry_AddPacket] appends to the
    datagram, serializes to 68 bytes. *)
Theorem C1_packed_packet_is_64_bytes :
  (forall p, length (AudioFeatures.serialize p) = 64%nat)
  /\ sizeof_struct true AudioFeatures.members = 64
  /\ sizeof_struct false AudioFeatures.members = 64
  /\ (forall q, length (CoreInc.serialize q) = 68%nat)
  /\ sizeof_struct false CoreInc.members = 68.
Proof.
  split.
  { intros p. pose proof (serialize_matches_layout p) as E.
    change (sizeof_struct true AudioFeatures.members) with 64 in E. lia. }
  split; [reflexivity|]. split; [reflexivity|]. split; [|reflexivity].
  intros q. pose proof (core_serialize_matches_layout q) as E.
  change (sizeof_struct false CoreInc.members) with 68 in E. lia.
Qed.

(** C1, as stated, fails: the datagram payload that
    [Telemetry_AddPacket] of [Core/Src/app_telemetry.c] sends for the
    all-zero packet is 68 bytes long, not 64. *)
Lemma C1_core_payload_is_68_bytes :
  exists bytes,
    CoreTelemetry.sent
      (CoreTelemetry.Telemetry_AddPacket CoreTelemetry.Telemetry_Init
         CoreInc.zero_packet
         {| CoreTelemetry.allocate_status := ThreadX.NX_SUCCESS;
            CoreTelemetry.append_status := ThreadX.NX_SUCCESS |})
    = Some bytes
    /\ length bytes = 68%nat
    /\ length bytes <> 64%nat.
Proof. eexists. split; [reflexivity|]. split; [reflexivity|discriminate]. Qed.

(** ** Feature ranges *)

Lemma uint16_t_range x : 0 <= uint16_t x < 65536.
Proof. unfold uint16_t. apply Z.mod_pos_bound. reflexivity. Qed.

Lemma uint32_t_range x : 0 <= uint32_t x < 4294967296.
Proof. unfold uint32_t. apply Z.mod_pos_bound. reflexivity. Qed.

Lemma uint32_t_small x : 0 <= x < 4294967296 -> uint32_t x = x.
Proof. intros. unfold uint32_t. apply Z.mod_small. simpl. lia. Qed.

Lemma uint16_t_small x : 0 <= x < 65536 -> uint16_t x = x.
Proof. intros. unfold uint16_t. apply Z.mod_small. simpl. lia. Qed.

(** The zero-crossing rate is in [0, 100] for every array and count. *)
Lemma CalculateZCR_range samples count :
  0 <= AudioFeaturesC.AudioFeatures_CalculateZCR samples count <= 100.
Proof.
  unfold AudioFeaturesC.AudioFeatures_CalculateZCR.
  destruct (count <? 2); [lia|].
  match goal with |- context [100 <? ?z] =>
    pose proof (uint16_t_range
                  (uint32_t (AudioFeaturesC.zero_crossings samples count * 100)
                   / count));
    destruct (Z.ltb_spec 100 z) end; lia.
Qed.

Lemma sign_change_spec a b :
  AudioFeaturesC.sign_change a b
  = bool_decide ((a < 0 /\ 0 <= b) \/ (0 <= a /\ b < 0)).
Proof.
  unfold AudioFeaturesC.sign_change.
  destruct (Z.leb_spec 0 a), (Z.ltb_spec b 0), (Z.ltb_spec a 0),
    (Z.leb_spec 0 b); cbn; case_bool_decide; try reflexivity; lia.
Qed.

Lemma drop_nth (l : list Z) j :
  (j < length l)%nat -> drop j l = nth j l 0 :: drop (S j) l.
Proof.
  intros Hj. destruct (lookup_lt_is_Some_2 l j Hj) as [x Hx].
  rewrite nth_lookup, Hx. cbn. by apply drop_S.
Qed.

Lemma sign_transitions_take a b r k :
  sign_transitions (take (S (S k)) (a :: b :: r))
  = Nat.add (if AudioFeaturesC.sign_change a b then 1%nat else 0%nat)
      (sign_transitions (take (S k) (b :: r))).
Proof. rewrite sign_change_spec. reflexivity. Qed.

Lemma crossings_fold l j k zc :
  (j + k < length l)%nat ->
  0 <= zc -> zc + Z.of_nat k < 4294967296 ->
  foldl (fun zc i =>
           if AudioFeaturesC.sign_change (nth (i - 1) l 0) (nth i l 0)
           then uint32_t (zc + 1) else zc) zc (seq (S j) k)
  = zc + Z.of_nat (sign_transitions (take (S k) (drop j l))).
Proof.
  revert j zc. induction k as [|k IH]; intros j zc Hk Hz Hb.
  - rewrite (drop_nth l j) by lia. cbn. rewrite take_0. cbn. lia.
  - cbn [seq foldl]. rewrite Nat.sub_succ, Nat.sub_0_r.
    rewrite (drop_nth l j), (drop_nth l (S j)) by lia.
    rewrite sign_transitions_take.
    rewrite <- (drop_nth l (S j)) by lia.
    destruct (AudioFeaturesC.sign_change _ _).
    + rewrite uint32_t_small by lia. rewrite IH by lia. lia.
    + rewrite IH by lia. lia.
Qed.

(** The counter of [AudioFeatures_CalculateZCR] is the number of sign
    transitions between consecutive samples of the batch. *)
Lemma zero_crossings_spec samples count :
  0 <= count < 4294967296 ->
  (Z.to_nat count <= length samples)%nat ->
  AudioFeaturesC.zero_crossings samples count
  = Z.of_nat (sign_transitions (take (Z.to_nat count) samples)).
Proof.
  intros Hc Hl. unfold AudioFeaturesC.zero_crossings.
  destruct (Z.to_nat count) as [|n] eqn:En; [reflexivity|].
  cbn [Nat.sub]. rewrite Nat.sub_0_r.
  rewrite (crossings_fold samples 0 n 0) by lia. reflexivity.
Qed.

(** Scenario A on the integer features: silence has no crossing and peak 0. *)
Example zcr_silence :
  AudioFeaturesC.AudioFeatures_CalculateZCR (replicate 2048 0) 2048 = 0
  /\ AudioFeaturesC.AudioFeatures_FindPeakAmplitude (replicate 2048 0) 2048 = 0.
Proof. split; vm_compute; reflexivity. Qed.

(** Scenario B on the integer features: a batch alternating between
    +32767 and -32767 crosses zero 2047 times, which is 99 percent of 2048,
    and peaks at 32767. *)
Example zcr_alternating :
  AudioFeaturesC.zero_crossings (alternating 2048) 2048 = 2047
  /\ AudioFeaturesC.AudioFeatures_CalculateZCR (alternating 2048) 2048 = 99
  /\ AudioFeaturesC.AudioFeatures_FindPeakAmplitude (alternating 2048) 2048
     = 32767.
Proof. repeat split; vm_compute; reflexivity. Qed.

Lemma peak_step_range peak sample :
  0 <= peak <= 32768 -> is_int16 sample ->
  0 <= AudioFeaturesC.peak_step peak sample <= 32768.
Proof.
  unfold AudioFeaturesC.peak_step, is_int16, int16_t, uint16_t.
  intros Hp Hs.
  destruct (Z.ltb_spec sample 0) as [Hneg|Hpos].
  - destruct (Z.eq_dec sample (-32768)) as [->|Hne].
    { replace (((- -32768 + 2 ^ 15) mod 2 ^ 16 - 2 ^ 15) mod 2 ^ 16)
        with 32768 by reflexivity.
      destruct (Z.ltb_spec peak 32768); lia. }
    rewrite (Z.mod_small (- sample + 2 ^ 15)) by (simpl; lia).
    replace (- sample + 2 ^ 15 - 2 ^ 15) with (- sample) by lia.
    rewrite (Z.mod_small (- sample)) by (simpl; lia).
    destruct (Z.ltb_spec peak (- sample)); lia.
  - rewrite (Z.mod_small sample) by (simpl; lia).
    destruct (Z.ltb_spec peak sample); lia.
Qed.

Lemma peak_fold_range samples l peak :
  Forall is_int16 samples -> 0 <= peak <= 32768 ->
  0 <= foldl (fun peak i => AudioFeaturesC.peak_step peak (nth i samples 0))
         peak l <= 32768.
Proof.
  intros Hs. revert peak.
  induction l as [|i l IH]; intros peak Hp; simpl; [exact Hp|].
  apply IH. apply peak_step_range; [exact Hp|].
  rewrite nth_lookup. destruct (samples !! i) as [x|] eqn:E; simpl.
  - eapply Forall_lookup_1; eauto.
  - unfold is_int16. lia.
Qed.

(** On [int16_t] samples the peak is in [0, 32768]. *)
Lemma FindPeakAmplitude_range samples count :
  Forall is_int16 samples ->
  0 <= AudioFeaturesC.AudioFeatures_FindPeakAmplitude samples count <= 32768.
Proof.
  intros Hs. unfold AudioFeaturesC.AudioFeatures_FindPeakAmplitude.
  destruct (count =? 0); [lia|]. apply peak_fold_range; [exact Hs|lia].
Qed.

(** The spectral bands: the call succeeds, leaves eight magnitudes in
    [0, 1000000], and reads the first [FFT_SIZE] samples only. *)
Lemma ComputeFFTBands_spec `{dsp : FloatDSP} samples :
  let r := AudioFeaturesC.AudioFeatures_ComputeFFTBands samples in
  fst r = 0
  /\ length (snd r) = 8%nat
  /\ Forall (fun m => 0 <= m <= 1000000) (snd r)
  /\ r = AudioFeaturesC.AudioFeatures_ComputeFFTBands
           (take (Z.to_nat AudioFeatures.FFT_SIZE) samples).
Proof.
  unfold AudioFeaturesC.AudioFeatures_ComputeFFTBands. cbn [fst snd].
  split; [reflexivity|]. split; [reflexivity|]. split.
  - apply Forall_fmap, Forall_forall. intros band _. unfold compose.
    pose proof (uint32_t_range
                  (band_magnitude
                     (take (Z.to_nat AudioFeatures.FFT_SIZE) samples)
                     (Z.of_nat band))).
    destruct (Z.ltb_spec 1000000
                (uint32_t (band_magnitude
                             (take (Z.to_nat AudioFeatures.FFT_SIZE) samples)
                             (Z.of_nat band)))); lia.
  - rewrite take_take, Nat.min_id. reflexivity.
Qed.

(** C2, at the failing input: for the one-sample batch holding -32768, a
    value of [int16_t], [AudioFeatures_FindPeakAmplitude] returns 32768,
    which lies outside [0, 32767]. *)
Theorem C2_peak_of_int16_min :
  is_int16 (-32768)
  /\ AudioFeaturesC.AudioFeatures_FindPeakAmplitude [-32768] 1 = 32768
  /\ ~ (0 <= AudioFeaturesC.AudioFeatures_FindPeakAmplitude [-32768] 1
        <= 32767).
Proof.
  split; [unfold is_int16; lia|].
  split; [reflexivity|]. vm_compute. intros [_ H]. by apply H.
Qed.

(** ** The feature extraction thread *)

Import ThreadX.

Section Extractor.

Import FeatureExtraction.
Context `{dsp : FloatDSP}.

Lemma memcpy_samples_length dst off src n d :
  memcpy_samples dst off src n = Some d -> length d = length dst.
Proof.
  unfold memcpy_samples. case_bool_decide; [|discriminate].
  intros [= <-]. generalize (seq 0 (Z.to_nat n)). intros l. revert dst H.
  induction l as [|i l IH]; intros dst H; simpl; [reflexivity|].
  rewrite IH; rewrite ?length_insert; auto.
Qed.

Lemma accumulate_spec g f :
  accumulator_inv g ->
  exists acc flags,
    length acc = 2048%nat
    /\ accumulate g f =
       Continue
         (set_last_error_flags
            (set_ctx g
               (set_feature_buffer (feature_ctx g)
                  {| accumulated_samples := acc;
                     sample_count :=
                       sample_count (feature_buffer (feature_ctx g)) + 512;
                     start_timestamp_ms := 0;
                     frame_count :=
                       frame_count (feature_buffer (feature_ctx g)) |}))
            flags).
Proof.
  intros (Hc & Hm & Hl & Hs & Hq). unfold accumulate.
  change AUDIO_FRAME_SIZE with 512. change AUDIO_SAMPLES_PER_PACKET with 2048.
  set (n := sample_count (feature_buffer (feature_ctx g))) in *.
  assert (Hle : n <= 1536) by (pose proof (Z.div_mod n 512); lia).
  rewrite uint32_t_small by lia.
  destruct (Z.leb_spec (n + 512) 2048); [|lia].
  destruct (memcpy_samples _ _ _ _) as [acc|] eqn:E.
  - exists acc. eexists. split.
    + rewrite (memcpy_samples_length _ _ _ _ _ E). exact Hl.
    + destruct (Z.eqb_spec (n + 512) 0); [lia|].
      rewrite Hs. reflexivity.
  - exfalso. unfold memcpy_samples in E. rewrite Hl in E.
    case_bool_decide; [discriminate|]. lia.
Qed.

(** What a turn of the loop does from a state of the invariant. *)
Lemma turn_spec g i :
  accumulator_inv g ->
  exists g',
    FeatureExtraction_ThreadEntry g i = Continue g'
    /\ accumulator_inv g'
    /\ match built g (Turn i) with
       | None => seq_number (feature_ctx g') = seq_number (feature_ctx g)
       | Some p =>
           sample_count (feature_buffer (feature_ctx g)) = 1536
           /\ AudioFeatures.seq_number p = seq_number (feature_ctx g)
           /\ seq_number (feature_ctx g')
              = (seq_number (feature_ctx g) + 1) mod 65536
           /\ AudioFeatures.timestamp_ms p = 0
           /\ AudioFeatures.zcr_count p = 1024
       end.
Proof.
  intros Hinv. unfold FeatureExtraction_ThreadEntry, built.
  destruct (is_running (feature_ctx g) =? 0); simpl; [by eauto|].
  destruct (rx_status i =? TX_QUEUE_EMPTY) eqn:Ee.
  { exists g. repeat split; try apply Hinv.
    destruct (rx_status i =? TX_SUCCESS) eqn:Es; simpl; [|reflexivity].
    apply Z.eqb_eq in Ee, Es. rewrite Es in Ee. discriminate. }
  destruct (rx_status i =? TX_SUCCESS); simpl.
  2:{ eexists. split; [reflexivity|]. split; [exact Hinv|reflexivity]. }
  destruct (accumulate_spec g (rx_frame i) Hinv) as (acc & flags & Hacc & ->).
  destruct Hinv as (Hc & Hm & Hl & Hs & Hq).
  assert (Hle : sample_count (feature_buffer (feature_ctx g)) <= 1536).
  { pose proof (Z.div_mod (sample_count (feature_buffer (feature_ctx g))) 512).
    lia. }
  unfold emit. cbn [feature_ctx set_last_error_flags set_ctx feature_buffer
                    set_feature_buffer sample_count].
  change AUDIO_SAMPLES_PER_PACKET with 2048.
  destruct (Z.leb_spec 2048
              (sample_count (feature_buffer (feature_ctx g)) + 512))
    as [Hfull|Hroom].
  - assert (Hsc : sample_count (feature_buffer (feature_ctx g)) = 1536) by lia.
    unfold FeatureExtraction_ProcessBuffer.
    cbn [sample_count feature_ctx set_last_error_flags set_ctx seq_number
         set_feature_buffer start_timestamp_ms fst snd].
    rewrite Hsc. change (1536 + 512 =? 0) with false. cbv iota.
    cbn [fst snd feature_ctx set_ctx set_seq_number output_queue].
    assert (Hseq : (if 65535 <? uint32_t (seq_number (feature_ctx g) + 1)
                    then 0 else uint32_t (seq_number (feature_ctx g) + 1))
                   = (seq_number (feature_ctx g) + 1) mod 65536).
    { rewrite uint32_t_small by lia.
      destruct (Z.ltb_spec 65535 (seq_number (feature_ctx g) + 1)).
      - replace (seq_number (feature_ctx g) + 1) with 65536 by lia. reflexivity.
      - rewrite Z.mod_small; lia. }
    unfold tx_queue_send. case_bool_decide.
    + eexists. split; [reflexivity|].
      split; [|split; [reflexivity|split; [by apply uint16_t_small; lia|
               split; [exact Hseq|split; reflexivity]]]].
      unfold accumulator_inv. cbn. rewrite Hseq.
      pose proof (Z.mod_pos_bound (seq_number (feature_ctx g) + 1) 65536).
      repeat split; try lia; reflexivity.
    + change (TX_NO_WAIT =? TX_NO_WAIT) with true. cbv iota.
      eexists. split; [reflexivity|].
      split; [|split; [reflexivity|split; [by apply uint16_t_small; lia|
               split; [exact Hseq|split; reflexivity]]]].
      unfold accumulator_inv. cbn. rewrite Hseq.
      pose proof (Z.mod_pos_bound (seq_number (feature_ctx g) + 1) 65536).
      repeat split; try lia; reflexivity.
  - eexists. split; [reflexivity|]. split; [|reflexivity].
    unfold accumulator_inv. cbn.
    repeat split; try lia; try assumption.
    rewrite <- Zplus_mod_idemp_l, Hm. reflexivity.
Qed.

Lemma drain_spec g :
  accumulator_inv g ->
  exists g',
    step g Drain = Continue g' /\ accumulator_inv g'
    /\ seq_number (feature_ctx g') = seq_number (feature_ctx g).
Proof.
  intros Hinv. eexists. split; [reflexivity|].
  split; [exact Hinv|reflexivity].
Qed.

Lemma run_inv g es :
  accumulator_inv g -> exists g', run g es = Continue g' /\ accumulator_inv g'.
Proof.
  revert g. induction es as [|e es IH]; intros g Hinv; [by exists g|].
  cbn [run]. destruct e as [i|]; cbn [step].
  - destruct (turn_spec g i Hinv) as (g' & -> & Hinv' & _). by apply IH.
  - by apply IH.
Qed.

Lemma start_inv boot :
  accumulator_inv (FeatureExtraction_Start boot FeatureExtraction_Init).
Proof. unfold accumulator_inv. cbn. repeat split; try lia; reflexivity. Qed.

Lemma fmap_seq_shift {A} (f : nat -> A) n :
  f <$> seq 1 n = (fun k => f (S k)) <$> seq 0 n.
Proof. rewrite <- fmap_S_seq, <- list_fmap_compose. reflexivity. Qed.

Lemma packets_built_spec g es :
  accumulator_inv g ->
  AudioFeatures.seq_number <$> packets_built g es
  = (fun k => (seq_number (feature_ctx g) + Z.of_nat k) mod 65536)
      <$> seq 0 (length (packets_built g es))
  /\ Forall (fun p => AudioFeatures.timestamp_ms p = 0
                      /\ AudioFeatures.zcr_count p = 1024)
       (packets_built g es).
Proof.
  revert g. induction es as [|e es IH]; intros g Hinv; [by split|].
  cbn [packets_built].
  destruct e as [i|].
  - cbn [step].
    destruct (turn_spec g i Hinv) as (g' & -> & Hinv' & Hb).
    destruct (IH g' Hinv') as [IHs IHt].
    destruct (built g (Turn i)) as [p|].
    + destruct Hb as (_ & Hp & Hg' & Ht & Hz).
      split; [|by constructor].
      cbn [length seq fmap list_fmap]. f_equal.
      * rewrite Hp, Z.add_0_r, Z.mod_small; [reflexivity|].
        destruct Hinv as (_ & _ & _ & _ & ?). lia.
      * rewrite IHs, Hg', fmap_seq_shift. apply list_fmap_ext.
        intros _ k _. rewrite Zplus_mod_idemp_l. f_equal. lia.
    + split; [|exact IHt]. rewrite IHs, Hb. reflexivity.
  - cbn [step built].
    exact (IH (set_ctx g (set_output_queue (feature_ctx g)
                            (tx_queue_take (output_queue (feature_ctx g)))))
              Hinv).
Qed.

(** Appending a frame touches the accumulator and the error flags only. *)
Lemma accumulate_frame g f g1 :
  accumulate g f = Continue g1 ->
  output_queue (feature_ctx g1) = output_queue (feature_ctx g)
  /\ error_count (feature_ctx g1) = error_count (feature_ctx g)
  /\ packet_count (feature_ctx g1) = packet_count (feature_ctx g)
  /\ seq_number (feature_ctx g1) = seq_number (feature_ctx g).
Proof.
  unfold accumulate.
  destruct (_ <=? _); [|by intros [= <-]].
  destruct (memcpy_samples _ _ _ _); [|discriminate].
  intros [= <-]. repeat split.
Qed.

(** Building a packet touches the sequence counter only. *)
Lemma ProcessBuffer_frame g t buf p g2 :
  FeatureExtraction_ProcessBuffer g t buf = (Some p, g2) ->
  output_queue (feature_ctx g2) = output_queue (feature_ctx g)
  /\ error_count (feature_ctx g2) = error_count (feature_ctx g)
  /\ packet_count (feature_ctx g2) = packet_count (feature_ctx g)
  /\ feature_buffer (feature_ctx g2) = feature_buffer (feature_ctx g).
Proof.
  unfold FeatureExtraction_ProcessBuffer.
  destruct (sample_count buf =? 0); [discriminate|].
  intros [= _ <-]. repeat split.
Qed.

(** X9: with room in the output queue, the packet built in a turn is
    appended at the tail of the queue and counted: the packet counter goes
    up by one (as a [uint32_t]), the error counter is unchanged, and the
    accumulator is the all-zero buffer again. *)
Lemma built_enqueued g i p :
  built g (Turn i) = Some p ->
  (length (tx_queue_messages (output_queue (feature_ctx g)))
   < tx_queue_capacity (output_queue (feature_ctx g)))%nat ->
  exists g',
    FeatureExtraction_ThreadEntry g i = Continue g'
    /\ tx_queue_messages (output_queue (feature_ctx g'))
       = tx_queue_messages (output_queue (feature_ctx g)) ++ [p]
    /\ packet_count (feature_ctx g')
       = uint32_t (packet_count (feature_ctx g) + 1)
    /\ error_count (feature_ctx g') = error_count (feature_ctx g)
    /\ feature_buffer (feature_ctx g') = zero_buffer.
Proof.
  intros Hb Hroom.
  unfold built in Hb. unfold FeatureExtraction_ThreadEntry.
  destruct (is_running (feature_ctx g) =? 0); [discriminate|].
  destruct (Z.eqb_spec (rx_status i) TX_SUCCESS) as [Hs|]; [|discriminate].
  rewrite Hs. change (TX_SUCCESS =? TX_QUEUE_EMPTY) with false.
  cbn [orb negb] in Hb |- *.
  destruct (accumulate g (rx_frame i)) as [g1| |] eqn:Ea; try discriminate.
  destruct (accumulate_frame _ _ _ Ea) as (Hq1 & He1 & Hp1 & _).
  unfold emit.
  destruct (AUDIO_SAMPLES_PER_PACKET <=? _); [|discriminate].
  destruct (FeatureExtraction_ProcessBuffer g1 (now i) _) as [o g2] eqn:Eb.
  cbn [fst] in Hb. subst o.
  destruct (ProcessBuffer_frame _ _ _ _ _ Eb) as (Hq2 & He2 & Hp2 & _).
  rewrite Hq2, Hq1. unfold tx_queue_send.
  case_bool_decide; [|lia].
  change (TX_SUCCESS =? TX_SUCCESS) with true. cbv iota.
  eexists. split; [reflexivity|]. cbn.
  rewrite He2, He1, Hp2, Hp1. repeat split.
Qed.


(** C10, as amended: after any sequence of turns of the started extractor
    (and of packets taken from its output queue) the loop is back at the
    top of [while (1)] with a [sample_count] that is a multiple of
    [AUDIO_FRAME_SIZE] and at most [AUDIO_SAMPLES_PER_PACKET], in an
    accumulator of [AUDIO_SAMPLES_PER_PACKET] slots; appending the next
    frame never writes past the end of the accumulator; and a packet built
    in the next turn is built when exactly [AUDIO_SAMPLES_PER_PACKET]
    samples are accumulated: its RMS, the SPL derived from it, its zero
    crossing rate and its peak amplitude are computed over all 2048 of
    them, and its spectral bands over the first [FFT_SIZE] = 512 of them,
    whatever the other 1536 are. *)
Theorem C10_accumulator_stays_in_bounds boot es :
  exists g,
    run (FeatureExtraction_Start boot FeatureExtraction_Init) es = Continue g
    /\ sample_count (feature_buffer (feature_ctx g)) mod AUDIO_FRAME_SIZE = 0
    /\ 0 <= sample_count (feature_buffer (feature_ctx g))
         <= AUDIO_SAMPLES_PER_PACKET
    /\ length (accumulated_samples (feature_buffer (feature_ctx g)))
       = Z.to_nat AUDIO_SAMPLES_PER_PACKET
    /\ forall i, exists g1,
        accumulate g (rx_frame i) = Continue g1
        /\ let b1 := feature_buffer (feature_ctx g1) in
           length (accumulated_samples b1) = Z.to_nat AUDIO_SAMPLES_PER_PACKET
           /\ sample_count b1 <= AUDIO_SAMPLES_PER_PACKET
           /\ forall p, built g (Turn i) = Some p ->
               sample_count b1 = AUDIO_SAMPLES_PER_PACKET
               /\ AudioFeatures.rms_raw p
                  = AudioFeaturesC.AudioFeatures_CalculateRMS
                      (accumulated_samples b1) AUDIO_SAMPLES_PER_PACKET
               /\ AudioFeatures.zcr_rate p
                  = AudioFeaturesC.AudioFeatures_CalculateZCR
                      (accumulated_samples b1) AUDIO_SAMPLES_PER_PACKET
               /\ AudioFeatures.peak_amplitude p
                  = AudioFeaturesC.AudioFeatures_FindPeakAmplitude
                      (accumulated_samples b1) AUDIO_SAMPLES_PER_PACKET
               /\ AudioFeatures.fft_band p
                  = snd (AudioFeaturesC.AudioFeatures_ComputeFFTBands
                           (accumulated_samples b1))
               /\ AudioFeatures.spl_db p
                  = uint16_t
                      (AudioFeatures_CalculateSPL
                         (AudioFeaturesC.AudioFeatures_CalculateRMS
                            (accumulated_samples b1)
                            AUDIO_SAMPLES_PER_PACKET))
               /\ (forall later,
                     AudioFeatures.fft_band p
                     = snd (AudioFeaturesC.AudioFeatures_ComputeFFTBands
                              (take (Z.to_nat AudioFeatures.FFT_SIZE)
                                 (accumulated_samples b1) ++ later))).
Proof.
  destruct (run_inv _ es (start_inv boot)) as (g & Hrun & Hinv).
  exists g. split; [exact Hrun|].
  pose proof Hinv as (Hc & Hm & Hl & Hs & Hq).
  assert (Hle : sample_count (feature_buffer (feature_ctx g)) <= 1536).
  { pose proof (Z.div_mod (sample_count (feature_buffer (feature_ctx g))) 512).
    lia. }
  change AUDIO_FRAME_SIZE with 512. change AUDIO_SAMPLES_PER_PACKET with 2048.
  split; [exact Hm|]. split; [lia|]. split; [exact Hl|].
  intros i.
  destruct (accumulate_spec g (rx_frame i) Hinv) as (acc & flags & Hacc & Ea).
  eexists. split; [exact Ea|].
  cbn [feature_ctx set_last_error_flags set_ctx feature_buffer
       set_feature_buffer sample_count accumulated_samples].
  split; [exact Hacc|]. split; [lia|].
  intros p. unfold built. rewrite Ea.
  destruct (_ || _); [discriminate|].
  cbn [feature_ctx set_last_error_flags set_ctx feature_buffer
       set_feature_buffer sample_count accumulated_samples].
  change AUDIO_SAMPLES_PER_PACKET with 2048.
  destruct (Z.leb_spec 2048
              (sample_count (feature_buffer (feature_ctx g)) + 512))
    as [Hfull|]; [|discriminate].
  assert (Hsc : sample_count (feature_buffer (feature_ctx g)) + 512 = 2048)
    by lia.
  rewrite Hsc. unfold FeatureExtraction_ProcessBuffer.
  cbn [sample_count accumulated_samples fst]. change (2048 =? 0) with false.
  cbv iota. cbn [fst]. intros [= <-].
  do 6 (split; [reflexivity|]).
  intros later. cbn [AudioFeatures.fft_band].
  unfold AudioFeaturesC.AudioFeatures_ComputeFFTBands. cbn [fst snd].
  change (0 =? 0) with true. cbv iota.
  rewrite take_app_le
    by (rewrite length_take, Hacc;
        change (Z.to_nat AudioFeatures.FFT_SIZE) with 512%nat;
        change (Z.to_nat AUDIO_SAMPLES_PER_PACKET) with 2048%nat; lia).
  rewrite take_take, Nat.min_id. reflexivity.
Qed.

(** C4, at the failing input: for a batch of four frames whose first was
    captured at 1000 ms, the packet put in the output queue has
    [timestamp_ms] 0, not 1000. *)
Theorem C4_timestamp_is_zero :
  AudioAcquisition.timestamp_ms (silent_frame 1000) = 1000
  /\ AudioFeatures.timestamp_ms <$> queued_after extractor_started silent_batch
     = [0].
Proof.
  split; [reflexivity|]. vm_compute; reflexivity.
Qed.

(** C5, at the failing input: a batch of 2048 zero samples has no sign
    transition, and the loop of [AudioFeatures_CalculateZCR] counts none,
    yet the packet put in the output queue has [zcr_count] 1024. *)
Theorem C5_zcr_count_is_half_the_sample_count :
  sign_transitions (replicate 2048 0) = 0%nat
  /\ AudioFeaturesC.zero_crossings (replicate 2048 0) 2048 = 0
  /\ AudioFeatures.zcr_count <$> queued_after extractor_started silent_batch
     = [1024].
Proof.
  split; [vm_compute; reflexivity|]. split; [vm_compute; reflexivity|].
  vm_compute; reflexivity.
Qed.

End Extractor.

Section Numbering.

Import FeatureExtraction.


(** Twelve frames fill the queue with packets 0 and 1 and drop packet 2;
    once the sender has taken both, the next batch enqueues packet 3. *)
Lemma extractor_drop_leaves_gap :
  let frames n0 n :=
    (fun k => received (silent_frame (32 * Z.of_nat k)) (32 * Z.of_nat k))
      <$> seq n0 n in
  AudioFeatures.seq_number
    <$> FeatureExtraction.queued_after (dsp := dsp_on_silence)
          extractor_started (frames 0%nat 12%nat)
  = [0; 1]
  /\ AudioFeatures.seq_number
       <$> FeatureExtraction.queued_after (dsp := dsp_on_silence)
             extractor_started
             (frames 0%nat 12%nat
              ++ [FeatureExtraction.Drain; FeatureExtraction.Drain]
              ++ frames 12%nat 4%nat)
     = [3].
Proof. split; vm_compute; reflexivity. Qed.

(** ** Sequence numbers *)

Lemma mod_2_32_mod_2_16 x k :
  (uint32_t x + k) mod 65536 = (x + k) mod 65536.
Proof.
  unfold uint32_t.
  rewrite <- (Zplus_mod_idemp_l (x mod 2 ^ 32)), Z.mod_mod_divide;
    [apply Zplus_mod_idemp_l|]. exists 65536. reflexivity.
Qed.

Lemma cube_packets_sent_seq g ins :
  AudioFeatures.seq_number <$> CubeTelemetry.packets_sent g ins
  = (fun k => (CubeTelemetry.sequence_number g + Z.of_nat k) mod 65536)
      <$> seq 0 (length (CubeTelemetry.packets_sent g ins)).
Proof.
  revert g. induction ins as [|i ins IH]; intros g; [reflexivity|].
  cbn [CubeTelemetry.packets_sent]. unfold CubeTelemetry.Telemetry_ThreadEntry.
  destruct (CubeTelemetry.rx_status i =? TX_SUCCESS).
  - cbn [length seq fmap list_fmap]. f_equal.
    + cbn. unfold uint16_t. rewrite Z.add_0_r. reflexivity.
    + rewrite IH, fmap_seq_shift. apply list_fmap_ext. intros _ k _.
      cbn [CubeTelemetry.sequence_number].
      rewrite mod_2_32_mod_2_16. f_equal. lia.
  - destruct (negb _); [|apply IH].
    match goal with |- context [CubeTelemetry.packets_sent ?g' ins] =>
      exact (IH g') end.
Qed.

Lemma core_seqs_added g calls :
  CoreTelemetry.telemetry_initialized g = true ->
  CoreTelemetry.seqs_added g calls
  = (fun k => (CoreTelemetry.sequence_number g + Z.of_nat k) mod 2 ^ 32)
      <$> seq 0 (length calls).
Proof.
  revert g. induction calls as [|[p t] calls IH]; intros g Hi; [reflexivity|].
  cbn [CoreTelemetry.seqs_added]. unfold CoreTelemetry.Telemetry_AddPacket.
  rewrite Hi. cbn [negb CoreTelemetry.pkt CoreTelemetry.vars].
  cbn [length seq fmap list_fmap]. f_equal.
  - cbn. unfold uint32_t. rewrite Z.add_0_r. reflexivity.
  - rewrite IH by reflexivity. rewrite fmap_seq_shift. apply list_fmap_ext.
    intros _ k _. cbn [CoreTelemetry.sequence_number]. unfold uint32_t.
    rewrite Zplus_mod_idemp_l. f_equal. lia.
Qed.

(** C3, as amended: the packets built by [FeatureExtraction_ProcessBuffer]
    along any run of the started extractor carry the sequence numbers
    0, 1, 2, ... modulo 65536 (one per packet built, enqueued or dropped),
    and so do the packets numbered by [Telemetry_ThreadEntry] of the
    STM32CubeIDE sender; the packets numbered by [Telemetry_AddPacket] of
    [Core/Src/app_telemetry.c], whose record has a 32-bit [seq_number],
    carry 0, 1, 2, ... modulo 2^32. *)
Theorem C3_sequence_numbers :
  (forall (dsp : FloatDSP) boot es,
      let built :=
        packets_built (FeatureExtraction_Start boot FeatureExtraction_Init)
          es in
      AudioFeatures.seq_number <$> built
      = (fun k => Z.of_nat k mod 65536) <$> seq 0 (length built))
  /\ (forall ins,
      let sent := CubeTelemetry.packets_sent CubeTelemetry.started ins in
      AudioFeatures.seq_number <$> sent
      = (fun k => Z.of_nat k mod 65536) <$> seq 0 (length sent))
  /\ (forall calls,
      CoreTelemetry.seqs_added CoreTelemetry.Telemetry_Init calls
      = (fun k => Z.of_nat k mod 2 ^ 32) <$> seq 0 (length calls)).
Proof.
  split; [|split].
  - intros dsp boot es built.
    exact (proj1 (packets_built_spec _ es (start_inv boot))).
  - intros ins sent. exact (cube_packets_sent_seq _ ins).
  - intros calls.
    exact (core_seqs_added CoreTelemetry.Telemetry_Init calls eq_refl).
Qed.

(** C3, as stated, fails: in [Core/Src/app_telemetry.c] the packet that
    follows the one numbered 65535 is numbered 65536, not 0. *)
Lemma C3_core_sender_passes_65535 :
  let ok := {| CoreTelemetry.allocate_status := NX_SUCCESS;
               CoreTelemetry.append_status := NX_SUCCESS |} in
  let seqs :=
    CoreTelemetry.seqs_added CoreTelemetry.Telemetry_Init
      (replicate (Z.to_nat 65537) (CoreInc.zero_packet, ok)) in
  seqs !! Z.to_nat 65535 = Some 65535
  /\ seqs !! Z.to_nat 65536 = Some 65536
  /\ seqs !! Z.to_nat 65536 <> Some 0.
Proof. vm_compute. repeat split; discriminate. Qed.

End Numbering.

(** ** The NetXDuo sender *)

Section NetXSender.

Import NetXTelemetry.

Lemma uint32_t_add_twice x :
  uint32_t (uint32_t (x + 1) + 1) = uint32_t (x + 2).
Proof.
  unfold uint32_t. rewrite Zplus_mod_idemp_l. f_equal. lia.
Qed.

(** C7: in a turn of the running, ready NetXDuo sender that receives a
    packet and whose [Telemetry_TransmitPacket] returns a status other than
    [NX_SUCCESS], the error counter goes up (by 1, or by 2 when it is the
    allocation that failed, as a [uint32_t]), the transmitted counter is
    unchanged, and the cached packet is the one just attempted, which
    [Telemetry_GetLastPacket] then returns. *)
Theorem C7_transmit_failure g i :
  is_running (telemetry_ctx g) <> 0 ->
  is_ready (telemetry_ctx g) <> 0 ->
  rx_status i = TX_SUCCESS ->
  fst (fst (Telemetry_TransmitPacket g (rx_pkt i) (net i)))
    <> NX_SUCCESS ->
  let g' := Telemetry_ThreadEntry g i in
  error_count (telemetry_ctx g')
  = uint32_t (error_count (telemetry_ctx g)
              + errors_counted g (net i))
  /\ (0 <= error_count (telemetry_ctx g) < 4294967294 ->
      error_count (telemetry_ctx g)
      < error_count (telemetry_ctx g'))
  /\ tx_count (telemetry_ctx g') = tx_count (telemetry_ctx g)
  /\ telemetry_last_pkt g' = rx_pkt i
  /\ telemetry_last_pkt_valid g' = 1
  /\ Telemetry_GetLastPacket g' = Some (rx_pkt i).
Proof.
  intros Hrun Hready Hrx Hfail g'. subst g'.
  unfold Telemetry_ThreadEntry, errors_counted.
  apply Z.eqb_neq in Hrun, Hready. rewrite Hrun, Hready, Hrx.
  change (TX_SUCCESS =? TX_QUEUE_EMPTY) with false.
  change (TX_SUCCESS =? TX_SUCCESS) with true. cbn [negb].
  revert Hfail. unfold Telemetry_TransmitPacket.
  destruct (ip_instance (telemetry_ctx g)); cbn [negb andb].
  - destruct (Z.eqb_spec (allocate_status (net i)) NX_SUCCESS)
      as [Ha|Ha]; cbn [negb fst].
    + destruct (Z.eqb_spec (send_status (net i)) NX_SUCCESS)
        as [Hs|Hs]; cbn [negb fst]; intros Hfail; [done|].
      apply Z.eqb_neq in Hs. rewrite Hs. cbn.
      repeat split. intros. rewrite uint32_t_small; lia.
    + intros _. apply Z.eqb_neq in Ha. rewrite Ha. cbn.
      rewrite uint32_t_add_twice.
      repeat split. intros. rewrite uint32_t_small; lia.
  - intros _. change (NX_PTR_ERROR =? NX_SUCCESS) with false. cbn.
    repeat split. intros. rewrite uint32_t_small; lia.
Qed.

(** C7 at a concrete state: the first packet after start, with the packet
    pool exhausted. *)
Lemma C7_allocation_failure_witness :
  let g' := Telemetry_ThreadEntry started allocation_fails in
  error_count (telemetry_ctx g') = 2
  /\ tx_count (telemetry_ctx g') = 0
  /\ Telemetry_GetLastPacket g' = Some AudioFeatures.zero_packet.
Proof.
  assert (H1 : is_running (telemetry_ctx started) <> 0)
    by (vm_compute; congruence).
  assert (H2 : is_ready (telemetry_ctx started) <> 0)
    by (vm_compute; congruence).
  assert (H3 : fst (fst (Telemetry_TransmitPacket started
                           (rx_pkt allocation_fails)
                           (net allocation_fails)))
               <> NX_SUCCESS)
    by (vm_compute; congruence).
  destruct (C7_transmit_failure started allocation_fails H1 H2 eq_refl H3)
    as (He & _ & Ht & _ & _ & Hl).
  split; [exact He|]. split; [exact Ht|exact Hl].
Defined.

End NetXSender.

(** ** Retained cache *)

(** A well-formed ring is one of finitely many shapes: ten slots, a read
    index among 0..9 and a count among 0..10. *)
Ltac ring_shapes b H :=
  destruct b as [pkts w r c];
  destruct H as (Hlen & Hr & Hc & Hw);
  cbn [packets write_index read_index packet_count] in *;
  change TELEMETRY_MAX_PACKETS with 10 in *;
  do 11 (destruct pkts as [|? pkts]; try discriminate Hlen);
  clear Hlen;
  assert (Er : In r [0; 1; 2; 3; 4; 5; 6; 7; 8; 9]) by (simpl; lia);
  assert (Ec : In c [0; 1; 2; 3; 4; 5; 6; 7; 8; 9; 10]) by (simpl; lia);
  clear Hr Hc;
  simpl in Er, Ec;
  repeat (destruct Er as [<-|Er]);
  try (exfalso; exact Er);
  repeat (destruct Ec as [<-|Ec]);
  try (exfalso; exact Ec);
  subst w.

Lemma cube_put_spec
    (b : TelemetryBuffer_t AudioFeatures.AudioTelemetryPacket_t) p :
  ring_wf b ->
  let r := CubeTelemetry.Telemetry_BufferPut b p in
  fst r = 1
  /\ ring_wf (snd r)
  /\ (packet_count b < TELEMETRY_MAX_PACKETS ->
      packet_count (snd r) = packet_count b + 1
      /\ read_index (snd r) = read_index b
      /\ retained (snd r) = retained b ++ [p])
  /\ (packet_count b = TELEMETRY_MAX_PACKETS ->
      packet_count (snd r) = TELEMETRY_MAX_PACKETS
      /\ write_index b = read_index b
      /\ read_index (snd r) = (read_index b + 1) mod TELEMETRY_MAX_PACKETS
      /\ retained (snd r) = drop 1 (retained b) ++ [p]).
Proof.
  intros Hwf. ring_shapes b Hwf;
    (split; [reflexivity|]; split; [by vm_compute; repeat split|];
     split; intros Hcnt; try (exfalso; vm_compute in Hcnt; congruence);
     repeat split).
Qed.

Lemma core_put_spec
    (b : TelemetryBuffer_t CoreInc.AudioTelemetryPacket_t) p :
  ring_wf b ->
  let r := CoreTelemetry.Telemetry_BufferPut b p in
  ring_wf (snd r)
  /\ (packet_count b < TELEMETRY_MAX_PACKETS ->
      fst r = true
      /\ packet_count (snd r) = packet_count b + 1
      /\ retained (snd r) = retained b ++ [p])
  /\ (packet_count b = TELEMETRY_MAX_PACKETS -> fst r = false /\ snd r = b).
Proof.
  intros Hwf. ring_shapes b Hwf;
    (split; [by vm_compute; repeat split|];
     split; intros Hcnt; try (exfalso; vm_compute in Hcnt; congruence);
     repeat split).
Qed.

Lemma cube_get_spec
    (b : TelemetryBuffer_t AudioFeatures.AudioTelemetryPacket_t) :
  ring_wf b ->
  let r := CubeTelemetry.Telemetry_BufferGet b in
  ring_wf (snd r)
  /\ fst r = head (retained b)
  /\ retained (snd r) = drop 1 (retained b).
Proof.
  intros Hwf. ring_shapes b Hwf;
    (split; [by vm_compute; repeat split|]; split; reflexivity).
Qed.

Lemma core_get_spec
    (b : TelemetryBuffer_t CoreInc.AudioTelemetryPacket_t) :
  ring_wf b ->
  let r := CoreTelemetry.Telemetry_BufferGet b in
  ring_wf (snd r)
  /\ fst r = head (retained b)
  /\ retained (snd r) = drop 1 (retained b)
  /\ (0 < packet_count b -> packet_count (snd r) = packet_count b - 1).
Proof.
  intros Hwf. ring_shapes b Hwf;
    (split; [by vm_compute; repeat split|]; split; [reflexivity|];
     split; [reflexivity|]; intros Hcnt;
     try (exfalso; vm_compute in Hcnt; congruence); reflexivity).
Qed.

Lemma cube_last_spec g :
  CubeTelemetry.telemetry_initialized g = true ->
  ring_wf (CubeTelemetry.telemetry_buffer g) ->
  CubeTelemetry.Telemetry_GetLastPacket g
  = last (retained (CubeTelemetry.telemetry_buffer g)).
Proof.
  destruct g as [b sn tx err ini sta]. cbn. intros -> Hwf.
  unfold CubeTelemetry.Telemetry_GetLastPacket.
  cbn [CubeTelemetry.telemetry_initialized CubeTelemetry.telemetry_buffer negb].
  ring_shapes b Hwf; reflexivity.
Qed.

Lemma cube_init_wf : ring_wf CubeTelemetry.Telemetry_BufferInit.
Proof. by vm_compute; repeat split. Qed.

Lemma core_init_wf : ring_wf CoreTelemetry.Telemetry_BufferInit.
Proof. by vm_compute; repeat split. Qed.

(** After a turn of the STM32CubeIDE sender loop that received a packet,
    the ring is well formed and its newest packet is the one just
    numbered. *)
Lemma cube_turn_last g i :
  CubeTelemetry.telemetry_initialized g = true ->
  ring_wf (CubeTelemetry.telemetry_buffer g) ->
  CubeTelemetry.rx_status i = TX_SUCCESS ->
  exists p,
    fst (CubeTelemetry.Telemetry_ThreadEntry g i) = Some p
    /\ CubeTelemetry.Telemetry_GetLastPacket
         (snd (CubeTelemetry.Telemetry_ThreadEntry g i)) = Some p.
Proof.
  intros Hi Hwf Hrx. unfold CubeTelemetry.Telemetry_ThreadEntry. rewrite Hrx.
  change (TX_SUCCESS =? TX_SUCCESS) with true. cbv iota.
  eexists. split; [reflexivity|]. cbn [snd].
  destruct (cube_put_spec (CubeTelemetry.telemetry_buffer g)
              (CubeTelemetry.set_seq_number (CubeTelemetry.rx_pkt i)
                 (uint16_t (CubeTelemetry.sequence_number g))) Hwf)
    as (_ & Hwf1 & Hlt & Heq).
  rewrite cube_last_spec; [|exact Hi|exact Hwf1].
  cbn [CubeTelemetry.telemetry_buffer].
  destruct Hwf as (_ & _ & Hc & _).
  destruct (Z.eq_dec (packet_count (CubeTelemetry.telemetry_buffer g))
              TELEMETRY_MAX_PACKETS) as [E|E].
  - destruct (Heq E) as (_ & _ & _ & ->). apply last_snoc.
  - destruct Hlt as (_ & _ & ->); [lia|]. apply last_snoc.
Qed.

(** Every turn of the STM32CubeIDE sender loop keeps the ring well formed
    and the module initialised, so both hold after any number of turns. *)
Lemma cube_turn_wf g i :
  ring_wf (CubeTelemetry.telemetry_buffer g) ->
  ring_wf (CubeTelemetry.telemetry_buffer
             (snd (CubeTelemetry.Telemetry_ThreadEntry g i)))
  /\ CubeTelemetry.telemetry_initialized
       (snd (CubeTelemetry.Telemetry_ThreadEntry g i))
     = CubeTelemetry.telemetry_initialized g.
Proof.
  intros Hwf. unfold CubeTelemetry.Telemetry_ThreadEntry.
  destruct (CubeTelemetry.rx_status i =? TX_SUCCESS).
  - cbn. split; [|reflexivity]. apply cube_put_spec, Hwf.
  - destruct (negb _); cbn; split; auto.
Qed.

Lemma cube_reachable_wf ins :
  let g := foldl (fun g i => snd (CubeTelemetry.Telemetry_ThreadEntry g i))
             CubeTelemetry.started ins in
  ring_wf (CubeTelemetry.telemetry_buffer g)
  /\ CubeTelemetry.telemetry_initialized g = true.
Proof.
  cbv zeta. generalize cube_init_wf.
  change CubeTelemetry.Telemetry_BufferInit
    with (CubeTelemetry.telemetry_buffer CubeTelemetry.started).
  assert (Hi : CubeTelemetry.telemetry_initialized CubeTelemetry.started = true)
    by reflexivity.
  revert Hi. generalize CubeTelemetry.started.
  induction ins as [|i ins IH]; intros g Hi Hwf; [by split|].
  cbn [foldl]. destruct (cube_turn_wf g i Hwf) as [Hwf' Hi'].
  apply IH; [by rewrite Hi'|exact Hwf'].
Qed.

(** In [Core/Src/app_telemetry.c] both entry points keep the ring well
    formed. *)
Lemma core_calls_wf g p t :
  ring_wf (CoreTelemetry.telemetry_buffer g) ->
  ring_wf (CoreTelemetry.telemetry_buffer
             (CoreTelemetry.vars (CoreTelemetry.Telemetry_AddPacket g p t)))
  /\ ring_wf (CoreTelemetry.telemetry_buffer
                (snd (CoreTelemetry.Telemetry_GetLastPacket g))).
Proof.
  intros Hwf. split.
  - unfold CoreTelemetry.Telemetry_AddPacket.
    destruct (negb _); cbn; [exact Hwf|]. apply core_put_spec, Hwf.
  - unfold CoreTelemetry.Telemetry_GetLastPacket.
    destruct (negb _); cbn; [exact Hwf|].
    pose proof (core_get_spec _ Hwf) as (Hwf' & _).
    destruct (CoreTelemetry.Telemetry_BufferGet _); exact Hwf'.
Qed.

(** X18: a failed send in the STM32CubeIDE sender: the error counter goes
    up by one (as a [uint32_t]), the transmitted counter stays, and the
    packet, numbered, is still stored in the cache and is the one
    [Telemetry_GetLastPacket] returns. *)
Lemma cube_send_failure g i :
  CubeTelemetry.telemetry_initialized g = true ->
  ring_wf (CubeTelemetry.telemetry_buffer g) ->
  CubeTelemetry.rx_status i = TX_SUCCESS ->
  CubeTelemetry.Telemetry_SendUDP g (CubeTelemetry.net i) <> NX_SUCCESS ->
  let r := CubeTelemetry.Telemetry_ThreadEntry g i in
  CubeTelemetry.error_count (snd r)
  = uint32_t (CubeTelemetry.error_count g + 1)
  /\ CubeTelemetry.tx_count (snd r) = CubeTelemetry.tx_count g
  /\ CubeTelemetry.Telemetry_GetLastPacket (snd r) = fst r
  /\ is_Some (fst r).
Proof.
  intros Hi Hwf Hrx Hfail r.
  destruct (cube_turn_last g i Hi Hwf Hrx) as (p & Hp & Hlast).
  subst r. rewrite Hlast, Hp.
  split; [|split; [|split; [reflexivity|by exists p]]].
  - unfold CubeTelemetry.Telemetry_ThreadEntry. rewrite Hrx.
    change (TX_SUCCESS =? TX_SUCCESS) with true. cbn.
    apply Z.eqb_neq in Hfail. rewrite Hfail. reflexivity.
  - unfold CubeTelemetry.Telemetry_ThreadEntry. rewrite Hrx.
    change (TX_SUCCESS =? TX_SUCCESS) with true. cbn.
    apply Z.eqb_neq in Hfail. rewrite Hfail. reflexivity.
Qed.

(** C8, as amended: in both senders a write leaves the ring well formed
    with at most [TELEMETRY_MAX_PACKETS] packets retained.  In the
    STM32CubeIDE sender every write returns 1, and a write at capacity
    lands on the slot of the oldest packet, advances the read index by one
    slot and leaves the count at capacity: the retained packets are the
    former ones without the oldest, followed by the new one.  In
    [Core/Src/app_telemetry.c] a write at capacity returns [false] and
    leaves the buffer as it was. *)
Theorem C8_cache_write_at_capacity
    (b : TelemetryBuffer_t AudioFeatures.AudioTelemetryPacket_t) p
    (b' : TelemetryBuffer_t CoreInc.AudioTelemetryPacket_t) p' :
  ring_wf b -> ring_wf b' ->
  (let r := CubeTelemetry.Telemetry_BufferPut b p in
   ring_wf (snd r)
   /\ packet_count (snd r) <= TELEMETRY_MAX_PACKETS
   /\ fst r = 1
   /\ (packet_count b = TELEMETRY_MAX_PACKETS ->
       packet_count (snd r) = TELEMETRY_MAX_PACKETS
       /\ write_index b = read_index b
       /\ read_index (snd r) = (read_index b + 1) mod TELEMETRY_MAX_PACKETS
       /\ retained (snd r) = drop 1 (retained b) ++ [p]))
  /\ (let r := CoreTelemetry.Telemetry_BufferPut b' p' in
      ring_wf (snd r)
      /\ packet_count (snd r) <= TELEMETRY_MAX_PACKETS
      /\ (packet_count b' = TELEMETRY_MAX_PACKETS ->
          fst r = false /\ snd r = b')).
Proof.
  intros Hb Hb'. split.
  - destruct (cube_put_spec b p Hb) as (Hr & Hwf & _ & Hfull).
    split; [exact Hwf|]. split; [apply Hwf|]. split; [exact Hr|exact Hfull].
  - destruct (core_put_spec b' p' Hb') as (Hwf & _ & Hfull).
    split; [exact Hwf|]. split; [apply Hwf|exact Hfull].
Qed.

(** C8 at a concrete state: the eleventh packet written to the cache of
    the STM32CubeIDE sender. *)
Lemma C8_cache_write_witness :
  let b := CubeTelemetry.telemetry_buffer (cube_after 10) in
  let p := CubeTelemetry.set_seq_number AudioFeatures.zero_packet 10 in
  AudioFeatures.seq_number <$> retained b = [0; 1; 2; 3; 4; 5; 6; 7; 8; 9]
  /\ AudioFeatures.seq_number
       <$> retained (snd (CubeTelemetry.Telemetry_BufferPut b p))
     = [1; 2; 3; 4; 5; 6; 7; 8; 9; 10].
Proof.
  intros b p. split; [vm_compute; reflexivity|].
  assert (W : ring_wf b) by (by vm_compute; repeat split).
  assert (W' : ring_wf (CoreTelemetry.telemetry_buffer (core_after 10)))
    by (by vm_compute; repeat split).
  destruct (C8_cache_write_at_capacity b p _ CoreInc.zero_packet W W')
    as ((_ & _ & _ & Hfull) & _).
  destruct Hfull as (_ & _ & _ & ->); [vm_compute; reflexivity|].
  vm_compute. reflexivity.
Defined.

(** C8, as stated, fails: in [Core/Src/app_telemetry.c] the eleventh
    write finds the cache at capacity, returns [false] and overwrites
    nothing; the oldest packet is still retained. *)
Lemma C8_core_write_at_capacity_is_rejected :
  let b := CoreTelemetry.telemetry_buffer (core_after 10) in
  let p := CoreTelemetry.set_seq_number CoreInc.zero_packet 10 in
  packet_count b = TELEMETRY_MAX_PACKETS
  /\ fst (CoreTelemetry.Telemetry_BufferPut b p) = false
  /\ CoreInc.seq_number
       <$> retained (snd (CoreTelemetry.Telemetry_BufferPut b p))
     = [0; 1; 2; 3; 4; 5; 6; 7; 8; 9].
Proof. vm_compute. repeat split. Qed.

(** [Telemetry_GetLastPacket] in the two senders that keep a ring of
    packets.  In the STM32CubeIDE sender it is a read of the variables:
    with at least one packet retained it returns the newest retained
    packet, with none it returns no data, and after a turn of the sender
    loop that received a packet it returns that packet.  In
    [Core/Src/app_telemetry.c] it returns the oldest retained packet and
    removes it from the cache; with none retained it returns no data. *)
Theorem get_last_packet_in_both_senders g i g' :
  CubeTelemetry.telemetry_initialized g = true ->
  ring_wf (CubeTelemetry.telemetry_buffer g) ->
  CoreTelemetry.telemetry_initialized g' = true ->
  ring_wf (CoreTelemetry.telemetry_buffer g') ->
  (0 < packet_count (CubeTelemetry.telemetry_buffer g) ->
   exists p,
     CubeTelemetry.Telemetry_GetLastPacket g = Some p
     /\ last (retained (CubeTelemetry.telemetry_buffer g)) = Some p)
  /\ (packet_count (CubeTelemetry.telemetry_buffer g) = 0 ->
      CubeTelemetry.Telemetry_GetLastPacket g = None)
  /\ (CubeTelemetry.rx_status i = TX_SUCCESS ->
      exists p,
        fst (CubeTelemetry.Telemetry_ThreadEntry g i) = Some p
        /\ CubeTelemetry.Telemetry_GetLastPacket
             (snd (CubeTelemetry.Telemetry_ThreadEntry g i)) = Some p)
  /\ (0 < packet_count (CoreTelemetry.telemetry_buffer g') ->
      let r := CoreTelemetry.Telemetry_GetLastPacket g' in
      exists q,
        fst r = Some q
        /\ head (retained (CoreTelemetry.telemetry_buffer g')) = Some q
        /\ retained (CoreTelemetry.telemetry_buffer (snd r))
           = drop 1 (retained (CoreTelemetry.telemetry_buffer g'))
        /\ packet_count (CoreTelemetry.telemetry_buffer (snd r))
           = packet_count (CoreTelemetry.telemetry_buffer g') - 1)
  /\ (packet_count (CoreTelemetry.telemetry_buffer g') = 0 ->
      fst (CoreTelemetry.Telemetry_GetLastPacket g') = None).
Proof.
  intros Hi Hwf Hi' Hwf'.
  split; [|split; [|split; [|split]]].
  - intros Hcnt. rewrite (cube_last_spec g Hi Hwf).
    destruct (last _) as [p|] eqn:El; [by exists p|].
    exfalso. apply last_None in El.
    unfold retained in El. apply fmap_nil_inv in El.
    destruct Hwf as (_ & _ & Hc & _).
    destruct (Z.to_nat (packet_count (CubeTelemetry.telemetry_buffer g)))
      eqn:En; [lia|discriminate].
  - intros Hcnt. unfold CubeTelemetry.Telemetry_GetLastPacket.
    rewrite Hi, Hcnt. reflexivity.
  - intros Hrx. exact (cube_turn_last g i Hi Hwf Hrx).
  - intros Hcnt r. subst r. unfold CoreTelemetry.Telemetry_GetLastPacket.
    rewrite Hi'. cbn [negb].
    destruct (core_get_spec (CoreTelemetry.telemetry_buffer g') Hwf')
      as (_ & Hh & Hd & Hc).
    destruct (CoreTelemetry.Telemetry_BufferGet _) as [o b1] eqn:Eg.
    cbn [fst snd CoreTelemetry.telemetry_buffer] in *.
    unfold CoreTelemetry.Telemetry_BufferGet in Eg.
    destruct (Z.ltb_spec 0 (packet_count (CoreTelemetry.telemetry_buffer g')));
      [|lia].
    injection Eg as <- <-. eexists. split; [reflexivity|].
    split; [symmetry; exact Hh|]. split; [exact Hd|exact (Hc Hcnt)].
  - intros Hcnt. unfold CoreTelemetry.Telemetry_GetLastPacket.
    rewrite Hi'. cbn [negb]. unfold CoreTelemetry.Telemetry_BufferGet.
    rewrite Hcnt. reflexivity.
Qed.

(** Three packets written in each sender: the STM32CubeIDE one returns
    packet 2, the [Core/Src] one packet 0. *)
Lemma get_last_packet_in_both_senders_witness :
  AudioFeatures.seq_number
    <$> CubeTelemetry.Telemetry_GetLastPacket (cube_after 3) = Some 2
  /\ CoreInc.seq_number
       <$> fst (CoreTelemetry.Telemetry_GetLastPacket (core_after 3)) = Some 0.
Proof.
  assert (W : ring_wf (CubeTelemetry.telemetry_buffer (cube_after 3)))
    by (by vm_compute; repeat split).
  assert (W' : ring_wf (CoreTelemetry.telemetry_buffer (core_after 3)))
    by (by vm_compute; repeat split).
  destruct (get_last_packet_in_both_senders (cube_after 3) cube_ok (core_after 3)
              eq_refl W eq_refl W') as (Hc & _ & _ & Hk & _).
  destruct Hc as (p & -> & Hp); [vm_compute; reflexivity|].
  destruct Hk as (q & -> & Hq & _); [vm_compute; reflexivity|].
  vm_compute in Hp, Hq. injection Hp as <-. injection Hq as <-.
  split; reflexivity.
Defined.

(** C9, at the failing input: in [Core/Src/app_telemetry.c], after
    [Telemetry_Init] and two packets added, numbered 0 and 1,
    [Telemetry_GetLastPacket] returns packet 0, not the most recently
    written packet 1, and removes it from the cache, which is left holding
    packet 1 alone. *)
Lemma C9_core_get_last_packet_returns_oldest :
  let g := core_after 2 in
  let r := CoreTelemetry.Telemetry_GetLastPacket g in
  CoreInc.seq_number <$> retained (CoreTelemetry.telemetry_buffer g) = [0; 1]
  /\ CoreInc.seq_number <$> fst r = Some 0
  /\ CoreInc.seq_number
       <$> retained (CoreTelemetry.telemetry_buffer (snd r)) = [1].
Proof. vm_compute. repeat split. Qed.

(** * Further properties *)

(** ** Arithmetic of the fixed-width counters *)

Lemma uint8_t_range x : 0 <= uint8_t x < 256.
Proof. unfold uint8_t. apply Z.mod_pos_bound. lia. Qed.

Lemma uint32_t_add_l a b : uint32_t (uint32_t a + b) = uint32_t (a + b).
Proof. unfold uint32_t. apply Zplus_mod_idemp_l. Qed.

Lemma uint32_t_add_r a b : uint32_t (a + uint32_t b) = uint32_t (a + b).
Proof. unfold uint32_t. apply Zplus_mod_idemp_r. Qed.

Lemma uint32_t_idem a : uint32_t (uint32_t a) = uint32_t a.
Proof. unfold uint32_t. apply Z.mod_mod. lia. Qed.

(** ** Zero crossing rate, peak and spectral bands *)

Lemma sign_transitions_bound l :
  (sign_transitions l <= length l - 1)%nat.
Proof.
  destruct l as [|a l]; [cbn; lia|]. revert a.
  induction l as [|b l IH]; intros a; [cbn; lia|].
  change (sign_transitions (a :: b :: l))
    with (Nat.add
            (if bool_decide ((a < 0 /\ 0 <= b) \/ (0 <= a /\ b < 0))
             then 1%nat else 0%nat)
            (sign_transitions (b :: l))).
  specialize (IH b). cbn [length] in *. destruct (bool_decide _); lia.
Qed.

(** X1: [AudioFeatures_CalculateZCR] returns a percentage for every array
    and count; it returns 0 when fewer than two samples are given; and
    when the count is at least 2, at most the length of the array and
    small enough for [zero_crossings * 100] not to wrap, the result is
    exactly 100 times the number of sign transitions among the samples
    read, divided by the count and rounded down, which is at most 99: the
    clamp to 100 is never taken. *)
Theorem CalculateZCR_is_a_percentage samples count :
  0 <= AudioFeaturesC.AudioFeatures_CalculateZCR samples count <= 100
  /\ (count < 2 -> AudioFeaturesC.AudioFeatures_CalculateZCR samples count = 0)
  /\ (2 <= count -> count * 100 < 4294967296 ->
      (Z.to_nat count <= length samples)%nat ->
      AudioFeaturesC.AudioFeatures_CalculateZCR samples count
      = Z.of_nat (sign_transitions (take (Z.to_nat count) samples)) * 100
        / count
      /\ AudioFeaturesC.AudioFeatures_CalculateZCR samples count <= 99).
Proof.
  split; [apply CalculateZCR_range|]. split.
  { intros Hc. unfold AudioFeaturesC.AudioFeatures_CalculateZCR.
    destruct (Z.ltb_spec count 2); [reflexivity|lia]. }
  intros H2 Hb Hl.
  set (transitions :=
         Z.of_nat (sign_transitions (take (Z.to_nat count) samples))).
  assert (Ht : 0 <= transitions <= count - 1).
  { subst transitions.
    pose proof (sign_transitions_bound (take (Z.to_nat count) samples)) as B.
    rewrite length_take in B. lia. }
  unfold AudioFeaturesC.AudioFeatures_CalculateZCR.
  destruct (Z.ltb_spec count 2); [lia|].
  rewrite zero_crossings_spec by lia. fold transitions.
  rewrite uint32_t_small by nia.
  assert (Hq : 0 <= transitions * 100 / count <= 99).
  { split; [apply Z.div_pos; lia|].
    apply Z.lt_succ_r. apply Z.div_lt_upper_bound; lia. }
  rewrite uint16_t_small by lia.
  destruct (Z.ltb_spec 100 (transitions * 100 / count)); lia.
Qed.

(** X1 on four samples with two sign changes. *)
Lemma CalculateZCR_is_a_percentage_witness :
  AudioFeaturesC.AudioFeatures_CalculateZCR [5; -3; -1; 4] 4 = 50.
Proof.
  assert (H1 : 2 <= 4) by lia.
  assert (H2 : 4 * 100 < 4294967296) by lia.
  assert (H3 : (Z.to_nat 4 <= length [5; -3; -1; 4]%Z)%nat)
    by (vm_compute; lia).
  destruct (CalculateZCR_is_a_percentage [5; -3; -1; 4] 4) as (_ & _ & H).
  destruct (H H1 H2 H3) as [E _].
  rewrite E. vm_compute. reflexivity.
Defined.

Lemma peak_step_max peak sample :
  0 <= peak <= 32768 -> is_int16 sample ->
  AudioFeaturesC.peak_step peak sample = Z.max peak (Z.abs sample).
Proof.
  unfold AudioFeaturesC.peak_step, is_int16, int16_t, uint16_t.
  change (2 ^ 15) with 32768. change (2 ^ 16) with 65536.
  intros Hp Hs.
  destruct (Z.ltb_spec sample 0) as [Hneg|Hpos].
  - destruct (Z.eq_dec sample (-32768)) as [->|Hne].
    { replace (((- -32768 + 32768) mod 65536 - 32768) mod 65536)
        with 32768 by reflexivity.
      destruct (Z.ltb_spec peak 32768); lia. }
    rewrite (Z.mod_small (- sample + 32768)) by lia.
    replace (- sample + 32768 - 32768) with (- sample) by lia.
    rewrite (Z.mod_small (- sample)) by lia.
    destruct (Z.ltb_spec peak (- sample)); lia.
  - rewrite (Z.mod_small sample) by lia.
    destruct (Z.ltb_spec peak sample); lia.
Qed.

Lemma max_abs_range l : Forall is_int16 l -> 0 <= max_abs l <= 32768.
Proof.
  induction 1 as [|x l Hx _ IH]; [cbn; lia|].
  change (max_abs (x :: l)) with (Z.max (Z.abs x) (max_abs l)).
  unfold is_int16 in Hx. lia.
Qed.

Lemma peak_fold_max samples j n peak :
  Forall is_int16 samples -> (j + n <= length samples)%nat ->
  0 <= peak <= 32768 ->
  foldl (fun peak i => AudioFeaturesC.peak_step peak (nth i samples 0))
    peak (seq j n)
  = Z.max peak (max_abs (take n (drop j samples))).
Proof.
  intros Hs. revert j peak. induction n as [|n IH]; intros j peak Hl Hp.
  - rewrite take_0. change (max_abs []) with 0. cbn [seq foldl]. lia.
  - cbn [seq foldl]. rewrite (drop_nth samples j) by lia. cbn [take].
    change (max_abs (?x :: ?l)) with (Z.max (Z.abs x) (max_abs l)).
    assert (Hx : is_int16 (nth j samples 0)).
    { rewrite nth_lookup. destruct (samples !! j) as [x|] eqn:E; cbn.
      - eapply Forall_lookup_1; eauto.
      - unfold is_int16; lia. }
    rewrite peak_step_max by assumption.
    rewrite IH; [|lia|unfold is_int16 in Hx; lia].
    lia.
Qed.

(** X2: on an array of [int16_t] samples, with a count within the array,
    [AudioFeatures_FindPeakAmplitude] returns the largest absolute value
    among the samples read (0 when the count is 0); the result is within
    the documented 0..32767 exactly when none of those samples is
    -32768. *)
Theorem FindPeakAmplitude_is_max_abs samples count :
  Forall is_int16 samples ->
  (Z.to_nat count <= length samples)%nat ->
  let batch := take (Z.to_nat count) samples in
  AudioFeaturesC.AudioFeatures_FindPeakAmplitude samples count = max_abs batch
  /\ (AudioFeaturesC.AudioFeatures_FindPeakAmplitude samples count <= 32767
      <-> Forall (fun x => x <> -32768) batch).
Proof.
  intros Hs Hl batch.
  assert (E : AudioFeaturesC.AudioFeatures_FindPeakAmplitude samples count
              = max_abs batch).
  { unfold AudioFeaturesC.AudioFeatures_FindPeakAmplitude.
    destruct (Z.eqb_spec count 0) as [->|Hc]; [reflexivity|].
    rewrite peak_fold_max by (assumption || lia).
    rewrite drop_0. fold batch.
    assert (Hb : Forall is_int16 batch) by (apply Forall_take; assumption).
    pose proof (max_abs_range batch Hb) as R. lia. }
  split; [exact E|]. rewrite E.
  assert (Hb : Forall is_int16 batch) by (apply Forall_take; assumption).
  clear E. induction Hb as [|x l Hx Hl' IH].
  - split; [constructor|]. intros _. change (max_abs []) with 0. lia.
  - change (max_abs (x :: l)) with (Z.max (Z.abs x) (max_abs l)).
    pose proof (max_abs_range l Hl') as R.
    rewrite Forall_cons. unfold is_int16 in Hx.
    split.
    + intros H. split; [lia|]. apply IH. lia.
    + intros [H1 H2]. apply IH in H2. lia.
Qed.

(** X2 on four samples, of which three are read. *)
Lemma FindPeakAmplitude_is_max_abs_witness :
  AudioFeaturesC.AudioFeatures_FindPeakAmplitude [3; -200; 150; 999] 3 = 200.
Proof.
  assert (H1 : Forall is_int16 [3; -200; 150; 999]).
  { repeat constructor; unfold is_int16; lia. }
  assert (H2 : (Z.to_nat 3 <= length [3; -200; 150; 999]%Z)%nat)
    by (vm_compute; lia).
  destruct (FindPeakAmplitude_is_max_abs [3; -200; 150; 999] 3 H1 H2)
    as [E _].
  rewrite E. reflexivity.
Defined.

Lemma peak_fold_uint16 samples l peak :
  0 <= peak < 65536 ->
  0 <= foldl (fun peak i => AudioFeaturesC.peak_step peak (nth i samples 0))
         peak l < 65536.
Proof.
  revert peak. induction l as [|i l IH]; intros peak Hp; cbn [foldl];
    [exact Hp|].
  apply IH. unfold AudioFeaturesC.peak_step.
  match goal with |- context [uint16_t ?a] =>
    pose proof (uint16_t_range a); destruct (peak <? uint16_t a) end; lia.
Qed.

Lemma FindPeakAmplitude_uint16 samples count :
  0 <= AudioFeaturesC.AudioFeatures_FindPeakAmplitude samples count < 65536.
Proof.
  unfold AudioFeaturesC.AudioFeatures_FindPeakAmplitude.
  destruct (count =? 0); [lia|]. apply peak_fold_uint16. lia.
Qed.

Lemma CalculateRMS_uint16 `{dsp : FloatDSP} samples count :
  0 <= AudioFeaturesC.AudioFeatures_CalculateRMS samples count < 65536.
Proof.
  unfold AudioFeaturesC.AudioFeatures_CalculateRMS.
  destruct (count =? 0); [lia|]. apply uint16_t_range.
Qed.

Lemma ComputeFFTBands_prefix `{dsp : FloatDSP} frame rest :
  length frame = Z.to_nat AudioFeatures.FFT_SIZE ->
  AudioFeaturesC.AudioFeatures_ComputeFFTBands (frame ++ rest)
  = AudioFeaturesC.AudioFeatures_ComputeFFTBands frame.
Proof.
  intros Hl. unfold AudioFeaturesC.AudioFeatures_ComputeFFTBands.
  rewrite <- Hl, take_app_length, firstn_all. reflexivity.
Qed.

(** ** The packet on the wire *)

Lemma le_value_le_bytes n v :
  le_value (le_bytes n v) = v mod 2 ^ (8 * Z.of_nat n).
Proof.
  revert v. induction n as [|n IH]; intros v.
  - cbn. by rewrite Z.mod_1_r.
  - cbn [le_bytes le_value]. rewrite IH.
    change 255 with (Z.ones 8). rewrite Z.land_ones by lia.
    rewrite Z.shiftr_div_pow2 by lia.
    replace (8 * Z.of_nat (S n)) with (8 + 8 * Z.of_nat n) by lia.
    rewrite Z.pow_add_r by lia.
    rewrite Z.rem_mul_r by lia. change (2 ^ 8) with 256. reflexivity.
Qed.

Lemma le_bytes_inj n v w :
  0 <= v < 2 ^ (8 * Z.of_nat n) -> 0 <= w < 2 ^ (8 * Z.of_nat n) ->
  le_bytes n v = le_bytes n w -> v = w.
Proof.
  intros Hv Hw E. apply (f_equal le_value) in E.
  rewrite !le_value_le_bytes in E. rewrite !Z.mod_small in E; assumption.
Qed.

Lemma app_le_bytes_inj n v w l k :
  0 <= v < 2 ^ (8 * Z.of_nat n) -> 0 <= w < 2 ^ (8 * Z.of_nat n) ->
  le_bytes n v ++ l = le_bytes n w ++ k -> v = w /\ l = k.
Proof.
  intros Hv Hw E. apply app_inj_1 in E as [E1 E2].
  - split; [eapply le_bytes_inj; eassumption|exact E2].
  - by rewrite !length_le_bytes.
Qed.

(** X5: the 64-byte image loses nothing: two packets whose members hold
    values of their C types and whose images agree byte for byte are
    equal. *)
Theorem serialize_determines_packet p q :
  packet_in_range p -> packet_in_range q ->
  AudioFeatures.serialize p = AudioFeatures.serialize q -> p = q.
Proof.
  intros (P1 & P2 & P3 & P4 & P5 & P6 & P7 & P8 & P9 & P10 & Pl & Pf
          & P11 & P12 & P13 & P14 & P15)
         (Q1 & Q2 & Q3 & Q4 & Q5 & Q6 & Q7 & Q8 & Q9 & Q10 & Ql & Qf
          & Q11 & Q12 & Q13 & Q14 & Q15).
  destruct p as [v r1 sq ts rms rr zc zr spl pk fft nid st ec up r3].
  destruct q as [v' r1' sq' ts' rms' rr' zc' zr' spl' pk' fft' nid' st' ec'
                   up' r3'].
  cbn [AudioFeatures.version AudioFeatures.reserved1 AudioFeatures.seq_number
       AudioFeatures.timestamp_ms AudioFeatures.rms_raw
       AudioFeatures.rms_reserved AudioFeatures.zcr_count
       AudioFeatures.zcr_rate AudioFeatures.spl_db
       AudioFeatures.peak_amplitude AudioFeatures.fft_band
       AudioFeatures.node_id AudioFeatures.status_flags
       AudioFeatures.error_count AudioFeatures.uptime_sec
       AudioFeatures.reserved3] in *.
  change (Z.to_nat AudioFeatures.FFT_BANDS) with 8%nat in *.
  do 8 (destruct fft as [|? fft]; [discriminate Pl|]).
  destruct fft; [|discriminate Pl].
  do 8 (destruct fft' as [|? fft']; [discriminate Ql|]).
  destruct fft'; [|discriminate Ql].
  repeat match goal with H : Forall _ (_ :: _) |- _ =>
    apply Forall_cons in H as [? H] end.
  unfold AudioFeatures.serialize, le_array.
  cbn [AudioFeatures.version AudioFeatures.reserved1 AudioFeatures.seq_number
       AudioFeatures.timestamp_ms AudioFeatures.rms_raw
       AudioFeatures.rms_reserved AudioFeatures.zcr_count
       AudioFeatures.zcr_rate AudioFeatures.spl_db
       AudioFeatures.peak_amplitude AudioFeatures.fft_band
       AudioFeatures.node_id AudioFeatures.status_flags
       AudioFeatures.error_count AudioFeatures.uptime_sec
       AudioFeatures.reserved3].
  change (Z.to_nat AudioFeatures.FFT_BANDS) with 8%nat.
  cbn [seq fmap list_fmap mjoin list_join nth].
  rewrite <- !app_assoc. cbn [app].
  intros E.
  repeat match type of E with
         | le_bytes ?n ?a ++ _ = le_bytes ?n ?b ++ _ =>
             apply app_le_bytes_inj in E as [<- E]; [| assumption..]
         end.
  apply le_bytes_inj in E as <-; [reflexivity|assumption..].
Qed.

(** X5 on the all-zero packet and the same packet renumbered 0. *)
Lemma serialize_determines_packet_witness :
  AudioFeatures.zero_packet
  = CubeTelemetry.set_seq_number AudioFeatures.zero_packet 0.
Proof.
  assert (H1 : packet_in_range AudioFeatures.zero_packet).
  { unfold packet_in_range. cbn.
    repeat split; try lia; repeat constructor; lia. }
  assert (H2 : packet_in_range
                 (CubeTelemetry.set_seq_number AudioFeatures.zero_packet 0))
    by exact H1.
  assert (H3 : AudioFeatures.serialize AudioFeatures.zero_packet
               = AudioFeatures.serialize
                   (CubeTelemetry.set_seq_number AudioFeatures.zero_packet 0))
    by reflexivity.
  exact (serialize_determines_packet _ _ H1 H2 H3).
Defined.

(** ** Batches of four frames *)

Section Batches.

Import FeatureExtraction.
Context `{dsp : FloatDSP}.

Lemma memcpy_fold dst off src n :
  (n <= length src)%nat -> (off + n <= length dst)%nat ->
  foldl (fun d i => <[(off + i)%nat := nth i src 0]> d) dst (seq 0 n)
  = take off dst ++ take n src ++ drop (off + n) dst.
Proof.
  induction n as [|n IH]; intros Hs Hd.
  - cbn [seq foldl]. rewrite take_0, Nat.add_0_r. cbn [app].
    by rewrite take_drop.
  - rewrite seq_S, foldl_app. cbn [foldl Nat.add]. rewrite IH by lia.
    rewrite insert_app_r_alt by (rewrite length_take; lia).
    rewrite length_take, Nat.min_l by lia.
    replace (off + n - off)%nat with n by lia.
    rewrite insert_app_r_alt by (rewrite length_take; lia).
    rewrite length_take, Nat.min_l by lia. rewrite Nat.sub_diag.
    rewrite (take_S_r src n (nth n src 0)).
    2:{ rewrite nth_lookup. destruct (lookup_lt_is_Some_2 src n) as [x Hx]; [lia|].
        rewrite Hx. reflexivity. }
    destruct (drop (off + n) dst) as [|y r] eqn:E.
    { apply (f_equal length) in E. rewrite length_drop in E. cbn in E. lia. }
    cbn [insert list_insert].
    replace (drop (off + S n) dst) with r.
    2:{ replace (off + S n)%nat with (off + n + 1)%nat by lia.
        rewrite <- drop_drop, E. reflexivity. }
    rewrite <- !app_assoc. reflexivity.
Qed.

Lemma accumulate_prefix g f pre rest :
  accumulator_inv g ->
  length (samples f) = 512%nat ->
  accumulated_samples (feature_buffer (feature_ctx g)) = pre ++ rest ->
  sample_count (feature_buffer (feature_ctx g)) = Z.of_nat (length pre) ->
  accumulate g f =
    Continue
      (set_last_error_flags
         (set_ctx g
            (set_feature_buffer (feature_ctx g)
               {| accumulated_samples :=
                    (pre ++ samples f) ++ drop 512 rest;
                  sample_count :=
                    sample_count (feature_buffer (feature_ctx g)) + 512;
                  start_timestamp_ms := 0;
                  frame_count :=
                    frame_count (feature_buffer (feature_ctx g)) |}))
         (Z.lor (last_error_flags g) (error_flags f))).
Proof.
  intros (Hc & Hm & Hl & Hs & Hq) Hf Hacc Hn. unfold accumulate.
  change AUDIO_FRAME_SIZE with 512. change AUDIO_SAMPLES_PER_PACKET with 2048.
  set (n := sample_count (feature_buffer (feature_ctx g))) in *.
  assert (Hle : n <= 1536) by (pose proof (Z.div_mod n 512); lia).
  rewrite uint32_t_small by lia.
  destruct (Z.leb_spec (n + 512) 2048); [|lia].
  unfold memcpy_samples. rewrite Hl.
  case_bool_decide; [|lia].
  change (Z.to_nat 512) with 512%nat.
  rewrite memcpy_fold by lia.
  destruct (Z.eqb_spec (n + 512) 0); [lia|].
  rewrite Hs, Hacc, Hn, Nat2Z.id.
  rewrite take_app_length.
  rewrite (take_ge (samples f)) by lia.
  rewrite drop_app_ge by lia.
  replace (length pre + 512 - length pre)%nat with 512%nat by lia.
  rewrite <- app_assoc.
  replace (if error_flags f =? 0 then last_error_flags g
           else Z.lor (last_error_flags g) (error_flags f))
    with (Z.lor (last_error_flags g) (error_flags f)).
  2:{ destruct (Z.eqb_spec (error_flags f) 0) as [->|]; [|reflexivity].
      apply Z.lor_0_r. }
  reflexivity.
Qed.

(** The started extractor keeps [extractor_inv]. *)
Lemma turn_extractor_inv boot g i g' :
  extractor_inv boot g ->
  FeatureExtraction_ThreadEntry g i = Continue g' ->
  extractor_inv boot g'.
Proof.
  intros (Hinv & Hrun & Hboot & Hnode & Hflags) Hstep.
  destruct (turn_spec g i Hinv) as (g'' & Hstep' & Hinv' & _).
  rewrite Hstep in Hstep'. injection Hstep' as <-.
  split; [exact Hinv'|]. clear Hinv'.
  revert Hstep. unfold FeatureExtraction_ThreadEntry.
  rewrite Hrun. change (1 =? 0) with false. cbv iota.
  destruct (rx_status i =? TX_QUEUE_EMPTY); [by intros [= <-]|].
  destruct (rx_status i =? TX_SUCCESS); cbn [negb];
    [|by intros [= <-]].
  destruct (accumulate_spec g (rx_frame i) Hinv) as (acc & flags & _ & ->).
  destruct Hinv as (Hc & _).
  unfold emit. cbn [feature_ctx set_last_error_flags set_ctx feature_buffer
                    set_feature_buffer sample_count].
  destruct (AUDIO_SAMPLES_PER_PACKET <=? _).
  - unfold FeatureExtraction_ProcessBuffer.
    cbn [sample_count feature_ctx set_last_error_flags set_ctx].
    destruct (_ =? 0).
    + intros [= <-]. cbn. repeat split; assumption.
    + cbn [fst snd feature_ctx set_ctx set_seq_number output_queue].
      destruct (tx_queue_send _ _ _) as [[status q]|]; [|discriminate].
      destruct (status =? TX_SUCCESS); intros [= <-]; cbn;
        repeat split; assumption.
  - intros [= <-]. cbn. repeat split; try assumption. lia.
Qed.

Lemma run_extractor_inv boot g es g' :
  extractor_inv boot g -> run g es = Continue g' -> extractor_inv boot g'.
Proof.
  revert g. induction es as [|e es IH]; intros g Hinv; cbn [run].
  - by intros [= <-].
  - destruct e as [i|]; cbn [step].
    + destruct (FeatureExtraction_ThreadEntry g i) as [g1| |] eqn:E;
        try discriminate.
      apply IH. eapply turn_extractor_inv; eassumption.
    + apply IH. exact Hinv.
Qed.

Lemma start_extractor_inv boot :
  extractor_inv boot (FeatureExtraction_Start boot FeatureExtraction_Init).
Proof.
  split; [apply start_inv|]. cbn. repeat split.
Qed.

(** A frame that does not complete the batch is appended to it. *)
Lemma turn_appends boot g i pre rest :
  extractor_inv boot g ->
  rx_status i = TX_SUCCESS -> length (samples (rx_frame i)) = 512%nat ->
  accumulated_samples (feature_buffer (feature_ctx g)) = pre ++ rest ->
  sample_count (feature_buffer (feature_ctx g)) = Z.of_nat (length pre) ->
  sample_count (feature_buffer (feature_ctx g)) < 1536 ->
  exists g',
    FeatureExtraction_ThreadEntry g i = Continue g'
    /\ built g (Turn i) = None
    /\ extractor_inv boot g'
    /\ accumulated_samples (feature_buffer (feature_ctx g'))
       = (pre ++ samples (rx_frame i)) ++ drop 512 rest
    /\ sample_count (feature_buffer (feature_ctx g'))
       = Z.of_nat (length (pre ++ samples (rx_frame i)))
    /\ last_error_flags g'
       = Z.lor (last_error_flags g) (error_flags (rx_frame i))
    /\ seq_number (feature_ctx g') = seq_number (feature_ctx g)
    /\ error_count (feature_ctx g') = error_count (feature_ctx g).
Proof.
  intros Hext Hs Hlen Hacc Hn Hlt.
  pose proof Hext as (Hinv & Hrun & _).
  assert (E : FeatureExtraction_ThreadEntry g i
              = Continue
                  (set_last_error_flags
                     (set_ctx g
                        (set_feature_buffer (feature_ctx g)
                           {| accumulated_samples :=
                                (pre ++ samples (rx_frame i)) ++ drop 512 rest;
                              sample_count :=
                                sample_count (feature_buffer (feature_ctx g))
                                + 512;
                              start_timestamp_ms := 0;
                              frame_count :=
                                frame_count (feature_buffer (feature_ctx g)) |}))
                     (Z.lor (last_error_flags g) (error_flags (rx_frame i))))
              /\ built g (Turn i) = None).
  { unfold FeatureExtraction_ThreadEntry, built.
    rewrite Hrun, Hs.
    change (1 =? 0) with false.
    change (TX_SUCCESS =? TX_QUEUE_EMPTY) with false.
    change (TX_SUCCESS =? TX_SUCCESS) with true. cbn [negb orb].
    rewrite (accumulate_prefix g (rx_frame i) pre rest Hinv Hlen Hacc Hn).
    unfold emit. cbn [feature_ctx set_last_error_flags set_ctx feature_buffer
                      set_feature_buffer sample_count].
    change AUDIO_SAMPLES_PER_PACKET with 2048.
    destruct (Z.leb_spec 2048
                (sample_count (feature_buffer (feature_ctx g)) + 512)); [lia|].
    split; reflexivity. }
  destruct E as [E Eb]. eexists. split; [exact E|]. split; [exact Eb|].
  split; [eapply turn_extractor_inv; eassumption|].
  cbn. rewrite length_app, Hlen, Hn. repeat split. lia.
Qed.

(** The frame that completes the batch: a packet is built from the 2048
    samples accumulated, and the accumulator and the pending error flags
    are cleared. *)
Lemma turn_emits boot g i pre rest :
  extractor_inv boot g ->
  rx_status i = TX_SUCCESS -> length (samples (rx_frame i)) = 512%nat ->
  accumulated_samples (feature_buffer (feature_ctx g)) = pre ++ rest ->
  sample_count (feature_buffer (feature_ctx g)) = Z.of_nat (length pre) ->
  sample_count (feature_buffer (feature_ctx g)) = 1536 ->
  let batch := pre ++ samples (rx_frame i) in
  exists p g',
    FeatureExtraction_ThreadEntry g i = Continue g'
    /\ built g (Turn i) = Some p
    /\ extractor_inv boot g'
    /\ feature_buffer (feature_ctx g') = zero_buffer
    /\ AudioFeatures.seq_number p = seq_number (feature_ctx g)
    /\ AudioFeatures.rms_raw p
       = AudioFeaturesC.AudioFeatures_CalculateRMS batch 2048
    /\ AudioFeatures.zcr_rate p
       = AudioFeaturesC.AudioFeatures_CalculateZCR batch 2048
    /\ AudioFeatures.peak_amplitude p
       = AudioFeaturesC.AudioFeatures_FindPeakAmplitude batch 2048
    /\ AudioFeatures.spl_db p
       = uint16_t (AudioFeatures_CalculateSPL (AudioFeatures.rms_raw p))
    /\ AudioFeatures.fft_band p
       = snd (AudioFeaturesC.AudioFeatures_ComputeFFTBands batch)
    /\ AudioFeatures.status_flags p
       = Z.land (Z.lor (last_error_flags g) (error_flags (rx_frame i))) 255
    /\ AudioFeatures.uptime_sec p = uint32_t (now i - boot) / 1000.
Proof.
  intros Hext Hs Hlen Hacc Hn Hsc batch.
  pose proof Hext as (Hinv & Hrun & Hboot & _).
  pose proof Hinv as (_ & _ & Hl & _).
  assert (Hrest : drop 512 rest = []).
  { apply nil_length_inv. rewrite length_drop.
    rewrite Hacc, length_app in Hl. lia. }
  destruct (FeatureExtraction_ThreadEntry g i) as [g'| |] eqn:E.
  2,3: destruct (turn_spec g i Hinv) as (? & E' & _); congruence.
  pose proof (turn_extractor_inv boot g i g' Hext E) as Hext'.
  revert E. unfold FeatureExtraction_ThreadEntry, built.
  rewrite Hrun, Hs.
  change (1 =? 0) with false.
  change (TX_SUCCESS =? TX_QUEUE_EMPTY) with false.
  change (TX_SUCCESS =? TX_SUCCESS) with true. cbn [negb orb].
  rewrite (accumulate_prefix g (rx_frame i) pre rest Hinv Hlen Hacc Hn).
  rewrite Hrest, app_nil_r. fold batch.
  unfold emit. cbn [feature_ctx set_last_error_flags set_ctx feature_buffer
                    set_feature_buffer sample_count].
  rewrite Hsc. change (AUDIO_SAMPLES_PER_PACKET <=? 1536 + 512) with true.
  cbv iota. unfold FeatureExtraction_ProcessBuffer.
  cbn [sample_count feature_ctx set_last_error_flags set_ctx seq_number
       set_feature_buffer start_timestamp_ms accumulated_samples fst snd
       last_error_flags boot_time_ms error_count node_id].
  change (1536 + 512 =? 0) with false. cbv iota.
  change (1536 + 512) with 2048.
  intros E. eexists. exists g'. split; [reflexivity|].
  split; [reflexivity|]. split; [exact Hext'|].
  cbn [AudioFeatures.seq_number AudioFeatures.rms_raw AudioFeatures.zcr_rate
       AudioFeatures.peak_amplitude AudioFeatures.spl_db
       AudioFeatures.fft_band AudioFeatures.status_flags
       AudioFeatures.uptime_sec].
  split.
  { revert E. cbn [fst snd feature_ctx set_ctx set_seq_number output_queue].
    destruct (tx_queue_send _ _ _) as [[status q]|]; [|discriminate].
    destruct (status =? TX_SUCCESS); intros [= <-]; reflexivity. }
  destruct Hinv as (_ & _ & _ & _ & Hq).
  split; [apply uint16_t_small; lia|].
  do 4 (split; [reflexivity|]).
  split; [reflexivity|].
  split; [|rewrite Hboot; reflexivity].
  unfold uint8_t. change 255 with (Z.ones 8).
  rewrite Z.land_ones by lia. apply Z.mod_mod. lia.
Qed.

(** X6: from a batch boundary of the started extractor (any state
    reached with an empty accumulator), four turns that each receive a
    well-formed frame build exactly one packet and end at a batch boundary
    again.  The packet's RMS, zero crossing rate and peak are those of the
    2048 samples of the four frames in arrival order; its spectral bands
    are those of the first frame alone; its status byte is the bitwise OR
    of the error flags of the four frames and of nothing older; its uptime
    is the tick count of the fourth turn minus the boot time, in thousands
    of ticks. *)
Theorem batch_of_four_frames boot es g i1 i2 i3 i4 :
  run (FeatureExtraction_Start boot FeatureExtraction_Init) es = Continue g ->
  sample_count (feature_buffer (feature_ctx g)) = 0 ->
  Forall (fun i => rx_status i = TX_SUCCESS /\ wf_frame (rx_frame i))
    [i1; i2; i3; i4] ->
  let batch :=
    samples (rx_frame i1) ++ samples (rx_frame i2)
    ++ samples (rx_frame i3) ++ samples (rx_frame i4) in
  let flags :=
    Z.lor (Z.lor (Z.lor (error_flags (rx_frame i1))
                    (error_flags (rx_frame i2)))
             (error_flags (rx_frame i3)))
      (error_flags (rx_frame i4)) in
  exists p g',
    run g [Turn i1; Turn i2; Turn i3; Turn i4] = Continue g'
    /\ packets_built g [Turn i1; Turn i2; Turn i3; Turn i4] = [p]
    /\ feature_buffer (feature_ctx g') = zero_buffer
    /\ AudioFeatures.seq_number p = seq_number (feature_ctx g)
    /\ AudioFeatures.rms_raw p
       = AudioFeaturesC.AudioFeatures_CalculateRMS batch 2048
    /\ AudioFeatures.zcr_rate p
       = AudioFeaturesC.AudioFeatures_CalculateZCR batch 2048
    /\ AudioFeatures.peak_amplitude p
       = AudioFeaturesC.AudioFeatures_FindPeakAmplitude batch 2048
    /\ AudioFeatures.spl_db p
       = uint16_t (AudioFeatures_CalculateSPL (AudioFeatures.rms_raw p))
    /\ AudioFeatures.fft_band p
       = snd (AudioFeaturesC.AudioFeatures_ComputeFFTBands
                (samples (rx_frame i1)))
    /\ AudioFeatures.status_flags p = Z.land flags 255
    /\ AudioFeatures.uptime_sec p = uint32_t (now i4 - boot) / 1000.
Proof.
  intros Hrun Hsc Hin batch flags.
  pose proof (run_extractor_inv boot _ es g (start_extractor_inv boot) Hrun)
    as Hext.
  pose proof Hext as (_ & _ & _ & _ & Hclean). specialize (Hclean Hsc).
  apply Forall_cons in Hin as [[Hs1 [Hl1 _]] Hin].
  apply Forall_cons in Hin as [[Hs2 [Hl2 _]] Hin].
  apply Forall_cons in Hin as [[Hs3 [Hl3 _]] Hin].
  apply Forall_cons in Hin as [[Hs4 [Hl4 _]] _].
  change (Z.to_nat AudioFeatures.AUDIO_FRAME_SIZE) with 512%nat in *.
  destruct (turn_appends boot g i1 []
              (accumulated_samples (feature_buffer (feature_ctx g)))
              Hext Hs1 Hl1 eq_refl Hsc ltac:(lia))
    as (g1 & E1 & B1 & Hext1 & Hacc1 & Hn1 & Hf1 & Hq1 & _).
  destruct (turn_appends boot g1 i2 _ _ Hext1 Hs2 Hl2 Hacc1 Hn1
              ltac:(rewrite Hn1, length_app, Hl1; cbn; lia))
    as (g2 & E2 & B2 & Hext2 & Hacc2 & Hn2 & Hf2 & Hq2 & _).
  destruct (turn_appends boot g2 i3 _ _ Hext2 Hs3 Hl3 Hacc2 Hn2
              ltac:(rewrite Hn2, !length_app, Hl1, Hl2; cbn; lia))
    as (g3 & E3 & B3 & Hext3 & Hacc3 & Hn3 & Hf3 & Hq3 & _).
  destruct (turn_emits boot g3 i4 _ _ Hext3 Hs4 Hl4 Hacc3 Hn3
              ltac:(rewrite Hn3, !length_app, Hl1, Hl2, Hl3; cbn; lia))
    as (p & g4 & E4 & B4 & _ & Hz & Hq4 & Hrms & Hzcr & Hpk & Hspl & Hfft
        & Hst & Hup).
  exists p, g4. cbn [run packets_built step].
  rewrite E1, B1, E2, B2, E3, B3, E4, B4.
  split; [reflexivity|]. split; [reflexivity|]. split; [exact Hz|].
  assert (Hb : (([] ++ samples (rx_frame i1)) ++ samples (rx_frame i2))
                 ++ samples (rx_frame i3) ++ samples (rx_frame i4) = batch).
  { subst batch. cbn [app]. rewrite <- !app_assoc. reflexivity. }
  rewrite <- app_assoc in Hrms, Hzcr, Hpk, Hfft.
  rewrite Hb in Hrms, Hzcr, Hpk, Hfft.
  split; [congruence|].
  do 4 (split; [assumption|]).
  split.
  { rewrite Hfft. subst batch. by rewrite ComputeFFTBands_prefix. }
  split; [|exact Hup].
  rewrite Hst, Hf3, Hf2, Hf1, Hclean, Z.lor_0_l. reflexivity.
Qed.

End Batches.

(** X6 on four frames of silence, the first flagged with a DMA error and
    the third with clipping. *)
Lemma batch_of_four_frames_witness :
  exists p,
    FeatureExtraction.packets_built (dsp := dsp_on_silence) extractor_started
      [FeatureExtraction.Turn (flagged_input 1);
       FeatureExtraction.Turn (flagged_input 0);
       FeatureExtraction.Turn (flagged_input 4);
       FeatureExtraction.Turn (flagged_input 0)] = [p]
    /\ AudioFeatures.status_flags p = 5
    /\ AudioFeatures.uptime_sec p = 5.
Proof.
  assert (H1 : FeatureExtraction.run (dsp := dsp_on_silence)
                 (FeatureExtraction.FeatureExtraction_Start 0
                    FeatureExtraction.FeatureExtraction_Init) []
               = FeatureExtraction.Continue extractor_started)
    by reflexivity.
  assert (H2 : FeatureExtraction.sample_count
                 (FeatureExtraction.feature_buffer
                    (FeatureExtraction.feature_ctx extractor_started)) = 0)
    by reflexivity.
  assert (H3 : Forall (fun i => FeatureExtraction.rx_status i = TX_SUCCESS
                                /\ AudioAcquisition.wf_frame
                                     (FeatureExtraction.rx_frame i))
                 [flagged_input 1; flagged_input 0; flagged_input 4;
                  flagged_input 0]).
  { assert (Hf : forall flags,
               FeatureExtraction.rx_status (flagged_input flags) = TX_SUCCESS
               /\ AudioAcquisition.wf_frame
                    (FeatureExtraction.rx_frame (flagged_input flags))).
    { intros flags. split; [reflexivity|]. split; [reflexivity|].
      apply Forall_replicate. unfold is_int16. lia. }
    repeat (apply Forall_cons_2; [apply Hf|]). apply Forall_nil_2. }
  destruct (batch_of_four_frames (dsp := dsp_on_silence) 0 [] extractor_started
              _ _ _ _ H1 H2 H3)
    as (p & g' & _ & Hp & _ & _ & _ & _ & _ & _ & _ & Hst & Hup).
  exists p. split; [exact Hp|]. split; [rewrite Hst|rewrite Hup]; reflexivity.
Defined.



(** ** The counters of the extractor *)

Section Accounting.

Import FeatureExtraction.
Context `{dsp : FloatDSP}.

(** What one turn does to each counter. *)
Lemma turn_counters boot g i g' :
  extractor_inv boot g ->
  FeatureExtraction_ThreadEntry g i = Continue g' ->
  (packet_fate g (Turn i) = None <-> built g (Turn i) = None)
  /\ packet_count (feature_ctx g')
     = (if packet_fate g (Turn i) is Some true
        then uint32_t (packet_count (feature_ctx g) + 1)
        else packet_count (feature_ctx g))
  /\ error_count (feature_ctx g')
     = (if packet_fate g (Turn i) is Some false
        then uint32_t (error_count (feature_ctx g) + 1)
        else if receive_failed (Turn i)
             then uint32_t (error_count (feature_ctx g) + 1)
             else error_count (feature_ctx g))
  /\ tx_queue_messages (output_queue (feature_ctx g'))
     = match packet_fate g (Turn i), built g (Turn i) with
       | Some true, Some p =>
           tx_queue_messages (output_queue (feature_ctx g)) ++ [p]
       | _, _ => tx_queue_messages (output_queue (feature_ctx g))
       end.
Proof.
  intros (Hinv & Hrun & _).
  unfold packet_fate, FeatureExtraction_ThreadEntry, built.
  cbn [receive_failed].
  rewrite Hrun. change (1 =? 0) with false. cbn [orb]. cbv iota.
  destruct (Z.eqb_spec (rx_status i) TX_QUEUE_EMPTY) as [He|He].
  { intros [= <-]. rewrite He. by cbn. }
  destruct (Z.eqb_spec (rx_status i) TX_SUCCESS) as [Hs|Hs]; cbn [negb andb].
  2:{ intros [= <-]. by cbn. }
  destruct (accumulate_spec g (rx_frame i) Hinv) as (acc & flags & _ & ->).
  destruct Hinv as (Hc & _).
  unfold emit. cbn [feature_ctx set_last_error_flags set_ctx feature_buffer
                    set_feature_buffer sample_count].
  destruct (AUDIO_SAMPLES_PER_PACKET <=? _) eqn:Efull.
  2:{ intros [= <-]. by cbn. }
  unfold FeatureExtraction_ProcessBuffer.
  cbn [sample_count feature_ctx set_last_error_flags set_ctx].
  destruct (Z.eqb_spec
              (sample_count (feature_buffer (feature_ctx g)) + 512) 0);
    [lia|].
  cbn [fst snd feature_ctx set_ctx set_seq_number output_queue
       packet_count error_count].
  destruct (tx_queue_send _ _ _) as [[status q]|] eqn:Eq; [|discriminate].
  unfold tx_queue_send in Eq.
  destruct (bool_decide _); [|destruct (_ =? _); [|discriminate]];
    injection Eq as <- <-; intros [= <-]; cbn; by repeat split.
Qed.


Lemma run_counters boot es : forall g a b,
  extractor_inv boot g ->
  packet_count (feature_ctx g) = uint32_t a ->
  error_count (feature_ctx g) = uint32_t b ->
  exists g',
    run g es = Continue g'
    /\ length (packets_built g es)
       = (packets_enqueued g es + packets_dropped g es)%nat
    /\ packet_count (feature_ctx g')
       = uint32_t (a + Z.of_nat (packets_enqueued g es))
    /\ error_count (feature_ctx g')
       = uint32_t (b + Z.of_nat (packets_dropped g es)
                   + Z.of_nat (receive_errors es)).
Proof.
  unfold packets_enqueued, packets_dropped, receive_errors.
  induction es as [|e es IH]; intros g a b Hext Hp He.
  - exists g. split; [reflexivity|]. split; [reflexivity|].
    cbn. rewrite Hp, He. split; f_equal; lia.
  - cbn [run packets_built packet_fates]. destruct e as [i|]; cbn [step].
    + destruct Hext as (Hinv & Hrest).
      destruct (turn_spec g i Hinv) as (g1 & E & _).
      assert (Hext : extractor_inv boot g) by (split; assumption).
      rewrite E.
      destruct (turn_counters boot g i g1 Hext E) as (Hn & Hp1 & He1 & _).
      pose proof (turn_extractor_inv boot g i g1 Hext E) as Hext1.
      cbn [List.filter].
      destruct (packet_fate g (Turn i)) as [[|]|] eqn:Ef.
      * destruct (built g (Turn i)) as [p|] eqn:Eb;
          [|discriminate (proj2 Hn eq_refl)].
        assert (Hrf : receive_failed (Turn i) = false).
        { unfold built in Eb. cbn [receive_failed].
          destruct (is_running (feature_ctx g) =? 0); [discriminate|].
          cbn [orb] in Eb.
          destruct (rx_status i =? TX_SUCCESS) eqn:Es; [|discriminate].
          apply Z.eqb_eq in Es. rewrite Es. reflexivity. }
        rewrite Hrf in He1 |- *.
        rewrite Hp, uint32_t_add_l in Hp1.
        destruct (IH g1 (a + 1) b Hext1 Hp1 (eq_trans He1 He))
          as (g' & Hrun & Hlen & Hpc & Hec).
        exists g'. split; [exact Hrun|]. cbn [List.filter negb length].
        split; [lia|]. split; [rewrite Hpc|rewrite Hec]; f_equal; lia.
      * destruct (built g (Turn i)) as [p|] eqn:Eb;
          [|discriminate (proj2 Hn eq_refl)].
        assert (Hrf : receive_failed (Turn i) = false).
        { unfold built in Eb. cbn [receive_failed].
          destruct (is_running (feature_ctx g) =? 0); [discriminate|].
          cbn [orb] in Eb.
          destruct (rx_status i =? TX_SUCCESS) eqn:Es; [|discriminate].
          apply Z.eqb_eq in Es. rewrite Es. reflexivity. }
        rewrite Hrf.
        rewrite He, uint32_t_add_l in He1.
        destruct (IH g1 a (b + 1) Hext1 (eq_trans Hp1 Hp) He1)
          as (g' & Hrun & Hlen & Hpc & Hec).
        exists g'. split; [exact Hrun|]. cbn [List.filter negb length].
        split; [lia|]. split; [rewrite Hpc|rewrite Hec]; f_equal; lia.
      * rewrite (proj1 Hn eq_refl).
        destruct (receive_failed (Turn i)).
        -- rewrite He, uint32_t_add_l in He1.
           destruct (IH g1 a (b + 1) Hext1 (eq_trans Hp1 Hp) He1)
             as (g' & Hrun & Hlen & Hpc & Hec).
           exists g'. split; [exact Hrun|]. cbn [length].
           split; [lia|]. split; [rewrite Hpc|rewrite Hec]; f_equal; lia.
        -- destruct (IH g1 a b Hext1 (eq_trans Hp1 Hp) (eq_trans He1 He))
             as (g' & Hrun & Hlen & Hpc & Hec).
           exists g'. split; [exact Hrun|].
           split; [lia|]. split; [rewrite Hpc|rewrite Hec]; f_equal; lia.
    + cbn [packet_fate built List.filter].
      destruct (IH (set_ctx g
                      (set_output_queue (feature_ctx g)
                         (tx_queue_take (output_queue (feature_ctx g)))))
                  a b Hext Hp He) as (g' & Hrun & Hlen & Hpc & Hec).
      exists g'. split; [exact Hrun|].
      split; [exact Hlen|]. split; [exact Hpc|exact Hec].
Qed.

(** X7: every packet built is counted once, in the counter that tells its
    fate.  After any sequence of turns of the started extractor (and of
    packets taken from its output queue), each packet built was either
    taken by [tx_queue_send] or dropped; [packet_count] is the number of
    packets that entered the output queue and [error_count] the number of
    packets dropped plus the number of turns whose receive failed, both
    modulo 2^32.  Hence the sum of the two counters is, modulo 2^32, the
    number of packets built plus the number of failed receives. *)
Theorem every_built_packet_is_counted boot es :
  let start := FeatureExtraction_Start boot FeatureExtraction_Init in
  exists g,
    run start es = Continue g
    /\ length (packets_built start es)
       = (packets_enqueued start es + packets_dropped start es)%nat
    /\ packet_count (feature_ctx g)
       = uint32_t (Z.of_nat (packets_enqueued start es))
    /\ error_count (feature_ctx g)
       = uint32_t (Z.of_nat (packets_dropped start es)
                   + Z.of_nat (receive_errors es))
    /\ uint32_t (packet_count (feature_ctx g) + error_count (feature_ctx g))
       = uint32_t (Z.of_nat (length (packets_built start es))
                   + Z.of_nat (receive_errors es)).
Proof.
  intros start.
  destruct (run_counters boot es start 0 0 (start_extractor_inv boot)
              eq_refl eq_refl) as (g & Hrun & Hlen & Hpc & Hec).
  exists g. split; [exact Hrun|]. split; [exact Hlen|].
  split; [exact Hpc|]. split; [exact Hec|].
  rewrite Hpc, Hec, Hlen, uint32_t_add_l, uint32_t_add_r. f_equal. lia.
Qed.

End Accounting.

(** X7 on [twelve_frames_and_an_error]: three packets are built, two
    enter the output queue and the third is dropped; with the failed
    receive the counters stand at 2 and 2. *)
Lemma every_built_packet_is_counted_witness :
  let es := twelve_frames_and_an_error in
  packets_enqueued (dsp := dsp_on_silence) extractor_started es = 2%nat
  /\ packets_dropped (dsp := dsp_on_silence) extractor_started es = 1%nat
  /\ receive_errors es = 1%nat
  /\ exists g,
      FeatureExtraction.run (dsp := dsp_on_silence) extractor_started es
      = FeatureExtraction.Continue g
      /\ FeatureExtraction.packet_count (FeatureExtraction.feature_ctx g) = 2
      /\ FeatureExtraction.error_count (FeatureExtraction.feature_ctx g) = 2.
Proof.
  intros es.
  assert (He : packets_enqueued (dsp := dsp_on_silence) extractor_started es
               = 2%nat) by (vm_compute; reflexivity).
  assert (Hd : packets_dropped (dsp := dsp_on_silence) extractor_started es
               = 1%nat) by (vm_compute; reflexivity).
  assert (Hr : receive_errors es = 1%nat) by (vm_compute; reflexivity).
  split; [exact He|]. split; [exact Hd|]. split; [exact Hr|].
  destruct (every_built_packet_is_counted (dsp := dsp_on_silence) 0 es)
    as (g & Hrun & _ & Hpc & Hec & _).
  exists g. split; [exact Hrun|].
  change (FeatureExtraction.FeatureExtraction_Start 0
            FeatureExtraction.FeatureExtraction_Init)
    with extractor_started in Hpc, Hec.
  rewrite He in Hpc. rewrite Hd, Hr in Hec.
  split; [exact Hpc|exact Hec].
Defined.

(** ** The fields of the packets built *)

Section Fields.

Import FeatureExtraction.
Context `{dsp : FloatDSP}.

Lemma packets_built_Forall boot (P : AudioTelemetryPacket_t -> Prop) :
  (forall g i p,
      extractor_inv boot g -> built g (Turn i) = Some p -> P p) ->
  forall es g, extractor_inv boot g -> Forall P (packets_built g es).
Proof.
  intros HP. induction es as [|e es IH]; intros g Hext; [constructor|].
  cbn [packets_built]. destruct e as [i|]; cbn [step].
  - destruct (FeatureExtraction_ThreadEntry g i) as [g1| |] eqn:E;
      try constructor.
    pose proof (turn_extractor_inv boot g i g1 Hext E) as Hext1.
    destruct (built g (Turn i)) as [p|] eqn:Eb; [constructor|]; eauto.
  - cbn [built]. apply IH. exact Hext.
Qed.

Lemma built_fields boot g i p :
  extractor_inv boot g -> built g (Turn i) = Some p ->
  packet_in_range p
  /\ AudioFeatures.version p = AudioFeatures.AUDIO_TELEMETRY_VERSION
  /\ AudioFeatures.node_id p = 1
  /\ AudioFeatures.reserved1 p = 0
  /\ AudioFeatures.rms_reserved p = 0
  /\ AudioFeatures.reserved3 p = 0
  /\ AudioFeatures.zcr_rate p <= 100
  /\ Forall (fun m => m <= 1000000) (AudioFeatures.fft_band p)
  /\ AudioFeatures.uptime_sec p <= 4294967.
Proof.
  intros (Hinv & Hrun & Hboot & Hnode & _). unfold built.
  rewrite Hrun. change (1 =? 0) with false. cbn [orb].
  destruct (rx_status i =? TX_SUCCESS); cbn [negb]; [|discriminate].
  destruct (accumulate_spec g (rx_frame i) Hinv) as (acc & flags & _ & ->).
  cbn [feature_ctx set_last_error_flags set_ctx feature_buffer
       set_feature_buffer sample_count].
  destruct (AUDIO_SAMPLES_PER_PACKET <=? _); [|discriminate].
  unfold FeatureExtraction_ProcessBuffer.
  cbn [sample_count feature_ctx set_last_error_flags set_ctx].
  destruct (_ =? 0); [discriminate|].
  match goal with
  | |- context [AudioFeaturesC.AudioFeatures_ComputeFFTBands ?a] =>
      pose proof (ComputeFFTBands_spec a) as Hfft; cbv zeta in Hfft;
      destruct Hfft as (Hf0 & Hflen & Hfr & _);
      remember (AudioFeaturesC.AudioFeatures_ComputeFFTBands a) as fft
  end.
  cbn [fst]. rewrite Hf0. change (0 =? 0) with true. cbv iota.
  intros [= <-].
  unfold packet_in_range.
  cbn [AudioFeatures.version AudioFeatures.reserved1 AudioFeatures.seq_number
       AudioFeatures.timestamp_ms AudioFeatures.rms_raw
       AudioFeatures.rms_reserved AudioFeatures.zcr_count
       AudioFeatures.zcr_rate AudioFeatures.spl_db
       AudioFeatures.peak_amplitude AudioFeatures.fft_band
       AudioFeatures.node_id AudioFeatures.status_flags
       AudioFeatures.error_count AudioFeatures.uptime_sec
       AudioFeatures.reserved3 start_timestamp_ms accumulated_samples
       node_id].
  change (2 ^ 8) with 256. change (2 ^ 16) with 65536.
  change (2 ^ 32) with 4294967296.
  change AudioFeatures.AUDIO_TELEMETRY_VERSION with 1.
  rewrite Hnode. change (uint8_t 1) with 1.
  match goal with |- context [AudioFeaturesC.AudioFeatures_CalculateZCR ?a ?n] =>
    pose proof (CalculateZCR_range a n) as Hz end.
  match goal with |- context [uint32_t ?a / 1000] =>
    pose proof (uint32_t_range a) as Hu;
    assert (0 <= uint32_t a / 1000 <= 4294967)
      by (split; [apply Z.div_pos; lia|
                  apply Z.lt_succ_r, Z.div_lt_upper_bound; lia])
  end.
  repeat match goal with |- _ /\ _ => split end;
    try lia; try reflexivity;
    try apply uint16_t_range; try apply uint8_t_range;
    try apply CalculateRMS_uint16; try apply FindPeakAmplitude_uint16;
    try assumption.
  - eapply Forall_impl; [exact Hfr|]. cbn. intros; lia.
  - eapply Forall_impl; [exact Hfr|]. cbn. intros; lia.
Qed.

(** X8: every packet the started extractor builds, in any run, holds in
    each member a value of that member's C type (so that its 64-byte image
    determines it), with version 1, node id 1, zero reserved members, a
    zero crossing rate of at most 100, spectral bands of at most 1000000
    and an uptime of at most 4294967 seconds. *)
Theorem built_packets_fit_their_fields boot es :
  Forall (fun p =>
            packet_in_range p
            /\ AudioFeatures.version p = AudioFeatures.AUDIO_TELEMETRY_VERSION
            /\ AudioFeatures.node_id p = 1
            /\ AudioFeatures.reserved1 p = 0
            /\ AudioFeatures.rms_reserved p = 0
            /\ AudioFeatures.reserved3 p = 0
            /\ AudioFeatures.zcr_rate p <= 100
            /\ Forall (fun m => m <= 1000000) (AudioFeatures.fft_band p)
            /\ AudioFeatures.uptime_sec p <= 4294967)
    (packets_built (FeatureExtraction_Start boot FeatureExtraction_Init) es).
Proof.
  apply (packets_built_Forall boot); [|apply start_extractor_inv].
  intros g i p. apply built_fields.
Qed.

End Fields.

(** X9 for the frame that completes the first batch of the started
    extractor, the output queue being empty. *)
Lemma built_enqueued_witness :
  exists g',
    FeatureExtraction.FeatureExtraction_ThreadEntry (dsp := dsp_on_silence)
      three_frames_in fourth_input = FeatureExtraction.Continue g'
    /\ FeatureExtraction.packet_count (FeatureExtraction.feature_ctx g') = 1
    /\ length (tx_queue_messages
                 (FeatureExtraction.output_queue
                    (FeatureExtraction.feature_ctx g'))) = 1%nat.
Proof.
  assert (Hb : FeatureExtraction.built (dsp := dsp_on_silence) three_frames_in
                 (FeatureExtraction.Turn fourth_input)
               = Some first_silent_packet)
    by (vm_compute; reflexivity).
  assert (Hroom :
            (length (tx_queue_messages
                       (FeatureExtraction.output_queue
                          (FeatureExtraction.feature_ctx three_frames_in)))
             < tx_queue_capacity
                 (FeatureExtraction.output_queue
                    (FeatureExtraction.feature_ctx three_frames_in)))%nat)
    by (vm_compute; lia).
  destruct (built_enqueued (dsp := dsp_on_silence) three_frames_in
              fourth_input first_silent_packet Hb Hroom)
    as (g' & E & Hq & Hpc & _).
  exists g'. split; [exact E|]. split.
  - rewrite Hpc. vm_compute. reflexivity.
  - rewrite Hq, length_app. vm_compute. reflexivity.
Defined.

(** ** Initialisation and start of the extractor *)

Section Lifecycle.

Import FeatureExtraction FeatureControl.

(** X10: [FeatureExtraction_Init] with a non-null pool returns
    [TX_SUCCESS] exactly when its four ThreadX calls do, and then leaves
    the context of [FeatureExtraction_Init] above; with a null pool it
    returns [TX_PTR_ERROR] and touches nothing.  Whatever it returns, the
    two counters read 0 afterwards.  [FeatureExtraction_GetOutputQueue]
    and [FeatureExtraction_Start] look at the stack pointer only: after an
    initialisation whose stack allocation succeeded, also one that failed
    at a later call, the first returns a queue and the second, given a
    queue, sets the running flag and the boot time and returns what
    [tx_thread_resume] returns; otherwise the first returns null and the
    second returns [TX_PTR_ERROR] and changes nothing. *)
Theorem extractor_start_is_gated_on_the_stack k s input_queue now resume :
  let r := FeatureControl.FeatureExtraction_Init true k s in
  (fst r = TX_SUCCESS
   <-> stack_allocate k = TX_SUCCESS /\ queue_allocate k = TX_SUCCESS
       /\ queue_create k = TX_SUCCESS /\ thread_create k = TX_SUCCESS)
  /\ (is_Some (FeatureExtraction_GetOutputQueue (snd r))
      <-> stack_allocate k = TX_SUCCESS)
  /\ FeatureControl.FeatureExtraction_Start input_queue now resume (snd r)
     = (if input_queue && (stack_allocate k =? TX_SUCCESS)
        then (resume,
              {| vars := FeatureExtraction.FeatureExtraction_Start now
                           (vars (snd r));
                 thread_stack := true;
                 queue_memory := queue_memory (snd r) |})
        else (TX_PTR_ERROR, snd r))
  /\ FeatureExtraction_GetPacketCount (snd r) = 0
  /\ FeatureExtraction_GetErrorCount (snd r) = 0
  /\ (fst r = TX_SUCCESS ->
      feature_ctx (vars (snd r))
      = feature_ctx FeatureExtraction.FeatureExtraction_Init)
  /\ FeatureControl.FeatureExtraction_Init false k s = (TX_PTR_ERROR, s).
Proof.
  cbv zeta. unfold FeatureControl.FeatureExtraction_Init,
    FeatureControl.FeatureExtraction_Start, FeatureExtraction_GetOutputQueue,
    FeatureExtraction_GetPacketCount, FeatureExtraction_GetErrorCount.
  cbn [negb]. unfold TX_SUCCESS in *.
  destruct (Z.eqb_spec (stack_allocate k) 0) as [E1|E1];
    [destruct (Z.eqb_spec (queue_allocate k) 0) as [E2|E2];
     [destruct (Z.eqb_spec (queue_create k) 0) as [E3|E3];
      [destruct (Z.eqb_spec (thread_create k) 0) as [E4|E4]|]|]|];
    cbn [negb fst snd vars thread_stack queue_memory];
    rewrite ?andb_true_r, ?andb_false_r, ?orb_true_r, ?orb_false_r;
    destruct input_queue; cbn [negb];
    (split; [tauto|]);
    (split; [first [split; [tauto|intros _; by eexists]
                   |split; [|tauto]; intros [? ?]; discriminate]|]);
    (split; [reflexivity|]);
    (split; [reflexivity|]);
    (split; [reflexivity|]);
    (split; [|reflexivity]);
    first [intros _; reflexivity | intros ?; exfalso; tauto].
Qed.

End Lifecycle.

(** ** The wait for an address in the start-up thread *)

Section Startup.

Import AppThreadX.

Lemma wait_for_ip_spec IpAddress turns : forall wait_count,
  0 <= wait_count <= 600 ->
  (600 - wait_count <= Z.of_nat turns) ->
  let r := wait_for_ip IpAddress turns wait_count in
  wait_count <= r <= 600
  /\ (forall n, wait_count <= n < r -> IpAddress n = 0)
  /\ (r < 600 -> IpAddress r <> 0).
Proof.
  induction turns as [|turns IH]; intros w Hw Hf; cbn [wait_for_ip].
  - assert (w = 600) by lia. subst w. cbv zeta. repeat split; lia.
  - destruct (Z.eqb_spec (IpAddress w) 0) as [E|E]; cbn [andb].
    + destruct (Z.ltb_spec w 600) as [Hlt|Hge].
      * rewrite uint32_t_small by lia.
        assert (Hw1 : 0 <= w + 1 <= 600) by lia.
        assert (Hf1 : 600 - (w + 1) <= Z.of_nat turns) by lia.
        destruct (IH (w + 1) Hw1 Hf1) as (H1 & H2 & H3).
        cbv zeta. split; [lia|]. split; [|exact H3].
        intros n Hn. destruct (Z.eq_dec n w) as [->|]; [exact E|].
        apply H2. lia.
      * cbv zeta. repeat split; lia.
    + cbv zeta. repeat split; lia.
Qed.

(** X11: the loop of [App_Startup_Thread_Entry] that waits for an IP
    address is left after at most 600 turns, that is 60000 ticks of sleep:
    unfolding more than 600 turns changes nothing.  It is left at the
    first test that reads a non-zero address, every earlier test having
    read 0, or after the 600th sleep. *)
Theorem startup_wait_is_bounded IpAddress turns :
  (600 <= turns)%nat ->
  let r := wait_for_ip IpAddress turns 0 in
  r = wait_for_ip IpAddress 600 0
  /\ 0 <= r <= 600
  /\ (forall n, 0 <= n < r -> IpAddress n = 0)
  /\ (r < 600 -> IpAddress r <> 0).
Proof.
  intros Ht.
  assert (H0 : 0 <= 0 <= 600) by lia.
  assert (Hf : 600 - 0 <= Z.of_nat turns) by lia.
  assert (Hf' : 600 - 0 <= Z.of_nat 600) by lia.
  destruct (wait_for_ip_spec IpAddress turns 0 H0 Hf) as (H1 & H2 & H3).
  destruct (wait_for_ip_spec IpAddress 600 0 H0 Hf') as (G1 & G2 & G3).
  cbv zeta. split; [|split; [lia|split; assumption]].
  set (r := wait_for_ip IpAddress turns 0) in *.
  set (r' := wait_for_ip IpAddress 600 0) in *.
  destruct (Z.lt_trichotomy r r') as [H|[H|H]]; [|exact H|].
  - exfalso. apply H3; [lia|]. apply G2. lia.
  - exfalso. apply G3; [lia|]. apply H2. lia.
Qed.

End Startup.

(** X11 when the address arrives during the third sleep. *)
Lemma startup_wait_is_bounded_witness :
  AppThreadX.wait_for_ip address_at_third_poll 1000 0 = 3.
Proof.
  assert (H : (600 <= 1000)%nat) by lia.
  destruct (startup_wait_is_bounded address_at_third_poll 1000 H)
    as (E & _).
  rewrite E. vm_compute. reflexivity.
Defined.

(** ** Configuration and runs of the NetXDuo sender *)

Section NetXRuns.

Import NetXTelemetry NetXControl.

(** The loop never changes the configuration or the two flags. *)
Lemma netx_turn_frame g i :
  let g' := Telemetry_ThreadEntry g i in
  ip_instance (telemetry_ctx g') = ip_instance (telemetry_ctx g)
  /\ is_ready (telemetry_ctx g') = is_ready (telemetry_ctx g)
  /\ is_running (telemetry_ctx g') = is_running (telemetry_ctx g)
  /\ receiver_ip (telemetry_ctx g') = receiver_ip (telemetry_ctx g)
  /\ receiver_port (telemetry_ctx g') = receiver_port (telemetry_ctx g)
  /\ use_broadcast (telemetry_ctx g') = use_broadcast (telemetry_ctx g).
Proof.
  unfold Telemetry_ThreadEntry, Telemetry_TransmitPacket.
  destruct (is_running (telemetry_ctx g) =? 0); [by repeat split|].
  destruct (is_ready (telemetry_ctx g) =? 0); [by repeat split|].
  destruct (rx_status i =? TX_QUEUE_EMPTY); [by repeat split|].
  destruct (rx_status i =? TX_SUCCESS); cbn [negb]; [|by repeat split].
  destruct (ip_instance (telemetry_ctx g)) eqn:Ei; cbn [negb].
  - destruct (allocate_status (net i) =? NX_SUCCESS); cbn [negb].
    + destruct (send_status (net i) =? NX_SUCCESS); cbn [negb].
      * change (NX_SUCCESS =? NX_SUCCESS) with true. cbn. by rewrite Ei.
      * destruct (send_status (net i) =? NX_SUCCESS); cbn; by rewrite Ei.
    + destruct (allocate_status (net i) =? NX_SUCCESS); cbn; by rewrite Ei.
  - change (NX_PTR_ERROR =? NX_SUCCESS) with false. cbn. by rewrite Ei.
Qed.

(** The cache after one turn of the running, ready sender. *)
Lemma netx_turn_cache g i :
  is_running (telemetry_ctx g) <> 0 -> is_ready (telemetry_ctx g) <> 0 ->
  Telemetry_GetLastPacket (Telemetry_ThreadEntry g i)
  = if rx_status i =? TX_SUCCESS then Some (rx_pkt i)
    else Telemetry_GetLastPacket g.
Proof.
  intros Hrun Hready. unfold Telemetry_ThreadEntry.
  apply Z.eqb_neq in Hrun, Hready. rewrite Hrun, Hready.
  destruct (Z.eqb_spec (rx_status i) TX_QUEUE_EMPTY) as [He|He].
  { rewrite He. reflexivity. }
  destruct (rx_status i =? TX_SUCCESS); cbn [negb]; [|reflexivity].
  destruct (Telemetry_TransmitPacket g (rx_pkt i) (net i)) as [[s d] g1].
  reflexivity.
Qed.

Lemma last_cons_match {A} (x : A) l :
  last (x :: l) = match last l with Some y => Some y | None => Some x end.
Proof. destruct l as [|y l]; [reflexivity|]. rewrite last_cons. done. Qed.

(** X14: in the running, ready NetXDuo sender the cached packet is
    always the last one taken from the queue, whether or not its
    transmission succeeded: after any sequence of turns
    [Telemetry_GetLastPacket] returns the packet of the last turn whose
    receive succeeded, and what it returned before if there was none.  In
    particular, once it has returned a packet it never again reports that
    none is available. *)
Theorem netx_cache_holds_last_received g ins :
  is_running (telemetry_ctx g) <> 0 -> is_ready (telemetry_ctx g) <> 0 ->
  Telemetry_GetLastPacket (foldl Telemetry_ThreadEntry g ins)
  = match last (packets_received ins) with
    | Some p => Some p
    | None => Telemetry_GetLastPacket g
    end.
Proof.
  revert g. induction ins as [|i ins IH]; intros g Hrun Hready;
    [reflexivity|].
  cbn [foldl].
  destruct (netx_turn_frame g i) as (_ & Hr & Hn & _).
  rewrite IH by (rewrite ?Hr, ?Hn; assumption).
  rewrite netx_turn_cache by assumption.
  unfold packets_received. cbn [List.filter].
  destruct (rx_status i =? TX_SUCCESS); [|reflexivity].
  cbn [fmap list_fmap]. rewrite last_cons_match.
  destruct (last _); reflexivity.
Qed.

(** The counters after one turn of the running, ready sender. *)
Lemma netx_turn_counts g i :
  ip_instance (telemetry_ctx g) = true ->
  is_running (telemetry_ctx g) <> 0 -> is_ready (telemetry_ctx g) <> 0 ->
  let g' := Telemetry_ThreadEntry g i in
  uint32_t (tx_count (telemetry_ctx g'))
  = uint32_t (tx_count (telemetry_ctx g) + Z.of_nat (sends_accepted [i]))
  /\ uint32_t (error_count (telemetry_ctx g'))
     = uint32_t (error_count (telemetry_ctx g)
                 + Z.of_nat (turns_failed [i])
                 + Z.of_nat (allocations_failed [i])).
Proof.
  intros Hip Hrun Hready. unfold Telemetry_ThreadEntry, Telemetry_TransmitPacket.
  unfold sends_accepted, turns_failed, allocations_failed. cbn [List.filter].
  apply Z.eqb_neq in Hrun, Hready. rewrite Hrun, Hready, Hip. cbn [negb].
  destruct (Z.eqb_spec (rx_status i) TX_QUEUE_EMPTY) as [He|He].
  { rewrite He. change (TX_QUEUE_EMPTY =? TX_SUCCESS) with false.
    cbn [negb andb length Z.of_nat]. by rewrite !Z.add_0_r. }
  destruct (rx_status i =? TX_SUCCESS); cbn [negb andb].
  { destruct (allocate_status (net i) =? NX_SUCCESS) eqn:Ea; cbn [negb andb].
    - destruct (send_status (net i) =? NX_SUCCESS) eqn:Es; cbn [negb andb].
      + change (NX_SUCCESS =? NX_SUCCESS) with true. cbn.
        rewrite uint32_t_idem, !Z.add_0_r. done.
      + rewrite Es. cbn. rewrite uint32_t_idem, !Z.add_0_r. done.
    - rewrite Ea. cbn. rewrite uint32_t_add_twice, uint32_t_idem, !Z.add_0_r.
      split; [done|]. f_equal. lia. }
  cbn. rewrite uint32_t_idem, !Z.add_0_r. done.
Qed.

(** X15: the counters of the running, ready NetXDuo sender after any
    sequence of turns, modulo 2^32: the transmitted counter has advanced by
    the number of turns whose packet NetX accepted; the error counter has
    advanced by the number of turns with a failed receive or a failed
    transmission, plus once more for every failed packet allocation, which
    is counted both in [Telemetry_TransmitPacket] and in the loop. *)
Theorem netx_counters g ins :
  ip_instance (telemetry_ctx g) = true ->
  is_running (telemetry_ctx g) <> 0 -> is_ready (telemetry_ctx g) <> 0 ->
  let g' := foldl Telemetry_ThreadEntry g ins in
  uint32_t (tx_count (telemetry_ctx g'))
  = uint32_t (tx_count (telemetry_ctx g) + Z.of_nat (sends_accepted ins))
  /\ uint32_t (error_count (telemetry_ctx g'))
     = uint32_t (error_count (telemetry_ctx g)
                 + Z.of_nat (turns_failed ins)
                 + Z.of_nat (allocations_failed ins)).
Proof.
  revert g. induction ins as [|i ins IH]; intros g Hip Hrun Hready.
  - cbn. rewrite !Z.add_0_r. done.
  - cbn [foldl].
    destruct (netx_turn_frame g i) as (Hi & Hr & Hn & _).
    destruct (netx_turn_counts g i Hip Hrun Hready) as [Ht He].
    destruct (IH (Telemetry_ThreadEntry g i)) as [IHt IHe];
      [by rewrite Hi|by rewrite Hn|by rewrite Hr|].
    cbv zeta. rewrite IHt, IHe. split.
    + rewrite <- uint32_t_add_l, Ht, uint32_t_add_l.
      unfold sends_accepted. cbn [List.filter].
      f_equal. destruct (_ && _); cbn [length]; lia.
    + replace (error_count (telemetry_ctx (Telemetry_ThreadEntry g i))
               + Z.of_nat (turns_failed ins)
               + Z.of_nat (allocations_failed ins))
        with (error_count (telemetry_ctx (Telemetry_ThreadEntry g i))
              + (Z.of_nat (turns_failed ins)
                 + Z.of_nat (allocations_failed ins))) by lia.
      rewrite <- uint32_t_add_l, He, uint32_t_add_l.
      unfold turns_failed, allocations_failed. cbn [List.filter].
      f_equal.
      destruct (negb (rx_status i =? TX_QUEUE_EMPTY) && _);
        destruct ((rx_status i =? TX_SUCCESS) && _); cbn [length]; lia.
Qed.

(** X12: after a [Telemetry_Init] and a [Telemetry_Start] whose calls
    succeed, the sender is ready and running with both counters at 0, and
    it sends to 255.255.255.255, port 5000, whatever address was passed to
    [Telemetry_Start]: the default is broadcast mode.  Neither call clears
    the cached packet.  From the initial values of the variables, with the
    address [app_threadx.c] passes, the result is [started]. *)
Theorem netx_startup_broadcasts g ip k pkt t :
  socket_create k = NX_SUCCESS -> socket_bind k = NX_SUCCESS ->
  allocate_status t = NX_SUCCESS ->
  let g1 := snd (Telemetry_Init true true TX_SUCCESS TX_SUCCESS g) in
  let r := Telemetry_Start true ip k g1 in
  fst r = thread_resume k
  /\ is_ready (telemetry_ctx (snd r)) = 1
  /\ is_running (telemetry_ctx (snd r)) = 1
  /\ tx_count (telemetry_ctx (snd r)) = 0
  /\ error_count (telemetry_ctx (snd r)) = 0
  /\ snd (fst (Telemetry_TransmitPacket (snd r) pkt t))
     = Some {| dest_ip := 4294967295;
               dest_port := TELEMETRY_UDP_PORT_RX;
               payload := AudioFeatures.serialize pkt |}
  /\ Telemetry_GetLastPacket (snd r) = Telemetry_GetLastPacket g
  /\ snd (Telemetry_Start true TELEMETRY_DEFAULT_IP_ADDR k
            (snd (Telemetry_Init true true TX_SUCCESS TX_SUCCESS at_reset)))
     = started.
Proof.
  intros Hc Hb Ha. cbv zeta.
  unfold Telemetry_Start, Telemetry_CreateSocket, Telemetry_Init,
    Telemetry_TransmitPacket.
  cbn [negb orb snd fst telemetry_ctx set_ctx ip_instance].
  change (TX_SUCCESS =? TX_SUCCESS) with true. cbn [negb snd].
  rewrite Hc, Hb. change (NX_SUCCESS =? NX_SUCCESS) with true.
  cbn [negb snd fst telemetry_ctx set_ctx ip_instance].
  rewrite Ha. change (NX_SUCCESS =? NX_SUCCESS) with true.
  destruct (ip =? 0); cbn [negb]; cbn; rewrite ?Ha;
    change (NX_SUCCESS =? NX_SUCCESS) with true; cbn;
    destruct (send_status t =? NX_SUCCESS); repeat split.
Qed.

(** X13: the destination of a datagram follows the two setters: after
    [Telemetry_SetReceiver] with a non-zero address and
    [Telemetry_SetBroadcast], the 64-byte image of the packet goes to the
    port given, and to the address given if broadcast was disabled,
    to 255.255.255.255 otherwise.  [Telemetry_SetReceiver] with the
    address 0 returns [TX_PTR_ERROR] and changes neither address nor
    port. *)
Theorem netx_datagram_destination g ip port enable pkt t :
  ip <> 0 -> ip_instance (telemetry_ctx g) = true ->
  allocate_status t = NX_SUCCESS ->
  let g1 := snd (Telemetry_SetReceiver g ip port) in
  let g2 := snd (Telemetry_SetBroadcast g1 enable) in
  snd (fst (Telemetry_TransmitPacket g2 pkt t))
  = Some {| dest_ip := if uint8_t enable =? 0 then ip else 4294967295;
            dest_port := port;
            payload := AudioFeatures.serialize pkt |}
  /\ length (AudioFeatures.serialize pkt) = 64%nat
  /\ Telemetry_SetReceiver g 0 port = (TX_PTR_ERROR, g).
Proof.
  intros Hip Hi Ha. cbv zeta.
  unfold Telemetry_SetReceiver, Telemetry_SetBroadcast,
    Telemetry_TransmitPacket.
  apply Z.eqb_neq in Hip. rewrite Hip.
  cbn [snd fst telemetry_ctx set_ctx set_receiver ip_instance use_broadcast
       receiver_ip receiver_port].
  rewrite Hi, Ha. change (NX_SUCCESS =? NX_SUCCESS) with true. cbn [negb].
  split; [by destruct (negb (send_status t =? NX_SUCCESS))|].
  split; [|reflexivity].
  unfold AudioFeatures.serialize.
  rewrite !length_app, !length_le_bytes, length_le_array. reflexivity.
Qed.

End NetXRuns.

(** X12 from the initial values, with a unicast address passed to
    [Telemetry_Start]. *)
Lemma netx_startup_broadcasts_witness :
  snd (fst (NetXTelemetry.Telemetry_TransmitPacket
              (snd (NetXControl.Telemetry_Start true 3232235777 netx_calls_ok
                      (snd (NetXControl.Telemetry_Init true true
                              TX_SUCCESS TX_SUCCESS NetXControl.at_reset))))
              AudioFeatures.zero_packet netx_ok))
  = Some {| NetXTelemetry.dest_ip := 4294967295;
            NetXTelemetry.dest_port := 5000;
            NetXTelemetry.payload :=
              AudioFeatures.serialize AudioFeatures.zero_packet |}.
Proof.
  assert (H1 : NetXControl.socket_create netx_calls_ok = NX_SUCCESS)
    by reflexivity.
  assert (H2 : NetXControl.socket_bind netx_calls_ok = NX_SUCCESS)
    by reflexivity.
  assert (H3 : NetXTelemetry.allocate_status netx_ok = NX_SUCCESS)
    by reflexivity.
  exact (proj1 (proj2 (proj2 (proj2 (proj2 (proj2
           (netx_startup_broadcasts NetXControl.at_reset 3232235777
              netx_calls_ok AudioFeatures.zero_packet netx_ok
              H1 H2 H3))))))).
Defined.

(** X13 for the started sender switched to unicast. *)
Lemma netx_datagram_destination_witness :
  snd (fst (NetXTelemetry.Telemetry_TransmitPacket
              (snd (NetXControl.Telemetry_SetBroadcast
                      (snd (NetXControl.Telemetry_SetReceiver
                              NetXTelemetry.started 3232235777 6000)) 0))
              AudioFeatures.zero_packet netx_ok))
  = Some {| NetXTelemetry.dest_ip := 3232235777;
            NetXTelemetry.dest_port := 6000;
            NetXTelemetry.payload :=
              AudioFeatures.serialize AudioFeatures.zero_packet |}.
Proof.
  assert (H1 : 3232235777 <> 0) by lia.
  assert (H2 : NetXTelemetry.ip_instance
                 (NetXTelemetry.telemetry_ctx NetXTelemetry.started) = true)
    by reflexivity.
  assert (H3 : NetXTelemetry.allocate_status netx_ok = NX_SUCCESS)
    by reflexivity.
  exact (proj1 (netx_datagram_destination NetXTelemetry.started 3232235777
                  6000 0 AudioFeatures.zero_packet netx_ok H1 H2 H3)).
Defined.

(** X15 on five turns: one packet sent, one allocation failure, one send
    failure, one receive error and one time-out. *)
Lemma netx_counters_witness :
  let g' := foldl NetXTelemetry.Telemetry_ThreadEntry NetXTelemetry.started
              netx_five_turns in
  NetXTelemetry.tx_count (NetXTelemetry.telemetry_ctx g') = 1
  /\ NetXTelemetry.error_count (NetXTelemetry.telemetry_ctx g') = 4.
Proof.
  assert (H1 : NetXTelemetry.ip_instance
                 (NetXTelemetry.telemetry_ctx NetXTelemetry.started) = true)
    by reflexivity.
  assert (H2 : NetXTelemetry.is_running
                 (NetXTelemetry.telemetry_ctx NetXTelemetry.started) <> 0)
    by (vm_compute; congruence).
  assert (H3 : NetXTelemetry.is_ready
                 (NetXTelemetry.telemetry_ctx NetXTelemetry.started) <> 0)
    by (vm_compute; congruence).
  pose proof (netx_counters NetXTelemetry.started netx_five_turns H1 H2 H3)
    as [Ht He].
  split; [exact Ht|exact He].
Defined.

(** X14 on the same five turns: the cached packet is the third one, whose
    send failed. *)
Lemma netx_cache_holds_last_received_witness :
  NetXTelemetry.Telemetry_GetLastPacket
    (foldl NetXTelemetry.Telemetry_ThreadEntry NetXTelemetry.started
       netx_five_turns)
  = Some (CubeTelemetry.set_seq_number AudioFeatures.zero_packet 2).
Proof.
  assert (H2 : NetXTelemetry.is_running
                 (NetXTelemetry.telemetry_ctx NetXTelemetry.started) <> 0)
    by (vm_compute; congruence).
  assert (H3 : NetXTelemetry.is_ready
                 (NetXTelemetry.telemetry_ctx NetXTelemetry.started) <> 0)
    by (vm_compute; congruence).
  exact (netx_cache_holds_last_received NetXTelemetry.started netx_five_turns
           H2 H3).
Defined.


(** ** Runs of the STM32CubeIDE sender *)

Lemma last_drop_lt {A} (l : list A) k :
  (k < length l)%nat -> last (drop k l) = last l.
Proof.
  revert l. induction k as [|k IH]; intros [|x l] H; cbn in H; try lia;
    [reflexivity|].
  cbn [drop]. rewrite IH by lia. destruct l; [cbn in H; lia|reflexivity].
Qed.

Lemma last_last_n {A} (l : list A) : last (last_n 10 l) = last l.
Proof.
  unfold last_n. destruct l as [|x l]; [reflexivity|].
  apply last_drop_lt. cbn [length]. lia.
Qed.

(** Appending to a list and keeping its last ten elements. *)
Lemma last_n_app_one {A} (l : list A) x :
  last_n 10 (l ++ [x])
  = if bool_decide (length (last_n 10 l) < 10)%nat
    then last_n 10 l ++ [x]
    else drop 1 (last_n 10 l) ++ [x].
Proof.
  unfold last_n. rewrite length_app, length_drop. cbn [length].
  case_bool_decide as H.
  - assert (length l < 10)%nat by lia.
    replace (length l + 1 - 10)%nat with 0%nat by lia.
    replace (length l - 10)%nat with 0%nat by lia. reflexivity.
  - assert (10 <= length l)%nat by lia.
    rewrite drop_drop.
    replace (length l + 1 - 10)%nat with (length l - 10 + 1)%nat by lia.
    rewrite drop_app_le by lia. reflexivity.
Qed.

Lemma length_retained {P} `{Inhabited P} (b : TelemetryBuffer_t P) :
  length (retained b) = Z.to_nat (packet_count b).
Proof. unfold retained. by rewrite length_fmap, length_seq. Qed.

(** One turn of the loop, on the retained packets. *)
Lemma cube_turn_retained g i :
  ring_wf (CubeTelemetry.telemetry_buffer g) ->
  let r := CubeTelemetry.Telemetry_ThreadEntry g i in
  retained (CubeTelemetry.telemetry_buffer (snd r))
  = match fst r with
    | Some p =>
        if bool_decide
             (length (retained (CubeTelemetry.telemetry_buffer g)) < 10)%nat
        then retained (CubeTelemetry.telemetry_buffer g) ++ [p]
        else drop 1 (retained (CubeTelemetry.telemetry_buffer g)) ++ [p]
    | None => retained (CubeTelemetry.telemetry_buffer g)
    end.
Proof.
  intros Hwf. unfold CubeTelemetry.Telemetry_ThreadEntry.
  destruct (CubeTelemetry.rx_status i =? TX_SUCCESS).
  - cbn [fst snd CubeTelemetry.telemetry_buffer].
    destruct (cube_put_spec (CubeTelemetry.telemetry_buffer g)
                (CubeTelemetry.set_seq_number (CubeTelemetry.rx_pkt i)
                   (uint16_t (CubeTelemetry.sequence_number g))) Hwf)
      as (_ & _ & Hlt & Heq).
    rewrite length_retained.
    destruct Hwf as (_ & _ & Hc & _).
    change TELEMETRY_MAX_PACKETS with 10 in *.
    case_bool_decide.
    + destruct Hlt as (_ & _ & ->); [lia|reflexivity].
    + destruct Heq as (_ & _ & _ & ->); [lia|reflexivity].
  - destruct (negb _); reflexivity.
Qed.

Lemma cube_run_retained ins : forall g hist,
  ring_wf (CubeTelemetry.telemetry_buffer g) ->
  retained (CubeTelemetry.telemetry_buffer g) = last_n 10 hist ->
  ring_wf (CubeTelemetry.telemetry_buffer (cube_run g ins))
  /\ retained (CubeTelemetry.telemetry_buffer (cube_run g ins))
     = last_n 10 (hist ++ CubeTelemetry.packets_sent g ins).
Proof.
  induction ins as [|i ins IH]; intros g hist Hwf Hret.
  - cbn. by rewrite app_nil_r.
  - cbn [cube_run foldl CubeTelemetry.packets_sent].
    pose proof (cube_turn_retained g i Hwf) as Ht. cbv zeta in Ht.
    destruct (cube_turn_wf g i Hwf) as [Hwf' _].
    destruct (CubeTelemetry.Telemetry_ThreadEntry g i) as [o g'].
    cbn [fst snd] in *. destruct o as [p|].
    + replace (hist ++ p :: CubeTelemetry.packets_sent g' ins)
        with ((hist ++ [p]) ++ CubeTelemetry.packets_sent g' ins)
        by (by rewrite <- app_assoc).
      apply (IH g' (hist ++ [p]) Hwf').
      rewrite last_n_app_one, <- Hret. exact Ht.
    + apply (IH g' hist Hwf'). by rewrite Ht.
Qed.

(** X16: after any sequence of turns of the started STM32CubeIDE sender,
    the retained cache holds the last ten packets handed to
    [Telemetry_SendUDP] (all of them if fewer), oldest first, and
    [Telemetry_GetLastPacket] returns the last one, or reports no data if
    there was none. *)
Theorem cube_cache_is_last_ten_sent ins :
  let g := cube_run CubeTelemetry.started ins in
  let sent := CubeTelemetry.packets_sent CubeTelemetry.started ins in
  retained (CubeTelemetry.telemetry_buffer g) = last_n 10 sent
  /\ CubeTelemetry.Telemetry_GetLastPacket g = last sent.
Proof.
  cbv zeta.
  destruct (cube_run_retained ins CubeTelemetry.started [] cube_init_wf
              eq_refl) as [Hwf Hret].
  cbn [app] in Hret. split; [exact Hret|].
  rewrite cube_last_spec; [|apply cube_reachable_wf|exact Hwf].
  rewrite Hret. apply last_last_n.
Qed.





(** X18 for the first packet after start, refused by
    [nx_udp_socket_send]. *)
Lemma cube_send_failure_witness :
  let r := CubeTelemetry.Telemetry_ThreadEntry CubeTelemetry.started
             cube_send_refused in
  CubeTelemetry.error_count (snd r) = 1
  /\ CubeTelemetry.tx_count (snd r) = 0
  /\ CubeTelemetry.Telemetry_GetLastPacket (snd r) = fst r.
Proof.
  assert (H1 : CubeTelemetry.telemetry_initialized CubeTelemetry.started
               = true) by reflexivity.
  assert (H2 : ring_wf (CubeTelemetry.telemetry_buffer CubeTelemetry.started))
    by exact cube_init_wf.
  assert (H3 : CubeTelemetry.rx_status cube_send_refused = TX_SUCCESS)
    by reflexivity.
  assert (H4 : CubeTelemetry.Telemetry_SendUDP CubeTelemetry.started
                 (CubeTelemetry.net cube_send_refused) <> NX_SUCCESS)
    by (vm_compute; congruence).
  destruct (cube_send_failure CubeTelemetry.started cube_send_refused
              H1 H2 H3 H4) as (He & Ht & Hl & _).
  split; [exact He|]. split; [exact Ht|exact Hl].
Defined.

(** ** Sequences of calls of Core/Src/app_telemetry.c *)

Lemma core_results_fifo cs : forall g n,
  CoreTelemetry.telemetry_initialized g = true ->
  ring_wf (CoreTelemetry.telemetry_buffer g) ->
  CoreTelemetry.sequence_number g = uint32_t n ->
  CoreCalls.results g cs
  = CoreCalls.bounded_fifo (retained (CoreTelemetry.telemetry_buffer g)) n cs.
Proof.
  induction cs as [|c cs IH]; intros g n Hi Hwf Hn; [reflexivity|].
  cbn [CoreCalls.results CoreCalls.bounded_fifo].
  destruct c as [p t|]; cbn [CoreCalls.perform].
  - unfold CoreTelemetry.Telemetry_AddPacket. rewrite Hi. cbn [negb].
    cbn [CoreTelemetry.ret CoreTelemetry.sent CoreTelemetry.vars].
    rewrite Hn, uint32_t_idem, uint32_t_add_l.
    set (q := CoreTelemetry.set_seq_number p (uint32_t n)).
    destruct (core_put_spec (CoreTelemetry.telemetry_buffer g) q Hwf)
      as (Hwf' & Hlt & Heq).
    rewrite length_retained.
    pose proof Hwf as (_ & _ & Hc & _).
    change TELEMETRY_MAX_PACKETS with 10 in *.
    case_bool_decide.
    + destruct Hlt as (-> & _ & Hr); [lia|]. f_equal.
      rewrite <- Hr. apply IH; [reflexivity|exact Hwf'|reflexivity].
    + destruct Heq as (-> & Hb); [lia|]. f_equal.
      rewrite IH with (n := n + 1); [by rewrite Hb|reflexivity|exact Hwf'|].
      reflexivity.
  - unfold CoreTelemetry.Telemetry_GetLastPacket. rewrite Hi. cbn [negb].
    destruct (core_get_spec (CoreTelemetry.telemetry_buffer g) Hwf)
      as (Hwf' & Hh & Hr & _).
    destruct (CoreTelemetry.Telemetry_BufferGet _) as [r b].
    cbn [fst snd] in *. subst r. f_equal.
    rewrite IH with (n := n); [|reflexivity|exact Hwf'|exact Hn].
    cbn [CoreTelemetry.telemetry_buffer]. rewrite Hr.
    by destruct (retained _).
Qed.

(** X19: the cache of [Core/Src/app_telemetry.c] is a first-in first-out
    queue of ten places that refuses new packets when full.  For every
    sequence of calls of [Telemetry_AddPacket] and [Telemetry_GetLastPacket]
    after [Telemetry_Init], each call returns what the queue gives:
    [Telemetry_AddPacket] numbers its packet with the count of earlier
    calls (modulo 2^32) and hands it to the network if NetX provides a
    packet, whether or not the cache has room; it returns [true] and
    appends the numbered packet if fewer than ten are waiting, and returns
    [false] and drops it from the cache otherwise;
    [Telemetry_GetLastPacket] removes and returns the oldest waiting
    packet, or reports none. *)
Theorem core_cache_is_bounded_fifo cs :
  CoreCalls.results CoreTelemetry.Telemetry_Init cs
  = CoreCalls.bounded_fifo [] 0 cs.
Proof.
  exact (core_results_fifo cs CoreTelemetry.Telemetry_Init 0 eq_refl
           core_init_wf eq_refl).
Qed.

(** ** The batches of a run *)

Section AllBatches.

Import FeatureExtraction.
Context `{dsp : FloatDSP}.

Lemma batch_samples_snoc b f :
  batch_samples (b ++ [f]) = batch_samples b ++ samples f.
Proof.
  unfold batch_samples. rewrite fmap_app, join_app. cbn.
  by rewrite app_nil_r.
Qed.

Lemma batch_flags_snoc b f :
  batch_flags (b ++ [f]) = Z.lor (batch_flags b) (error_flags f).
Proof. unfold batch_flags. by rewrite fmap_app, foldl_app. Qed.

(** A turn that receives no frame leaves the pending frames as they
    are and builds nothing. *)
Lemma pending_idle boot g i pend :
  pending boot g pend -> rx_status i <> TX_SUCCESS ->
  exists g',
    FeatureExtraction_ThreadEntry g i = Continue g'
    /\ built g (Turn i) = None
    /\ pending boot g' pend.
Proof.
  intros (Hext & Hp) Hs. pose proof Hext as (Hinv & Hrun & _).
  destruct (turn_spec g i Hinv) as (g' & E & _).
  exists g'. split; [exact E|].
  assert (Hb : built g (Turn i) = None).
  { unfold built. apply Z.eqb_neq in Hs. rewrite Hs. cbn [negb].
    by rewrite orb_true_r. }
  split; [exact Hb|].
  split; [eapply turn_extractor_inv; eassumption|].
  revert E. unfold FeatureExtraction_ThreadEntry.
  rewrite Hrun. change (1 =? 0) with false. cbv iota.
  destruct (rx_status i =? TX_QUEUE_EMPTY); [by intros [= <-]|].
  apply Z.eqb_neq in Hs. rewrite Hs. cbn [negb].
  intros [= <-]. exact Hp.
Qed.

Lemma pending_drain boot g pend :
  pending boot g pend ->
  pending boot
    (set_ctx g (set_output_queue (feature_ctx g)
                  (tx_queue_take (output_queue (feature_ctx g))))) pend.
Proof. intros H. exact H. Qed.

(** A frame joins the pending ones, or completes their batch. *)
Lemma pending_frame boot g i pend :
  pending boot g pend -> rx_status i = TX_SUCCESS ->
  length (samples (rx_frame i)) = 512%nat ->
  exists g',
    FeatureExtraction_ThreadEntry g i = Continue g'
    /\ if bool_decide (length pend = 3%nat)
       then (exists p, built g (Turn i) = Some p
                       /\ packet_features p
                          = batch_features (pend ++ [rx_frame i]))
            /\ pending boot g' []
       else built g (Turn i) = None
            /\ pending boot g' (pend ++ [rx_frame i]).
Proof.
  intros (Hext & Hlt & Hlen & (rest & Hacc) & Hsc & Hfl) Hs Hf.
  case_bool_decide as H3.
  - destruct (turn_emits boot g i (batch_samples pend) rest Hext Hs Hf Hacc
                Hsc ltac:(rewrite Hsc, Hlen, H3; reflexivity))
      as (p & g' & E & Hb & Hext' & Hz & _ & Hrms & Hzcr & Hpk & _ & Hfft
          & Hst & _).
    exists g'. split; [exact E|]. split.
    + exists p. split; [exact Hb|].
      unfold packet_features, batch_features.
      rewrite batch_samples_snoc, batch_flags_snoc.
      rewrite Hrms, Hzcr, Hpk, Hfft, Hst, Hfl. reflexivity.
    + split; [exact Hext'|]. split; [cbn; lia|]. split; [reflexivity|].
      rewrite Hz. split; [by eexists|]. split; [reflexivity|].
      pose proof Hext' as (_ & _ & _ & _ & Hclean).
      apply Hclean. rewrite Hz. reflexivity.
  - destruct (turn_appends boot g i (batch_samples pend) rest Hext Hs Hf Hacc
                Hsc ltac:(rewrite Hsc, Hlen; lia))
      as (g' & E & Hb & Hext' & Hacc' & Hsc' & Hfl' & _).
    exists g'. split; [exact E|]. split; [exact Hb|].
    split; [exact Hext'|]. split; [rewrite length_app; cbn; lia|].
    rewrite batch_samples_snoc, batch_flags_snoc.
    split; [rewrite !length_app, Hlen, Hf; cbn; lia|].
    split; [by eexists|]. split; [exact Hsc'|].
    rewrite Hfl', Hfl. reflexivity.
Qed.

Lemma run_batches boot es : forall g pend,
  pending boot g pend ->
  Forall wf_frame (frames_received es) ->
  packet_features <$> packets_built g es
  = batch_features <$> batches_from pend (frames_received es).
Proof.
  induction es as [|e es IH]; intros g pend Hp Hwf; [reflexivity|].
  cbn [packets_built frames_received omap list_omap] in *.
  destruct e as [i|]; cbn [step].
  - destruct (Z.eqb_spec (rx_status i) TX_SUCCESS) as [Hs|Hs].
    + apply Forall_cons in Hwf as [[Hf _] Hwf].
      change (Z.to_nat AudioFeatures.AUDIO_FRAME_SIZE) with 512%nat in Hf.
      destruct (pending_frame boot g i pend Hp Hs Hf) as (g' & E & H).
      rewrite E. cbn [batches_from].
      destruct (bool_decide (length pend = 3%nat)).
      * destruct H as ((p & Hb & Hfe) & Hp'). rewrite Hb.
        cbn [fmap list_fmap]. rewrite Hfe. f_equal. by apply IH.
      * destruct H as (Hb & Hp'). rewrite Hb. by apply IH.
    + destruct (pending_idle boot g i pend Hp Hs) as (g' & E & Hb & Hp').
      rewrite E, Hb. by apply IH.
  - cbn [built]. apply IH; [|exact Hwf]. by apply pending_drain.
Qed.

Lemma length_batches_from pend fs :
  (length pend < 4)%nat ->
  length (batches_from pend fs) = ((length pend + length fs) / 4)%nat.
Proof.
  revert pend. induction fs as [|f fs IH]; intros pend Hlt.
  - cbn [batches_from length]. rewrite Nat.add_0_r. symmetry.
    by apply Nat.div_small.
  - cbn [batches_from]. case_bool_decide as H3; cbn [length].
    + rewrite IH by (cbn [length]; lia). rewrite H3. cbn [length].
      replace (3 + S (length fs))%nat with (1 * 4 + length fs)%nat by lia.
      rewrite Nat.div_add_l by lia. reflexivity.
    + rewrite IH by (rewrite length_app; cbn [length]; lia).
      rewrite length_app. cbn [length]. f_equal. lia.
Qed.

(** X20: the packets of a run are the batches of four of its frames.
    For every sequence of turns of the started extractor in which the
    frames received are well formed, with any time-outs, receive errors and
    queue drains in between, the number of packets built is the number of
    frames received divided by four, and the k-th packet has the RMS, zero
    crossing rate, peak, spectral bands and status byte of the frames
    4k .. 4k+3 in arrival order: no frame is lost, repeated or moved to
    another batch, and the frames of an incomplete batch wait for the
    next ones. *)
Theorem packets_are_the_batches_of_four boot es :
  Forall wf_frame (frames_received es) ->
  let built := packets_built
                 (FeatureExtraction_Start boot FeatureExtraction_Init) es in
  packet_features <$> built
  = batch_features <$> batches_from [] (frames_received es)
  /\ length built = (length (frames_received es) / 4)%nat.
Proof.
  intros Hwf built.
  assert (Hp : pending boot
                 (FeatureExtraction_Start boot FeatureExtraction_Init) []).
  { split; [apply start_extractor_inv|]. split; [cbn; lia|].
    split; [reflexivity|]. split; [by eexists|]. split; reflexivity. }
  pose proof (run_batches boot es _ [] Hp Hwf) as E.
  split; [exact E|].
  apply (f_equal length) in E. rewrite !length_fmap in E.
  subst built. rewrite E, length_batches_from by (cbn [length]; lia).
  reflexivity.
Qed.

End AllBatches.

(** X20 on [interleaved_run]: one packet, with the flags of the first four
    frames. *)
Lemma packets_are_the_batches_of_four_witness :
  f_status_flags
  <$> (packet_features
       <$> FeatureExtraction.packets_built (dsp := dsp_on_silence)
             (FeatureExtraction.FeatureExtraction_Start 0
                FeatureExtraction.FeatureExtraction_Init) interleaved_run)
  = [5].
Proof.
  assert (H : Forall AudioAcquisition.wf_frame
                (frames_received interleaved_run)).
  { assert (Hf : forall flags, AudioAcquisition.wf_frame (flagged_frame flags)).
    { intros flags. split; [reflexivity|].
      apply Forall_replicate. unfold is_int16. lia. }
    repeat (apply Forall_cons_2; [apply Hf|]). apply Forall_nil_2. }
  destruct (packets_are_the_batches_of_four (dsp := dsp_on_silence) 0
              interleaved_run H) as [E _].
  rewrite E. vm_compute. reflexivity.
Defined.

(** ** The spectral bands of a batch *)

Section Bands.

Import AudioAcquisition FeatureExtraction.
Context `{dsp : FloatDSP}.

Lemma bands_of_the_batches es :
  Forall wf_frame (frames_received es) ->
  AudioFeatures.fft_band <$> packets_built extractor_started es
  = f_fft_band
      <$> (batch_features <$> batches_from [] (frames_received es)).
Proof.
  intros Hwf.
  assert (Hp : pending 0 extractor_started []).
  { split; [apply start_extractor_inv|]. split; [cbn; lia|].
    split; [reflexivity|]. split; [by eexists|]. split; reflexivity. }
  rewrite <- (run_batches 0 es _ [] Hp Hwf), <- list_fmap_compose.
  reflexivity.
Qed.

End Bands.

(** C10, as stated, fails: a batch made of a frame of silence followed by
    three frames of a full-scale square wave gives a packet whose peak
    amplitude, 32767, is taken over the 2048 samples, but whose spectral
    bands are those of the 512 samples of silence of the first frame
    alone: the bands of the packet built from four frames of silence.
    This holds whatever the floating-point functions compute. *)
Lemma C10_bands_read_the_first_frame_only :
  batch_samples (frames_received quiet_then_loud)
  = replicate 512 0 ++ alternating 1536
  /\ batch_samples (frames_received silent_batch) = replicate 2048 0
  /\ forall dsp : FloatDSP,
      AudioFeatures.peak_amplitude
        <$> FeatureExtraction.packets_built extractor_started quiet_then_loud
      = [32767]
      /\ AudioFeatures.peak_amplitude
           <$> FeatureExtraction.packets_built extractor_started silent_batch
         = [0]
      /\ AudioFeatures.fft_band
           <$> FeatureExtraction.packets_built extractor_started
                 quiet_then_loud
         = [snd (AudioFeaturesC.AudioFeatures_ComputeFFTBands
                   (replicate 512 0))]
      /\ AudioFeatures.fft_band
           <$> FeatureExtraction.packets_built extractor_started silent_batch
         = [snd (AudioFeaturesC.AudioFeatures_ComputeFFTBands
                   (replicate 512 0))].
Proof.
  split; [vm_compute; reflexivity|]. split; [vm_compute; reflexivity|].
  intros dsp.
  split; [vm_compute; reflexivity|]. split; [vm_compute; reflexivity|].
  assert (Hs : forall t, AudioAcquisition.wf_frame (silent_frame t)).
  { intros t. split; [reflexivity|].
    apply Forall_replicate. unfold is_int16. lia. }
  assert (Hl : forall t, AudioAcquisition.wf_frame (loud_frame t)).
  { intros t. split; [reflexivity|].
    apply Forall_fmap, Forall_forall. intros k _. cbn.
    unfold is_int16. destruct (Nat.even k); lia. }
  split.
  - rewrite bands_of_the_batches
      by (repeat (apply Forall_cons_2; [first [apply Hs|apply Hl]|]);
          apply Forall_nil_2).
    change (batches_from [] (frames_received quiet_then_loud))
      with [[silent_frame 1000; loud_frame 1032; loud_frame 1064;
             loud_frame 1096]].
    cbn [fmap list_fmap batch_features f_fft_band].
    change (batch_samples [silent_frame 1000; loud_frame 1032;
                           loud_frame 1064; loud_frame 1096])
      with (replicate 512 0
            ++ (alternating 512 ++ alternating 512 ++ alternating 512 ++ [])).
    rewrite ComputeFFTBands_prefix by reflexivity. reflexivity.
  - rewrite bands_of_the_batches
      by (repeat (apply Forall_cons_2; [first [apply Hs|apply Hl]|]);
          apply Forall_nil_2).
    change (batches_from [] (frames_received silent_batch))
      with [[silent_frame 1000; silent_frame 1032; silent_frame 1064;
             silent_frame 1096]].
    cbn [fmap list_fmap batch_features f_fft_band].
    change (batch_samples [silent_frame 1000; silent_frame 1032;
                           silent_frame 1064; silent_frame 1096])
      with (replicate 512 0
            ++ (replicate 512 0 ++ replicate 512 0 ++ replicate 512 0 ++ [])).
    rewrite ComputeFFTBands_prefix by reflexivity. reflexivity.
Qed.
